(** * Offline-first diary synchronisation and backup restore

    A shallow embedding of the client-side synchronisation layer of the
    journaling application:

    - [lib/supabase.ts]: the remote configuration ([isLocalMode],
      [supabase]), [userService.createOrGetUser], [userService.getUserId]
      and [diaryService.syncDiaries];
    - the [useAutoSync] hook in its two revisions (the one that reconciles
      both score spellings and the earlier one), with [syncData] and
      [triggerManualSync];
    - [handleRestoreFromBackup] of [AdminBackupRestore.tsx].

    JavaScript values are modelled by an inductive type, [undefined] by the
    absence of a value ([None]); objects are finite maps from property names
    to values.  Asynchronous functions are written in state-passing style
    over a [World] that holds the browser's local storage, the React state of
    the hook, the remote backend and a log of the remote calls issued; the
    configuration read from the environment is a constant of the module and
    is passed as a parameter. *)

From Stdlib Require Import ZArith String Ascii List Floats DecimalString.
From stdpp Require Import base option list gmap strings fin_maps.

Local Open Scope string_scope.

(** ** JavaScript values *)

Module JS.

(** A value as produced by [JSON.parse], with numbers as IEEE doubles. *)
#[local] Unset Elimination Schemes.
Inductive value : Type :=
| VNull
| VBool (b : bool)
| VNum (n : float)
| VStr (s : string)
| VArr (l : list value)
| VObj (m : gmap string value).
#[local] Set Elimination Schemes.

(** An expression of type [any] evaluates to a value or to [undefined]. *)
Abbreviation any := (option value).
Abbreviation undefined := (@None value).

(** The built-ins the code relies on and whose algorithms are not part of the
    application. *)
Class Runtime := {
  (** [Number(s)] for a string [s] *)
  StringToNumber : string → float;
  (** [Number(o)] for an array or an object [o] *)
  ObjectToNumber : value → float;
  (** [JSON.parse]; [None] when it raises a [SyntaxError] *)
  JSON_parse : string → option value;
  (** [JSON.stringify] on a value that came out of [JSON.parse] *)
  JSON_stringify : value → string;
  (** [new Date(ms).toISOString()] *)
  toISOString : nat → string
}.

(** [n.toString()] and the rendering of [n] in a template literal, for a
    non-negative integer [n]: its decimal digits. *)
Definition nat_toString (n : nat) : string :=
  DecimalString.NilZero.string_of_uint (Nat.to_uint n).

(** [!!x] *)
Definition truthy (x : any) : bool :=
  match x with
  | None => false
  | Some VNull => false
  | Some (VBool b) => b
  | Some (VNum n) => negb (PrimFloat.is_nan n || PrimFloat.is_zero n)
  | Some (VStr s) => negb (String.eqb s EmptyString)
  | Some (VArr _) => true
  | Some (VObj _) => true
  end.

(** [!!s] for a string, as for [localStorage.getItem] results *)
Definition nonempty (s : string) : bool := negb (String.eqb s EmptyString).

(** [!!x] for [x : string | null] *)
Definition truthy_str (x : option string) : bool :=
  match x with
  | None => false
  | Some s => nonempty s
  end.

(** [x === undefined] *)
Definition is_undefined (x : any) : bool :=
  match x with
  | None => true
  | Some _ => false
  end.

(** [x === undefined || x === null] *)
Definition nullish (x : any) : bool :=
  match x with
  | None => true
  | Some VNull => true
  | Some _ => false
  end.

(** [Number(x)] *)
Definition Number `{Runtime} (x : any) : float :=
  match x with
  | None => PrimFloat.nan
  | Some VNull => 0%float
  | Some (VBool b) => if b then 1%float else 0%float
  | Some (VNum n) => n
  | Some (VStr s) => StringToNumber s
  | Some (VArr l) => ObjectToNumber (VArr l)
  | Some (VObj m) => ObjectToNumber (VObj m)
  end.

(** [a || b] *)
Definition or_else (a b : any) : any := if truthy a then a else b.

(** Property read [x.k] on a value that is not [null]; own properties of
    objects only, every other value has none of the names the code reads.
    [None] in the outer option is the [TypeError] raised on [null]. *)
Definition get_prop (x : value) (k : string) : option any :=
  match x with
  | VNull => None
  | VObj m => Some (m !! k)
  | _ => Some undefined
  end.

(** Storing an optional property: a property whose value is [undefined] is
    left out of the map (no code here distinguishes the two). *)
Definition set_prop (k : string) (x : any) (o : gmap string value) : gmap string value :=
  match x with
  | Some v => <[k := v]> o
  | None => delete k o
  end.

(** An [Error] object: [error.name] and [error.message]. *)
Record Error := {
  error_name : string;
  error_message : string
}.

(** [String(error)] *)
Definition String_of_error (err : Error) : string :=
  error_name err ++ ": " ++ error_message err.

(** The [TypeError] of a property read on [null]. *)
Definition null_read : Error :=
  {| error_name := "TypeError";
     error_message := "Cannot read properties of null" |}.

(** The [SyntaxError] of [JSON.parse]. *)
Definition parse_error : Error :=
  {| error_name := "SyntaxError";
     error_message := "Unexpected token in JSON" |}.

(** [new Error(msg)] *)
Definition new_Error (msg : string) : Error :=
  {| error_name := "Error"; error_message := msg |}.

(** The outcome of a block that may raise: a value, or the exception. *)
Inductive Completion (A : Type) :=
| Normal (a : A)
| Throw (err : Error).
Arguments Normal {A} a.
Arguments Throw {A} err.

End JS.


(** ** The remote backend and the world the code runs in *)

Module Remote.
Import JS.

(** [import.meta.env]: the three variables read by [lib/supabase.ts]; an
    unset variable is [None]. *)
Record Env := {
  VITE_SUPABASE_URL : option string;
  VITE_SUPABASE_ANON_KEY : option string;
  VITE_LOCAL_MODE : option string
}.

(** The handle returned by [createClient(supabaseUrl, supabaseAnonKey)]. *)
Record Client := { url : string; anonKey : string }.

(** A row of the [users] relation; the sentinel object built on the client has
    no [created_at]. *)
Record User := {
  id : string;
  line_username : string;
  created_at : option string
}.

(** The [error] member of a PostgREST response. *)
Record PostgrestError := {
  code : string;
  message : string;
  details : option string
}.

(** What awaiting a query gives: a [{ data, error }] response, or a rejected
    promise (an exception at the [await], [reason] being its rendering by
    [String]). *)
Inductive Reply (A : Type) :=
| Resolved (data : option A) (error : option PostgrestError)
| Rejected (reason : string).
Arguments Resolved {A} data error.
Arguments Rejected {A} reason.

(** The four queries issued by [userService] and [diaryService.syncDiaries]. *)
Inductive Request :=
| UsersSelectSingle (lineUsername : string)
| UsersInsertSelectSingle (lineUsername : string)
| UsersSelectIdSingle (lineUsername : string)
| DiaryEntriesUpsert (rows : list (gmap string value)).

(** The remote service, seen from the client: a state and its reaction to
    each query. *)
Class Backend (R : Type) := {
  (** [from('users').select('*').eq('line_username', n).single()] *)
  users_select_single : string → R → Reply User * R;
  (** [from('users').insert([{ line_username: n }]).select().single()] *)
  users_insert_select_single : string → R → Reply User * R;
  (** [from('users').select('id').eq('line_username', n).single()] *)
  users_select_id_single : string → R → Reply string * R;
  (** [from('diary_entries').upsert(rows, { onConflict: 'id', ignoreDuplicates: false })] *)
  diary_entries_upsert : list (gmap string value) → R → Reply value * R
}.

(** The device identity of [lib/deviceAuth], as [getCurrentUser()] returns it. *)
Record DeviceUser := { lineUsername : string }.

(** The React state of the [useAutoSync] hook. *)
Record HookState := {
  isSyncing : bool;
  lastSyncTime : option string;
  error : option string;
  currentUser : option User
}.

Record World (R : Type) := {
  localStorage : gmap string string;
  hook : HookState;
  (** what [getCurrentUser()] returns *)
  auth : option DeviceUser;
  remote : R;
  (** the remote calls issued so far, oldest first *)
  calls : list Request;
  (** the system clock: the [k]-th reading gives [clock k] milliseconds *)
  clock : nat → nat;
  reads : nat
}.
Arguments localStorage {R} w.
Arguments hook {R} w.
Arguments auth {R} w.
Arguments remote {R} w.
Arguments calls {R} w.
Arguments clock {R} w.
Arguments reads {R} w.

(** [const isLocalMode = import.meta.env.VITE_LOCAL_MODE === 'true'] *)
Definition isLocalMode (e : Env) : bool :=
  match VITE_LOCAL_MODE e with
  | Some s => String.eqb s "true"
  | None => false
  end.

(** [const supabase = (!isLocalMode && supabaseUrl && supabaseAnonKey)
      ? createClient(supabaseUrl, supabaseAnonKey) : null] *)
Definition supabase (e : Env) : option Client :=
  match VITE_SUPABASE_URL e, VITE_SUPABASE_ANON_KEY e with
  | Some u, Some k =>
      if negb (isLocalMode e) && nonempty u && nonempty k
      then Some {| url := u; anonKey := k |}
      else None
  | _, _ => None
  end.

Section Model.
Context `{Runtime} {R : Type} `{Backend R}.

(** A computation over the world. *)
Definition M (A : Type) : Type := World R → A * World R.

Definition ret {A} (a : A) : M A := fun w => (a, w).
Definition bind {A B} (m : M A) (k : A → M B) : M B :=
  fun w => let '(a, w') := m w in k a w'.

Definition with_remote (b : R) (q : Request) (w : World R) : World R :=
  {| localStorage := localStorage w; hook := hook w;
     auth := auth w; remote := b; calls := calls w ++ [q];
     clock := clock w; reads := reads w |}.

Definition with_localStorage (s : gmap string string) (w : World R) : World R :=
  {| localStorage := s; hook := hook w;
     auth := auth w; remote := remote w; calls := calls w;
     clock := clock w; reads := reads w |}.

Definition with_hook (h : HookState) (w : World R) : World R :=
  {| localStorage := localStorage w; hook := h;
     auth := auth w; remote := remote w; calls := calls w;
     clock := clock w; reads := reads w |}.

(** [Date.now()]: one reading of the clock *)
Definition Date_now : M nat :=
  fun w => (clock w (reads w),
            {| localStorage := localStorage w; hook := hook w;
               auth := auth w; remote := remote w; calls := calls w;
               clock := clock w; reads := S (reads w) |}).

(** [new Date().toISOString()] *)
Definition new_Date_toISOString : M string :=
  bind Date_now (fun ms => ret (toISOString ms)).

(** Awaiting a query: the backend answers and the call is logged. *)
Definition await {A} (q : Request) (run : R → Reply A * R) : M (Reply A) :=
  fun w => let '(r, b) := run (remote w) in (r, with_remote b q w).

(** [localStorage.getItem(k)] *)
Definition getItem (k : string) : M (option string) :=
  fun w => (localStorage w !! k, w).

(** [localStorage.setItem(k, v)] *)
Definition setItem (k v : string) : M unit :=
  fun w => (tt, with_localStorage (<[k := v]> (localStorage w)) w).

End Model.
Arguments M R A : clear implicits.

Notation "'let*' x ':=' m 'in' k" := (bind m (fun x => k))
  (at level 10, x pattern, m at level 100, k at level 200).
Notation "'do' m 'then' k" := (bind m (fun _ => k))
  (at level 10, m at level 100, k at level 200).

End Remote.

(** ** [lib/supabase.ts]: [userService] and [diaryService] *)

Module Supabase.
Import JS Remote.

(** The identifier standing for "no remote identity". *)
Definition local_user_id : string := "local-user-id".

(** The result object of [diaryService.syncDiaries]. *)
Record SyncResult := {
  success : bool;
  sync_error : option string;
  sync_data : any
}.

(** The score reconciliation written out in [diaryService.syncDiaries] and in
    the [entries.map] of [syncData]: start from the snake_case property, fall
    back to the camelCase one when the former is [undefined], and replace
    [undefined] and [null] by 50. *)
Definition reconcile_score (snake camel : any) : value :=
  let score := snake in
  let score :=
    if is_undefined score && negb (is_undefined camel) then camel else score in
  match score with
  | None => VNum 50
  | Some VNull => VNum 50
  | Some v => v
  end.

(** [x || null] *)
Definition or_null (x : any) : value :=
  match or_else x (Some VNull) with
  | Some v => v
  | None => VNull
  end.

(** [x || false] *)
Definition or_false (x : any) : value :=
  match or_else x (Some (VBool false)) with
  | Some v => v
  | None => VBool false
  end.

Section Services.
Context `{Runtime} {R : Type} `{Backend R} (e : Env).

(** [userService.createOrGetUser] *)
Definition createOrGetUser (lineUsername : string) : M R (option User) :=
  fun w =>
  match supabase e with
  | None => (None, w)
  | Some _ =>
    if isLocalMode e then
      (Some {| id := local_user_id; line_username := lineUsername;
               created_at := None |}, w)
    else
      let '(found, w1) :=
        await (UsersSelectSingle lineUsername)
              (users_select_single lineUsername) w in
      match found with
      | Rejected _ => (None, w1)
      | Resolved existingUser searchError =>
        let other_error :=
          match searchError with
          | Some e => negb (String.eqb (code e) "PGRST116")
          | None => false
          end in
        if other_error then (None, w1)
        else
          match existingUser with
          | Some u => (Some u, w1)
          | None =>
            let '(created, w2) :=
              await (UsersInsertSelectSingle lineUsername)
                    (users_insert_select_single lineUsername) w1 in
            match created with
            | Rejected _ => (None, w2)
            | Resolved newUser (Some _) => (None, w2)
            | Resolved newUser None => (newUser, w2)
            end
          end
      end
  end.

(** [userService.getUserId] *)
Definition getUserId (lineUsername : string) : M R (option string) :=
  fun w =>
  match supabase e with
  | None => (None, w)
  | Some _ =>
    if isLocalMode e then (Some local_user_id, w)
    else
      let '(found, w1) :=
        await (UsersSelectIdSingle lineUsername)
              (users_select_id_single lineUsername) w in
      match found with
      | Rejected _ => (None, w1)
      | Resolved _ (Some _) => (None, w1)
      | Resolved (Some i) None => (if nonempty i then Some i else None, w1)
      | Resolved None None => (None, w1)
      end
  end.

(** The callback of [diaries.map] in [syncDiaries].  Reading a property of
    [null] raises; [Date.now()] and [new Date()] are read only when the
    left operand of [||] is falsy, [id] before [created_at]. *)
Definition formatDiary (userId : string) (diary : value)
  : M R (Completion (gmap string value)) :=
  match get_prop diary "self_esteem_score" with
  | None => ret (Throw null_read)
  | Some snake_self =>
    let prop k := default undefined (get_prop diary k) in
    let selfEsteemScore := reconcile_score snake_self (prop "selfEsteemScore") in
    let worthlessnessScore :=
      reconcile_score (prop "worthlessness_score") (prop "worthlessnessScore") in
    let* id_ :=
      if truthy (prop "id") then ret (prop "id")
      else let* ms := Date_now in ret (Some (VStr (nat_toString ms))) in
    let* created :=
      if truthy (prop "created_at") then ret (prop "created_at")
      else let* now := new_Date_toISOString in ret (Some (VStr now)) in
    ret (Normal
      (set_prop "id" id_
      (<["user_id" := VStr userId]>
      (set_prop "date" (prop "date")
      (set_prop "emotion" (prop "emotion")
      (set_prop "event" (prop "event")
      (set_prop "realization" (prop "realization")
      (<["self_esteem_score" := selfEsteemScore]>
      (<["worthlessness_score" := worthlessnessScore]>
      (set_prop "created_at" created
      (<["counselor_memo" := or_null (prop "counselor_memo")]>
      (<["is_visible_to_user" := or_false (prop "is_visible_to_user")]>
      (<["counselor_name" := or_null (prop "counselor_name")]>
      (<["assigned_counselor" := or_null (prop "assigned_counselor")]>
      (<["urgency_level" := or_null (prop "urgency_level")]> ∅)))))))))))))))
  end.

(** [diaries.map(f)]: the callback runs on the elements from left to right and
    the first exception ends the traversal. *)
Fixpoint mapM {A B} (f : A → M R (Completion B)) (l : list A)
  : M R (Completion (list B)) :=
  match l with
  | [] => ret (Normal [])
  | x :: rest =>
    let* y := f x in
    match y with
    | Throw e => ret (Throw e)
    | Normal b =>
      let* ys := mapM f rest in
      match ys with
      | Throw e => ret (Throw e)
      | Normal bs => ret (Normal (b :: bs))
      end
    end
  end.

(** One iteration of the fallback loop: an upsert of the single record; an
    error response and an exception both leave the counter as it is. *)
Definition upsertOne (diary : gmap string value) (successCount : nat) : M R nat :=
  let* single :=
    await (DiaryEntriesUpsert [diary]) (diary_entries_upsert [diary]) in
  match single with
  | Resolved _ None => ret (S successCount)
  | Resolved _ (Some _) => ret successCount
  | Rejected _ => ret successCount
  end.

(** [for (const diary of formattedDiaries) { ... }] *)
Fixpoint upsertEach (formattedDiaries : list (gmap string value))
  (successCount : nat) : M R nat :=
  match formattedDiaries with
  | [] => ret successCount
  | diary :: rest =>
    let* n := upsertOne diary successCount in upsertEach rest n
  end.

(** The text of the partial-success report. *)
Definition syncedMessage (successCount total : nat) : string :=
  nat_toString successCount ++ "/" ++ nat_toString total
    ++ " 件のデータを同期しました".

(** [diaryService.syncDiaries] *)
Definition syncDiaries (userId : string) (diaries : list value) : M R SyncResult :=
  fun w =>
  match supabase e with
  | None =>
    ({| success := false; sync_error := Some "Supabase接続なし";
        sync_data := undefined |}, w)
  | Some _ =>
    if isLocalMode e || negb (nonempty userId)
       || String.eqb userId local_user_id
    then
      ({| success := false;
          sync_error := Some "ローカルモードまたは無効なユーザーID";
          sync_data := undefined |}, w)
    else
      let '(formatted, w1) := mapM (formatDiary userId) diaries w in
      match formatted with
      | Throw e =>
        ({| success := false;
            sync_error := Some ("同期サービスエラー: " ++ String_of_error e);
            sync_data := Some VNull |}, w1)
      | Normal formattedDiaries =>
        let '(bulk, w2) :=
          await (DiaryEntriesUpsert formattedDiaries)
                (diary_entries_upsert formattedDiaries) w1 in
        match bulk with
        | Rejected syncError =>
          ({| success := false;
              sync_error := Some ("同期中にエラーが発生: " ++ syncError);
              sync_data := undefined |}, w2)
        | Resolved data (Some err) =>
          let '(successCount, w3) := upsertEach formattedDiaries 0 w2 in
          if Nat.ltb 0 successCount then
            ({| success := true; sync_error := None;
                sync_data :=
                  Some (VObj {[ "message" :=
                    VStr (syncedMessage successCount
                            (length formattedDiaries)) ]}) |}, w3)
          else
            ({| success := false;
                sync_error := Some ("同期エラー: " ++ message err);
                sync_data := undefined |}, w3)
        | Resolved data None =>
          ({| success := true; sync_error := None; sync_data := data |}, w2)
        end
      end
  end.

End Services.
End Supabase.

(** ** The [useAutoSync] hook: what both revisions share *)

Module AutoSync.
Import JS Remote Supabase.

(** The values a [syncData] callback closes over: it is built by
    [useCallback(..., [isSyncing, currentUser])], so it reads the state of the
    render that created it. *)
Record Closure := {
  seen_isSyncing : bool;
  seen_currentUser : option User
}.

(** The callback created by a render in state [h]. *)
Definition render (h : HookState) : Closure :=
  {| seen_isSyncing := isSyncing h; seen_currentUser := currentUser h |}.

Section Hook.
Context `{Runtime} {R : Type} `{Backend R} (e : Env).

Definition setIsSyncing (b : bool) : M R unit :=
  fun w => (tt, with_hook
    {| isSyncing := b; lastSyncTime := lastSyncTime (hook w);
       error := error (hook w); currentUser := currentUser (hook w) |} w).

Definition setError (e : option string) : M R unit :=
  fun w => (tt, with_hook
    {| isSyncing := isSyncing (hook w); lastSyncTime := lastSyncTime (hook w);
       error := e; currentUser := currentUser (hook w) |} w).

Definition setLastSyncTime (t : option string) : M R unit :=
  fun w => (tt, with_hook
    {| isSyncing := isSyncing (hook w); lastSyncTime := t;
       error := error (hook w); currentUser := currentUser (hook w) |} w).

Definition setCurrentUser (u : option User) : M R unit :=
  fun w => (tt, with_hook
    {| isSyncing := isSyncing (hook w); lastSyncTime := lastSyncTime (hook w);
       error := error (hook w); currentUser := u |} w).

(** [getCurrentUser()] of [lib/deviceAuth] *)
Definition getCurrentUser : M R (option DeviceUser) :=
  fun w => (auth w, w).

(** [entries.map(f)] on the value [JSON.parse] returned: only an array has a
    [map] method. *)
Definition entries_map (f : value → M R (Completion (gmap string value)))
  (entries : value) : M R (Completion (list (gmap string value))) :=
  match entries with
  | VArr l => mapM f l
  | VNull => ret (Throw null_read)
  | _ => ret (Throw {| error_name := "TypeError";
                      error_message := "entries.map is not a function" |})
  end.

(** [currentUser?.id || 'local-user-id'] *)
Definition currentUserId (seen : Closure) : string :=
  match seen_currentUser seen with
  | Some u => if nonempty (id u) then id u else local_user_id
  | None => local_user_id
  end.

(** The second half of the identity step, once a username is known. *)
Definition ensureUserId (seen : Closure) (lineUsername : string)
  : M R (option string) :=
  let userId := currentUserId seen in
  if negb (nonempty userId) || String.eqb userId local_user_id then
    fun w =>
    if isLocalMode e then (Some local_user_id, w)
    else
      (let* supabaseUser := createOrGetUser e lineUsername in
       match supabaseUser with
       | None => ret None
       | Some u =>
         if negb (nonempty (id u)) then ret None
         else do setCurrentUser (Some u) then ret (Some (id u))
       end) w
  else ret (Some userId).

(** The part of [syncData] from the read of the diary collection on; shared by
    the two revisions up to the callback of [entries.map]. *)
Definition syncEntries (normalize : value → M R (Completion (gmap string value)))
  (userId : string) : M R (Completion bool) :=
  let* savedEntries := getItem "journalEntries" in
  if negb (truthy_str savedEntries) then
    let* t1 := new_Date_toISOString in
    do setLastSyncTime (Some t1) then
    let* t2 := new_Date_toISOString in
    do setItem "last_sync_time" t2 then
    ret (Normal true)
  else
    match JSON_parse (default EmptyString savedEntries) with
    | None => ret (Throw parse_error)
    | Some parsed =>
      let* mapped := entries_map normalize parsed in
      match mapped with
      | Throw e => ret (Throw e)
      | Normal entries =>
        let* result := syncDiaries e userId (VObj <$> entries) in
        if negb (success result) then
          ret (Throw (new_Error
                        match sync_error result with
                        | Some msg => if nonempty msg then msg
                                      else "日記の同期に失敗しました"
                        | None => "日記の同期に失敗しました"
                        end))
        else
          let* now := new_Date_toISOString in
          do setLastSyncTime (Some now) then
          do setItem "last_sync_time" now then
          ret (Normal true)
      end
    end.

(** [setIsSyncing(true); setError(null);] *)
Definition enter : M R unit :=
  do setIsSyncing true then setError None.

(** How a pass ends, given the outcome of its [try] block:
    [catch (error) { setError(error.message); return false }
     finally { setIsSyncing(false) }]; everything raised in the block is an
    [Error]. *)
Definition leave (outcome : Completion bool) : M R bool :=
  let* result :=
    match outcome with
    | Normal b => ret b
    | Throw err => do setError (Some (error_message err)) then ret false
    end in
  do setIsSyncing false then
  ret result.

(** The frame of [syncData]: the three guards, each a [return false], then
    the pass proper. *)
Definition guarded (seen : Closure) (body : M R (Completion bool)) : M R bool :=
  fun w =>
  match supabase e with
  | None => (false, w)
  | Some _ =>
    if isLocalMode e then (false, w)
    else if seen_isSyncing seen then (false, w)
    else
      (do enter then
       let* outcome := body in
       leave outcome) w
  end.

(** Whether the three guards let an invocation through. *)
Definition passes_guards (seen : Closure) (e : Env) : bool :=
  match supabase e with
  | None => false
  | Some _ => negb (isLocalMode e) && negb (seen_isSyncing seen)
  end.

(** The hook between two events: the world, the number of passes that have
    set the flag and not yet reached their [finally], and the callbacks held
    by pending [setTimeout] timers. *)
Record Sched := {
  world : World R;
  in_flight : nat;
  timers : list Closure
}.

(** An invocation of the callback [c]: it starts a pass or returns at a
    guard. *)
Definition invoke (c : Closure) (s : Sched) : Sched :=
  if passes_guards c e
  then {| world := (enter (world s)).2; in_flight := S (in_flight s);
          timers := timers s |}
  else s.

(** The events, for a hook whose effect arms the timers [delayed h] when it
    runs for a render in state [h].  A manual request and a tick of the
    interval run the callback of the current render (the listener and the
    interval are replaced whenever [isSyncing] changes); a timer runs the
    callback it was armed with.  Between the start and the end of a pass
    anything may happen to the world except a write to [isSyncing], which only
    [enter] and [leave] perform. *)
Inductive step (delayed : HookState → list Closure) : Sched → Sched → Prop :=
| step_effect s :
    step delayed s
      {| world := world s; in_flight := in_flight s;
         timers := (timers s ++ delayed (hook (world s)))%list |}
| step_request s :
    step delayed s (invoke (render (hook (world s))) s)
| step_timer s c before after :
    timers s = (before ++ c :: after)%list →
    step delayed s
      (invoke c {| world := world s; in_flight := in_flight s;
                   timers := (before ++ after)%list |})
| step_other s w' :
    isSyncing (hook w') = isSyncing (hook (world s)) →
    step delayed s
      {| world := w'; in_flight := in_flight s; timers := timers s |}
| step_end s outcome :
    0 < in_flight s →
    step delayed s
      {| world := (leave outcome (world s)).2;
         in_flight := pred (in_flight s); timers := timers s |}.

(** The flag and the count of passes in flight agree, and no timer is
    pending. *)
Definition consistent (s : Sched) : Prop :=
  timers s = []
  ∧ ((isSyncing (hook (world s)) = false ∧ in_flight s = 0)
     ∨ (isSyncing (hook (world s)) = true ∧ in_flight s = 1)).

End Hook.
Arguments Sched R : clear implicits.
End AutoSync.

(** ** [syncData], the revision that reconciles both score spellings *)

Module Part000.
Import JS Remote Supabase AutoSync.

Section Hook.
Context `{Runtime} {R : Type} `{Backend R} (e : Env).

(** The callback of [entries.map]. *)
Definition normalizeEntry (entry : value) : M R (Completion (gmap string value)) :=
  match get_prop entry "self_esteem_score" with
  | None => ret (Throw null_read)
  | Some snake_self =>
    let prop k := default undefined (get_prop entry k) in
    let selfEsteemScore := reconcile_score snake_self (prop "selfEsteemScore") in
    let worthlessnessScore :=
      reconcile_score (prop "worthlessness_score") (prop "worthlessnessScore") in
    let* created :=
      if truthy (prop "created_at") then ret (prop "created_at")
      else let* now := new_Date_toISOString in ret (Some (VStr now)) in
    ret (Normal
      (set_prop "id" (prop "id")
      (set_prop "date" (prop "date")
      (set_prop "emotion" (prop "emotion")
      (set_prop "event" (prop "event")
      (set_prop "realization" (prop "realization")
      (<["self_esteem_score" := VNum (Number (Some selfEsteemScore))]>
      (<["worthlessness_score" := VNum (Number (Some worthlessnessScore))]>
      (<["selfEsteemScore" := VNum (Number (Some selfEsteemScore))]>
      (<["worthlessnessScore" := VNum (Number (Some worthlessnessScore))]>
      (set_prop "created_at" created
      (<["counselor_memo" := or_null (prop "counselor_memo")]>
      (<["is_visible_to_user" := or_false (prop "is_visible_to_user")]>
      (<["counselor_name" := or_null (prop "counselor_name")]>
      (<["assigned_counselor" := or_null (prop "assigned_counselor")]>
      (<["urgency_level" := or_null (prop "urgency_level")]> ∅))))))))))))))))
  end.

(** [user?.lineUsername || localStorage.getItem('line-username')] *)
Definition lineUsernameOf (user : option DeviceUser) : M R (option string) :=
  match user with
  | Some u =>
    if nonempty (lineUsername u) then ret (Some (lineUsername u))
    else getItem "line-username"
  | None => getItem "line-username"
  end.

(** The identity step; [None] is the [return false] of the source. *)
Definition resolveUserId (seen : Closure) : M R (option string) :=
  let* user := getCurrentUser in
  let* name := lineUsernameOf user in
  if negb (truthy_str name) then
    fun w => if isLocalMode e then (Some local_user_id, w) else (None, w)
  else ensureUserId e seen (default EmptyString name).

Definition syncData (seen : Closure) : M R bool :=
  guarded e seen
    (let* userId := resolveUserId seen in
     match userId with
     | None => ret (Normal false)
     | Some uid => syncEntries e normalizeEntry uid
     end).

Definition triggerManualSync (seen : Closure) : M R bool := syncData seen.

(** The timers armed by the effect that registers the [manual-sync-request]
    listener, when it runs for a render in state [h]: one after 3 s if
    [!isLocalMode && !isSyncing], one after 30 s if [!isLocalMode].  Both call
    the [triggerManualSync] of that render, and the cleanup of the effect does
    not clear them. *)
Definition delayedSyncs (h : HookState) : list Closure :=
  ((if negb (isLocalMode e) && negb (isSyncing h) then [render h] else [])
   ++ (if negb (isLocalMode e) then [render h] else []))%list.

End Hook.
End Part000.

(** ** [syncData], as in [hooks/useAutoSync.ts] *)

Module UseAutoSync.
Import JS Remote Supabase AutoSync.

Section Hook.
Context `{Runtime} {R : Type} `{Backend R} (e : Env).

(** [x || 50] *)
Definition or_50 (x : any) : value :=
  match or_else x (Some (VNum 50)) with
  | Some v => v
  | None => VNum 50
  end.

(** The callback of [entries.map]. *)
Definition normalizeEntry (entry : value) : M R (Completion (gmap string value)) :=
  match get_prop entry "id" with
  | None => ret (Throw null_read)
  | Some id_ =>
    let prop k := default undefined (get_prop entry k) in
    let* created :=
      if truthy (prop "created_at") then ret (prop "created_at")
      else let* now := new_Date_toISOString in ret (Some (VStr now)) in
    ret (Normal
      (set_prop "id" id_
      (set_prop "date" (prop "date")
      (set_prop "emotion" (prop "emotion")
      (set_prop "event" (prop "event")
      (set_prop "realization" (prop "realization")
      (<["self_esteem_score" := or_50 (prop "selfEsteemScore")]>
      (<["worthlessness_score" := or_50 (prop "worthlessnessScore")]>
      (set_prop "created_at" created
      (<["counselor_memo" := or_null (prop "counselor_memo")]>
      (<["is_visible_to_user" := or_false (prop "is_visible_to_user")]>
      (<["counselor_name" := or_null (prop "counselor_name")]>
      (<["assigned_counselor" := or_null (prop "assigned_counselor")]>
      (<["urgency_level" := or_null (prop "urgency_level")]> ∅))))))))))))))
  end.

(** The identity step; [None] is the [return false] of the source. *)
Definition resolveUserId (seen : Closure) : M R (option string) :=
  let* user := getCurrentUser in
  match user with
  | Some u =>
    if nonempty (lineUsername u) then ensureUserId e seen (lineUsername u)
    else fun w =>
      if isLocalMode e then (Some local_user_id, w) else (None, w)
  | None =>
    fun w => if isLocalMode e then (Some local_user_id, w) else (None, w)
  end.

Definition syncData (seen : Closure) : M R bool :=
  guarded e seen
    (let* userId := resolveUserId seen in
     match userId with
     | None => ret (Normal false)
     | Some uid => syncEntries e normalizeEntry uid
     end).

Definition triggerManualSync (seen : Closure) : M R bool := syncData seen.

(** The effect that registers the [manual-sync-request] listener arms no
    timer in this revision. *)
Definition delayedSyncs (h : HookState) : list Closure := [].

End Hook.
End UseAutoSync.

(** ** [handleRestoreFromBackup] of [AdminBackupRestore.tsx] *)

Module AdminBackupRestore.
Import JS.

(** The [status] state of the component. *)
Record Status := { message : string; success : bool }.

(** The browser state the handler acts on: the local storage, the two pieces
    of component state it sets, and whether the reload timer was armed. *)
Record Page := {
  localStorage : gmap string string;
  restoreInProgress : bool;
  status : option Status;
  reloadScheduled : bool
}.

(** What the [FileReader] delivers for the chosen file: a [load] event whose
    [target.result] is the text (or is not a string), or an [error] event. *)
Inductive FileEvent :=
| OnLoad (result : option string)
| OnError.

Definition keysToPreserve : list string := ["current_counselor"].

(** [Object.entries(x)]: the own enumerable properties.  An array lists its
    indices, a string its characters, numbers and booleans have none. *)
Definition Object_entries (x : value) : list (string * value) :=
  match x with
  | VObj m => map_to_list m
  | VArr l => imap (fun i v => (nat_toString i, v)) l
  | VStr s => imap (fun i c => (nat_toString i, VStr (String c EmptyString))) (list_ascii_of_string s)
  | _ => []
  end.

Section Handler.
Context `{Runtime}.

Definition with_storage (s : gmap string string) (p : Page) : Page :=
  {| localStorage := s; restoreInProgress := restoreInProgress p;
     status := status p; reloadScheduled := reloadScheduled p |}.

Definition setStatus (s : option Status) (p : Page) : Page :=
  {| localStorage := localStorage p; restoreInProgress := restoreInProgress p;
     status := s; reloadScheduled := reloadScheduled p |}.

Definition setRestoreInProgress (b : bool) (p : Page) : Page :=
  {| localStorage := localStorage p; restoreInProgress := b;
     status := status p; reloadScheduled := reloadScheduled p |}.

(** [setTimeout(() => window.location.reload(), 5000)] *)
Definition scheduleReload (p : Page) : Page :=
  {| localStorage := localStorage p; restoreInProgress := restoreInProgress p;
     status := status p; reloadScheduled := true |}.

(** [keysToPreserve.forEach(key => { const value = localStorage.getItem(key);
      if (value) preservedData[key] = value; })] *)
Definition preserve (ls : gmap string string) : gmap string string :=
  foldl (fun preservedData key =>
           match ls !! key with
           | Some v => if nonempty v then <[key := v]> preservedData
                       else preservedData
           | None => preservedData
           end) ∅ keysToPreserve.

(** What is written for a value of the backup: a string as it is, anything
    else through [JSON.stringify]. *)
Definition restoredValue (v : value) : string :=
  match v with
  | VStr s => s
  | _ => JSON_stringify v
  end.

(** The block guarded by [if (backupData.localStorage)]: save the preserved
    keys, clear, write them back, then write every entry of the backup. *)
Definition restoreLocalStorage (section : value) (ls : gmap string string)
  : gmap string string :=
  let preservedData := preserve ls in
  let cleared : gmap string string := ∅ in
  let kept :=
    foldl (fun st kv => <[kv.1 := kv.2]> st) cleared (map_to_list preservedData) in
  foldl (fun st kv => <[kv.1 := restoredValue kv.2]> st) kept
        (Object_entries section).

(** The [try] block of the [onload] handler after [JSON.parse].  The part on
    [backupData.supabaseData] only writes to the console and is left out. *)
Definition restoreDocument (backupData : value) (p : Page) : Completion unit * Page :=
  match get_prop backupData "metadata" with
  | None => (Throw null_read, p)
  | Some metadata =>
    match metadata with
    | Some m =>
      if negb (truthy metadata)
         || negb (truthy (default undefined (get_prop m "version")))
      then (Throw (new_Error "無効なバックアップファイルです。"), p)
      else
        let section := default undefined (get_prop backupData "localStorage") in
        let p1 :=
          match section with
          | Some s =>
            if truthy section
            then with_storage (restoreLocalStorage s (localStorage p)) p
            else p
          | None => p
          end in
        let p2 := setStatus (Some
          {| message := "バックアップからの復元が完了しました！ページを再読み込みしてください。";
             success := true |}) p1 in
        (Normal tt, scheduleReload p2)
    | None => (Throw (new_Error "無効なバックアップファイルです。"), p)
    end
  end.

(** [fileReader.onload] *)
Definition onload (result : option string) (p : Page) : Page :=
  let '(outcome, p1) :=
    match result with
    | None => (Throw (new_Error "ファイルの読み込みに失敗しました。"), p)
    | Some text =>
      match JSON_parse text with
      | None => (Throw parse_error, p)
      | Some backupData => restoreDocument backupData p
      end
    end in
  match outcome with
  | Normal _ => p1
  | Throw _ =>
    setRestoreInProgress false
      (setStatus (Some
        {| message := "データの復元に失敗しました。有効なバックアップファイルか確認してください。";
           success := false |}) p1)
  end.

(** [fileReader.onerror] *)
Definition onerror (p : Page) : Page :=
  setRestoreInProgress false
    (setStatus (Some {| message := "ファイルの読み込みに失敗しました。";
                        success := false |}) p).

(** [handleRestoreFromBackup], with the chosen file given by the event its
    reading ends in and [confirmed] the answer to [window.confirm]. *)
Definition handleRestoreFromBackup (backupFile : option FileEvent)
  (confirmed : bool) (p : Page) : Page :=
  match backupFile with
  | None =>
    setStatus (Some {| message := "バックアップファイルを選択してください。";
                       success := false |}) p
  | Some file =>
    if negb confirmed then p
    else
      let p1 := setStatus None (setRestoreInProgress true p) in
      match file with
      | OnLoad result => onload result p1
      | OnError => onerror p1
      end
  end.

End Handler.
End AdminBackupRestore.

(** ** A model of the remote relations, after the schema migration *)

Module Postgres.
Import JS Remote.

(** A failure that does not depend on the stored data: an error response of
    the service, or a request that never got an answer. *)
Inductive Fault :=
| ErrorResponse (e : PostgrestError)
| NetworkFailure (reason : string).

(** The [users] and [diary_entries] relations of the migration.  [users] has
    [id uuid PRIMARY KEY DEFAULT gen_random_uuid()] and
    [line_username text UNIQUE NOT NULL]; [diary_entries] is keyed by [id].
    [faults] decides the fate of the coming requests, one entry per request,
    [None] meaning that the request is served.  Row-level policies are not
    part of the model: the client is taken to act under a role that may read
    and write both relations. *)
Record DB := {
  users : list User;
  diary_entries : gmap string (gmap string value);
  generated : nat;
  now : string;
  faults : list (option Fault)
}.

(** [gen_random_uuid()]: the [n]-th identifier handed out. *)
Definition gen_uuid (n : nat) : string := "uuid-" ++ nat_toString n.

Definition with_faults (f : list (option Fault)) (db : DB) : DB :=
  {| users := users db; diary_entries := diary_entries db;
     generated := generated db; now := now db; faults := f |}.

(** Serving one request: the next entry of [faults] is consumed. *)
Definition serve {A} (run : DB → Reply A * DB) (db : DB) : Reply A * DB :=
  match faults db with
  | Some (ErrorResponse e) :: rest => (Resolved None (Some e), with_faults rest db)
  | Some (NetworkFailure r) :: rest => (Rejected r, with_faults rest db)
  | None :: rest => run (with_faults rest db)
  | [] => run db
  end.

(** The answer of [.single()] when the result is not exactly one row. *)
Definition PGRST116 : PostgrestError :=
  {| code := "PGRST116";
     message := "JSON object requested, multiple (or no) rows returned";
     details := None |}.

Definition unique_violation : PostgrestError :=
  {| code := "23505";
     message := "duplicate key value violates unique constraint";
     details := None |}.

Definition not_null_violation : PostgrestError :=
  {| code := "23502";
     message := "null value violates not-null constraint";
     details := None |}.

Definition rows_named (n : string) (db : DB) : list User :=
  filter (fun u => line_username u = n) (users db).

Definition select_single (n : string) (db : DB) : Reply User * DB :=
  match rows_named n db with
  | [u] => (Resolved (Some u) None, db)
  | _ => (Resolved None (Some PGRST116), db)
  end.

Definition insert_user (n : string) (db : DB) : Reply User * DB :=
  match rows_named n db with
  | [] =>
    let u := {| id := gen_uuid (generated db); line_username := n;
                created_at := Some (now db) |} in
    (Resolved (Some u) None,
     {| users := users db ++ [u]; diary_entries := diary_entries db;
        generated := S (generated db); now := now db; faults := faults db |})
  | _ => (Resolved None (Some unique_violation), db)
  end.

Definition select_id_single (n : string) (db : DB) : Reply string * DB :=
  match rows_named n db with
  | [u] => (Resolved (Some (id u)) None, db)
  | _ => (Resolved None (Some PGRST116), db)
  end.

(** A row is accepted when the [NOT NULL] columns are present, the identifier
    and the owner are strings, the owner is a stored user and the urgency
    level passes its [CHECK]. *)
Definition present (row : gmap string value) (k : string) : bool :=
  negb (nullish (row !! k)).

Definition urgency_ok (row : gmap string value) : bool :=
  match row !! "urgency_level" with
  | None => true
  | Some VNull => true
  | Some (VStr s) =>
    String.eqb s "high" || String.eqb s "medium" || String.eqb s "low"
  | Some _ => false
  end.

Definition owner_ok (row : gmap string value) (db : DB) : bool :=
  match row !! "user_id" with
  | Some (VStr o) => bool_decide (o ∈ id <$> users db)
  | _ => false
  end.

Definition row_key (row : gmap string value) : option string :=
  match row !! "id" with
  | Some (VStr s) => Some s
  | _ => None
  end.

Definition row_ok (db : DB) (row : gmap string value) : bool :=
  present row "date" && present row "emotion" && present row "event"
  && present row "realization" && urgency_ok row && owner_ok row db
  && bool_decide (is_Some (row_key row)).

(** [upsert(rows, { onConflict: 'id', ignoreDuplicates: false })]: one
    statement, so either every row is written or none is. *)
Definition upsert (rows : list (gmap string value)) (db : DB) : Reply value * DB :=
  if forallb (row_ok db) rows then
    (Resolved None None,
     {| users := users db;
        diary_entries :=
          foldl (fun t row =>
                   match row_key row with
                   | Some k => <[k := row]> t
                   | None => t
                   end) (diary_entries db) rows;
        generated := generated db; now := now db; faults := faults db |})
  else (Resolved None (Some not_null_violation), db).

#[export] Instance backend : Backend DB := {|
  users_select_single n := serve (select_single n);
  users_insert_select_single n := serve (insert_user n);
  users_select_id_single n := serve (select_id_single n);
  diary_entries_upsert rows := serve (upsert rows)
|}.

End Postgres.

(** ** Fixtures for the examples *)

Module Fixture.
Import JS Remote.
#[local] Existing Instance Postgres.backend.

(** A complete record, and one without the columns that must not be null. *)
Definition good_entry : value :=
  VObj (<["id" := VStr "d1"]> (<["date" := VStr "2025-06-29"]>
       (<["emotion" := VStr "joy"]> (<["event" := VStr "a walk"]>
       (<["realization" := VStr "calm"]> ∅))))).


(** A JSON string literal: the text between double quotes. *)
Definition lit (s : string) : string :=
  String (ascii_of_nat 34) (s ++ String (ascii_of_nat 34) EmptyString).

(** The JSON text of the collection that holds [good_entry] only. *)
Definition one_diary : string :=
  "[{" ++ lit "id" ++ ":" ++ lit "d1" ++ ","
       ++ lit "date" ++ ":" ++ lit "2025-06-29" ++ ","
       ++ lit "emotion" ++ ":" ++ lit "joy" ++ ","
       ++ lit "event" ++ ":" ++ lit "a walk" ++ ","
       ++ lit "realization" ++ ":" ++ lit "calm" ++ "}]".

(** The documents the examples store or upload, with their parsed form. *)
Definition documents : list (string * value) :=
  [ ("[]", VArr []);
    ("{}", VObj ∅);
    (one_diary, VArr [good_entry]) ].

Fixpoint lookup_document (s : string) (l : list (string * value)) : option value :=
  match l with
  | [] => None
  | (k, v) :: rest => if String.eqb k s then Some v else lookup_document s rest
  end.

(** [JSON.stringify] on the values the examples write back. *)
Definition stringify (v : value) : string :=
  match v with
  | VNull => "null"
  | VBool true => "true"
  | VBool false => "false"
  | VArr [] => "[]"
  | VArr _ => "[...]"
  | VObj _ => "{...}"
  | VNum _ => "0"
  | VStr s => lit s
  end.

(** A runtime that parses the documents above and refuses anything else. *)
#[export] Instance runtime : Runtime := {|
  StringToNumber _ := PrimFloat.nan;
  ObjectToNumber _ := PrimFloat.nan;
  JSON_parse s := lookup_document s documents;
  JSON_stringify := stringify;
  toISOString ms := "T" ++ nat_toString ms
|}.

Definition online : Env :=
  {| VITE_SUPABASE_URL := Some "https://db.example";
     VITE_SUPABASE_ANON_KEY := Some "anon";
     VITE_LOCAL_MODE := None |}.

Definition local_mode : Env :=
  {| VITE_SUPABASE_URL := Some "https://db.example";
     VITE_SUPABASE_ANON_KEY := Some "anon";
     VITE_LOCAL_MODE := Some "true" |}.

Definition unconfigured : Env :=
  {| VITE_SUPABASE_URL := None;
     VITE_SUPABASE_ANON_KEY := None;
     VITE_LOCAL_MODE := None |}.

Definition idle : HookState :=
  {| isSyncing := false; lastSyncTime := None; error := None;
     currentUser := None |}.

Definition empty_db : Postgres.DB :=
  {| Postgres.users := []; Postgres.diary_entries := ∅;
     Postgres.generated := 0; Postgres.now := "2025-06-29T00:00:00Z";
     Postgres.faults := [] |}.

Definition alice : DeviceUser := {| lineUsername := "alice" |}.

Definition alice_row : User :=
  {| id := "uuid-0"; line_username := "alice";
     created_at := Some "2025-06-29T00:00:00Z" |}.

(** The hook once the user row is known. *)
Definition signed_in : HookState :=
  {| isSyncing := false; lastSyncTime := None; error := None;
     currentUser := Some alice_row |}.

Definition db_alice : Postgres.DB :=
  {| Postgres.users := [alice_row]; Postgres.diary_entries := ∅;
     Postgres.generated := 1; Postgres.now := "2025-06-29T00:00:00Z";
     Postgres.faults := [] |}.

(** A record whose snake_case score is [null] while the camelCase one is 70. *)
Definition null_score_entry : gmap string value :=
  <["self_esteem_score" := VNull]> (<["selfEsteemScore" := VNum 70]> ∅).

(** A backup with a version whose [localStorage] section holds the diary
    collection only. *)
Definition backup : value :=
  VObj (<["metadata" := VObj {[ "version" := VStr "1.0" ]}]>
       (<["localStorage" := VObj {[ "journalEntries" := VArr [] ]}]> ∅)).

Definition page (ls : gmap string string) : AdminBackupRestore.Page :=
  {| AdminBackupRestore.localStorage := ls;
     AdminBackupRestore.restoreInProgress := false;
     AdminBackupRestore.status := None;
     AdminBackupRestore.reloadScheduled := false |}.

Definition world (ls : gmap string string) (h : HookState)
  (a : option DeviceUser) (db : Postgres.DB) : World Postgres.DB :=
  {| localStorage := ls; hook := h; auth := a; remote := db;
     calls := []; clock := fun k => 1000 + k; reads := 0 |}.

(** The hook while a pass is in flight. *)
Definition syncing : HookState :=
  {| isSyncing := true; lastSyncTime := None; error := None;
     currentUser := Some alice_row |}.






End Fixture.


(** ** Notions used to state the properties *)

Module Spec.
Import JS Remote Supabase.

(** A response without error. *)
Definition accepted {A} (r : Reply A) : bool :=
  match r with
  | Resolved _ None => true
  | _ => false
  end.

(** A request on the [users] relation, as opposed to a write of diaries. *)
Definition users_request (q : Request) : Prop :=
  match q with
  | DiaryEntriesUpsert _ => False
  | _ => True
  end.

(** [x.k], with [undefined] for what cannot be read. *)
Definition field (x : value) (k : string) : any :=
  default undefined (get_prop x k).

(** A parsed document without a usable [metadata.version]: [metadata] is
    missing (or falsy), or its [version] is. *)
Definition lacks_version (doc : value) : Prop :=
  truthy (field doc "metadata") = false
  ∨ ∃ m, field doc "metadata" = Some m ∧ truthy (field m "version") = false.

Section Replies.
Context {R : Type} `{Backend R}.

(** The responses the backend gives when the records are upserted one at a
    time, in order, starting from the state [b]. *)
Fixpoint singleReplies (rows : list (gmap string value)) (b : R)
  : list (Reply value) :=
  match rows with
  | [] => []
  | row :: rest =>
    let '(r, b') := diary_entries_upsert [row] b in
    r :: singleReplies rest b'
  end.

(** The state of the backend after those upserts. *)
Fixpoint afterSingles (rows : list (gmap string value)) (b : R) : R :=
  match rows with
  | [] => b
  | row :: rest => afterSingles rest (diary_entries_upsert [row] b).2
  end.

End Replies.

Section Scores.
Context `{Runtime}.

(** The score the sentence on normalization describes, read word for word:
    50 when the value is [undefined] or [null] under both spellings, else the
    snake_case value when it is defined, else the camelCase value; coerced to
    a number. *)
Definition score_as_claimed (snake camel : any) : float :=
  if nullish snake && nullish camel then 50%float
  else if negb (is_undefined snake) then Number snake
  else Number camel.

(** How the number [x] relates to the two stored spellings: the snake_case
    value when it is neither [undefined] nor [null]; the camelCase value when
    the snake_case one is [undefined] and the camelCase one is neither; 50
    when the snake_case value is [null], or is [undefined] with a camelCase
    value that is [undefined] or [null]. *)
Definition score_from (snake camel : any) (x : float) : Prop :=
  (∀ v, snake = Some v → v ≠ VNull → x = Number (Some v))
  ∧ (∀ v, snake = None → camel = Some v → v ≠ VNull → x = Number (Some v))
  ∧ (snake = None → nullish camel = true → x = 50%float)
  ∧ (snake = Some VNull → x = 50%float).

End Scores.

(** The two revisions of the hook. *)
Inductive Revision := Reconciling | Earlier.

Section Revisions.
Context `{Runtime} {R : Type} `{Backend R} (e : Env).

Definition syncData_of (rev : Revision) : AutoSync.Closure → M R bool :=
  match rev with
  | Reconciling => Part000.syncData e
  | Earlier => UseAutoSync.syncData e
  end.

Definition resolveUserId_of (rev : Revision) : AutoSync.Closure → M R (option string) :=
  match rev with
  | Reconciling => Part000.resolveUserId e
  | Earlier => UseAutoSync.resolveUserId e
  end.

(** What the identity step may change: the current user of the hook, the
    backend, and the log, by requests on [users] only. *)
Definition identity_step (w w' : World R) : Prop :=
  localStorage w' = localStorage w
  ∧ clock w' = clock w
  ∧ reads w' = reads w
  ∧ isSyncing (hook w') = isSyncing (hook w)
  ∧ lastSyncTime (hook w') = lastSyncTime (hook w)
  ∧ ∃ extra, calls w' = (calls w ++ extra)%list ∧ Forall users_request extra.

End Revisions.

(** The next request to the modelled service is served (no fault). *)
Definition served_next (db : Postgres.DB) : bool :=
  match Postgres.faults db with
  | Some _ :: _ => false
  | _ => true
  end.

End Spec.

(** ** [lib/supabase.ts]: the other services *)

Module Gateway.
Import JS Remote Supabase.

(** The queries of [diaryService.getUserDiaries], [chatService],
    [consentService], [syncService], of the test-data cleanup and of the
    backup export. *)
Inductive Query :=
| DiariesOfUser (userId : string)
| MessagesOfRoom (chatRoomId : string)
| MessageInsertSingle (message : gmap string value)
| ConsentInsertSingle (consentRecord : value)
| ConsentSelectOrdered
| ConsentUpsertIgnore (histories : list value)
| TestDiariesDelete
| SelectAll (relation : string).

(** The remote service for these queries. *)
Class Tables (R : Type) := {
  (** [from('diary_entries').select('*').eq('user_id', u).order('date', { ascending: false })] *)
  diaries_of_user : string → R → Reply (list value) * R;
  (** [from('messages').select('*').eq('chat_room_id', c).order('created_at', { ascending: true })] *)
  messages_of_room : string → R → Reply (list value) * R;
  (** [from('messages').insert([message]).select().single()] *)
  message_insert_single : gmap string value → R → Reply value * R;
  (** [from('consent_histories').insert([record]).select().single()] *)
  consent_insert_single : value → R → Reply value * R;
  (** [from('consent_histories').select('*').order('consent_date', { ascending: false })] *)
  consent_select_ordered : R → Reply (list value) * R;
  (** [from('consent_histories').upsert(histories, { onConflict: 'id', ignoreDuplicates: true })] *)
  consent_upsert_ignore : list value → R → Reply value * R;
  (** [from('diary_entries').delete().or('event.ilike.%テスト%,...').select()] *)
  test_diaries_delete : R → Reply (list value) * R;
  (** [from(relation).select('*')] *)
  select_all : string → R → Reply (list value) * R
}.

(** The state these services act on: the local storage, the remote service
    and the log of the queries issued, oldest first. *)
Record Site (R : Type) := {
  site_storage : gmap string string;
  site_service : R;
  site_queries : list Query
}.
Arguments site_storage {R} s.
Arguments site_service {R} s.
Arguments site_queries {R} s.

Section Services.
Context `{Runtime} {R : Type} `{Tables R} (e : Env).

(** Awaiting a query: the service answers and the query is logged. *)
Definition ask {A} (q : Query) (run : R → Reply A * R) (s : Site R)
  : Reply A * Site R :=
  let '(r, b) := run (site_service s) in
  (r, {| site_storage := site_storage s; site_service := b;
         site_queries := (site_queries s ++ [q])%list |}).

(** [localStorage.setItem(k, v)] *)
Definition store (k v : string) (s : Site R) : Site R :=
  {| site_storage := <[k := v]> (site_storage s);
     site_service := site_service s; site_queries := site_queries s |}.

(** The shape shared by the three read operations: [[]] without a client, in
    local mode, on an error and on an exception; [data || []] otherwise. *)
Definition readRows (q : Query) (run : R → Reply (list value) * R) (s : Site R)
  : list value * Site R :=
  match supabase e with
  | None => ([], s)
  | Some _ =>
    if isLocalMode e then ([], s)
    else
      let '(r, s1) := ask q run s in
      match r with
      | Rejected _ => ([], s1)
      | Resolved _ (Some _) => ([], s1)
      | Resolved (Some rows) None => (rows, s1)
      | Resolved None None => ([], s1)
      end
  end.

(** [diaryService.getUserDiaries] *)
Definition getUserDiaries (userId : string) : Site R → list value * Site R :=
  readRows (DiariesOfUser userId) (diaries_of_user userId).

(** [chatService.getChatMessages] *)
Definition getChatMessages (chatRoomId : string) : Site R → list value * Site R :=
  readRows (MessagesOfRoom chatRoomId) (messages_of_room chatRoomId).

(** [consentService.getAllConsentHistories] *)
Definition getAllConsentHistories : Site R → list value * Site R :=
  readRows ConsentSelectOrdered consent_select_ordered.

(** The [message] object of [chatService.sendMessage]; an argument left out
    is [None]. *)
Definition messageOf (chatRoomId content : string) (senderId counselorId : option string)
  : gmap string value :=
  let isCounselor := truthy_str counselorId in
  <["chat_room_id" := VStr chatRoomId]>
  (<["content" := VStr content]>
  (set_prop "sender_id" (if isCounselor then Some VNull else VStr <$> senderId)
  (set_prop "counselor_id" (if isCounselor then VStr <$> counselorId else Some VNull)
  (<["is_counselor" := VBool isCounselor]> ∅)))).

(** [chatService.sendMessage]; the result [None] is [null]. *)
Definition sendMessage (chatRoomId content : string) (senderId counselorId : option string)
  (s : Site R) : option value * Site R :=
  match supabase e with
  | None => (None, s)
  | Some _ =>
    if isLocalMode e then (None, s)
    else
      let message := messageOf chatRoomId content senderId counselorId in
      let '(r, s1) := ask (MessageInsertSingle message) (message_insert_single message) s in
      match r with
      | Rejected _ => (None, s1)
      | Resolved _ (Some _) => (None, s1)
      | Resolved data None => (data, s1)
      end
  end.

(** [histories.push(consentRecord)] on what [JSON.parse] returned. *)
Definition push (histories consentRecord : value) : Completion (list value) :=
  match histories with
  | VArr l => Normal (l ++ [consentRecord])%list
  | VNull => Throw null_read
  | _ => Throw {| error_name := "TypeError";
                  error_message := "histories.push is not a function" |}
  end.

(** The branch of [saveConsentHistory] under [if (isLocalMode)]. *)
Definition saveConsentLocally (consentRecord : value) (s : Site R)
  : SyncResult * Site R :=
  let existingHistories := site_storage s !! "consent_histories" in
  let parsed :=
    if truthy_str existingHistories
    then match JSON_parse (default EmptyString existingHistories) with
         | Some v => Normal v
         | None => Throw parse_error
         end
    else Normal (VArr []) in
  match parsed with
  | Throw err =>
    ({| success := false; sync_error := Some (String_of_error err);
        sync_data := undefined |}, s)
  | Normal histories =>
    match push histories consentRecord with
    | Throw err =>
      ({| success := false; sync_error := Some (String_of_error err);
          sync_data := undefined |}, s)
    | Normal l =>
      ({| success := true; sync_error := None; sync_data := Some consentRecord |},
       store "consent_histories" (JSON_stringify (VArr l)) s)
    end
  end.

(** [consentService.saveConsentHistory] *)
Definition saveConsentHistory (consentRecord : value) (s : Site R)
  : SyncResult * Site R :=
  match supabase e with
  | None =>
    ({| success := false; sync_error := Some "Supabase接続なし";
        sync_data := undefined |}, s)
  | Some _ =>
    if isLocalMode e then saveConsentLocally consentRecord s
    else
      let '(r, s1) :=
        ask (ConsentInsertSingle consentRecord)
            (consent_insert_single consentRecord) s in
      match r with
      | Rejected reason =>
        ({| success := false; sync_error := Some reason;
            sync_data := undefined |}, s1)
      | Resolved _ (Some err) =>
        ({| success := false; sync_error := Some (message err);
            sync_data := undefined |}, s1)
      | Resolved data None =>
        ({| success := true; sync_error := None; sync_data := data |}, s1)
      end
  end.

(** [syncService.syncConsentHistories] *)
Definition syncConsentHistories (s : Site R) : bool * Site R :=
  match supabase e with
  | None => (false, s)
  | Some _ =>
    if isLocalMode e then (true, s)
    else
      let savedHistories := site_storage s !! "consent_histories" in
      if negb (truthy_str savedHistories) then (true, s)
      else
        match JSON_parse (default EmptyString savedHistories) with
        | None => (false, s)
        | Some (VArr []) => (true, s)
        | Some (VArr histories) =>
          let '(r, s1) :=
            ask (ConsentUpsertIgnore histories) (consent_upsert_ignore histories) s in
          match r with
          | Rejected _ => (false, s1)
          | Resolved _ (Some _) => (false, s1)
          | Resolved _ None => (true, s1)
          end
        | Some _ => (true, s)
        end
  end.

(** [syncService.syncConsentHistoriesToLocal] *)
Definition syncConsentHistoriesToLocal (s : Site R) : bool * Site R :=
  match supabase e with
  | None => (false, s)
  | Some _ =>
    if isLocalMode e then (true, s)
    else
      let '(r, s1) := ask ConsentSelectOrdered consent_select_ordered s in
      match r with
      | Rejected _ => (false, s1)
      | Resolved _ (Some _) => (false, s1)
      | Resolved (Some rows) None =>
        (true, store "consent_histories" (JSON_stringify (VArr rows)) s1)
      | Resolved None None => (false, s1)
      end
  end.

End Services.
End Gateway.

(** ** Constraints of the schema migration *)

Module Schema.
Import JS.





(** The columns of [diary_entries]. *)
Definition diary_columns : list string :=
  ["id"; "user_id"; "date"; "emotion"; "event"; "realization";
   "self_esteem_score"; "worthlessness_score"; "created_at"; "counselor_memo";
   "is_visible_to_user"; "counselor_name"; "assigned_counselor"; "urgency_level"].

End Schema.

(** ** [cleanupTestData] *)

Module Cleanup.
Import JS Remote Gateway.

(** The result object of [cleanupTestData]. *)
Record Removed := {
  localRemoved : nat;
  supabaseRemoved : nat;
  success : bool
}.

(** [s.includes(kw)] on strings. *)
Fixpoint includes (s kw : string) : bool :=
  String.prefix kw s
  || match s with
     | EmptyString => false
     | String _ rest => includes rest kw
     end.

(** [x.includes(kw)] on a value: a substring test on a string, a membership
    test on an array; no other value has the method ([None]). *)
Definition value_includes (x : value) (kw : string) : option bool :=
  match x with
  | VStr s => Some (includes s kw)
  | VArr l =>
    Some (existsb (fun v => match v with
                            | VStr s => String.eqb s kw
                            | _ => false
                            end) l)
  | _ => None
  end.

(** [(x && x.includes(k1)) || (x && x.includes(k2)) || ...]: a falsy [x]
    gives a falsy result; a truthy one without the method raises at the first
    call. *)
Definition mentions (x : any) (kws : list string) : Completion bool :=
  match x with
  | None => Normal false
  | Some v =>
    if truthy x then
      match value_includes v EmptyString with
      | None => Throw {| error_name := "TypeError";
                         error_message := "includes is not a function" |}
      | Some _ =>
        Normal (existsb (fun kw => default false (value_includes v kw)) kws)
      end
    else Normal false
  end.

Definition event_keywords : list string := ["テスト"; "サンプル"; "example"; "test"].
Definition realization_keywords : list string := ["テスト"; "サンプル"].

(** The [isTestData] of the filter callback: the terms on [entry.event]
    first, those on [entry.realization] only when none of them holds. *)
Definition isTestData (entry : value) : Completion bool :=
  match get_prop entry "event" with
  | None => Throw null_read
  | Some event =>
    match mentions event event_keywords with
    | Throw err => Throw err
    | Normal true => Normal true
    | Normal false =>
      mentions (default undefined (get_prop entry "realization"))
               realization_keywords
    end
  end.

(** [entries.filter(entry => !isTestData)]: left to right, the first exception
    ends the traversal. *)
Fixpoint filterReal (entries : list value) : Completion (list value) :=
  match entries with
  | [] => Normal []
  | entry :: rest =>
    match isTestData entry with
    | Throw err => Throw err
    | Normal test =>
      match filterReal rest with
      | Throw err => Throw err
      | Normal kept => Normal (if test then kept else entry :: kept)
      end
    end
  end.

(** [entries.filter(...)] on what [JSON.parse] returned. *)
Definition entries_filter (entries : value) : Completion (list value * nat) :=
  match entries with
  | VArr l =>
    match filterReal l with
    | Throw err => Throw err
    | Normal kept => Normal (kept, length l)
    end
  | VNull => Throw null_read
  | _ => Throw {| error_name := "TypeError";
                  error_message := "entries.filter is not a function" |}
  end.

Section Cleanup.
Context `{Runtime} {R : Type} `{Tables R} (e : Env).

(** The local half: what is removed from [journalEntries]. *)
Definition cleanupLocal (s : Site R) : Completion nat * Site R :=
  let savedEntries := site_storage s !! "journalEntries" in
  if truthy_str savedEntries then
    match JSON_parse (default EmptyString savedEntries) with
    | None => (Throw parse_error, s)
    | Some entries =>
      match entries_filter entries with
      | Throw err => (Throw err, s)
      | Normal (realEntries, total) =>
        (Normal (total - length realEntries),
         store "journalEntries" (JSON_stringify (VArr realEntries)) s)
      end
    end
  else (Normal 0, s).

(** The remote half, under [if (supabase)]: errors and exceptions are only
    logged. *)
Definition cleanupRemote (s : Site R) : nat * Site R :=
  match supabase e with
  | None => (0, s)
  | Some _ =>
    let '(r, s1) := ask TestDiariesDelete test_diaries_delete s in
    match r with
    | Resolved (Some data) None => (length data, s1)
    | _ => (0, s1)
    end
  end.

(** [cleanupTestData] *)
Definition cleanupTestData (s : Site R) : Removed * Site R :=
  let '(outcome, s1) := cleanupLocal s in
  match outcome with
  | Throw _ =>
    ({| localRemoved := 0; supabaseRemoved := 0; success := false |}, s1)
  | Normal removed =>
    let '(deleted, s2) := cleanupRemote s1 in
    ({| localRemoved := removed; supabaseRemoved := deleted; success := true |}, s2)
  end.

End Cleanup.
End Cleanup.

(** ** [handleCreateFullBackup] of [AdminBackupRestore.tsx] *)

Module FullBackup.
Import JS Remote Gateway.

(** [JSON.stringify(x, null, 2)] *)
Class Pretty := { JSON_stringify_indented : value → string }.

(** The browser state the export acts on: the site, the clock, the two pieces
    of component state and the files handed to the user, as name and text. *)
Record Admin (R : Type) := {
  site : Site R;
  clock : nat → nat;
  reads : nat;
  backupInProgress : bool;
  status : option AdminBackupRestore.Status;
  downloads : list (string * string)
}.
Arguments site {R} a.
Arguments clock {R} a.
Arguments reads {R} a.
Arguments backupInProgress {R} a.
Arguments status {R} a.
Arguments downloads {R} a.

(** [s.split('T')[0]] *)
Fixpoint before_T (s : string) : string :=
  match s with
  | EmptyString => EmptyString
  | String c rest =>
    if Ascii.eqb c "T"%char then EmptyString else String c (before_T rest)
  end.

(** The relations read for the backup, in the order of the source. *)
Definition relations : list string :=
  ["users"; "diary_entries"; "consent_histories"; "counselors"; "chat_rooms";
   "messages"].

Section Handler.
Context `{Runtime} `{Pretty} {R : Type} `{Tables R} (e : Env).

(** The loop over [localStorage.key(i)]: a key or a value that is the empty
    string is skipped; a value is stored parsed when it is JSON, as the string
    it is otherwise. *)
Definition collectLocalStorage (ls : gmap string string) : gmap string value :=
  foldl (fun acc kv =>
           if nonempty kv.1 && nonempty kv.2
           then <[kv.1 := match JSON_parse kv.2 with
                          | Some x => x
                          | None => VStr kv.2
                          end]> acc
           else acc)
        ∅ (map_to_list ls).

(** The reads of the remote relations: a relation whose read gives an error
    is left out; a rejected read abandons the object built so far ([None]). *)
Fixpoint collectRelations (rels : list string) (acc : gmap string value)
  (s : Site R) : option (gmap string value) * Site R :=
  match rels with
  | [] => (Some acc, s)
  | rel :: rest =>
    let '(r, s1) := ask (SelectAll rel) (select_all rel) s in
    match r with
    | Rejected _ => (None, s1)
    | Resolved _ (Some _) => collectRelations rest acc s1
    | Resolved data None =>
      collectRelations rest
        (<[rel := match data with
                  | Some rows => VArr rows
                  | None => VNull
                  end]> acc) s1
    end
  end.

(** [backupData.supabaseData] *)
Definition collectSupabaseData (s : Site R) : value * Site R :=
  match supabase e with
  | None => (VNull, s)
  | Some _ =>
    if isLocalMode e then (VNull, s)
    else
      let '(collected, s1) := collectRelations relations ∅ s in
      match collected with
      | Some supabaseData => (VObj supabaseData, s1)
      | None => (VObj {[ "error" := VStr "データ取得に失敗しました" ]}, s1)
      end
  end.

(** The document [backupData], given the time stamp of the export. *)
Definition backupDocument (timestamp : string) (ls : gmap string string)
  (supabaseData : value) : value :=
  let creator :=
    match ls !! "current_counselor" with
    | Some c => if nonempty c then c else "admin"
    | None => "admin"
    end in
  VObj (<["metadata" :=
            VObj (<["version" := VStr "1.0"]>
                 (<["timestamp" := VStr timestamp]>
                 (<["type" := VStr "full-backup"]>
                 (<["creator" := VStr creator]> ∅))))]>
       (<["localStorage" := VObj (collectLocalStorage ls)]>
       (<["supabaseData" := supabaseData]> ∅))).

(** [handleCreateFullBackup] *)
Definition handleCreateFullBackup (a : Admin R) : Admin R :=
  let timestamp := toISOString (clock a (reads a)) in
  let '(supabaseData, s1) := collectSupabaseData (site a) in
  let backupData := backupDocument timestamp (site_storage (site a)) supabaseData in
  let date := before_T (toISOString (clock a (S (reads a)))) in
  let fileName := "kanjou-nikki-full-backup-" ++ date ++ ".json" in
  {| site := s1; clock := clock a; reads := S (S (reads a));
     backupInProgress := false;
     status := Some {| AdminBackupRestore.message :=
                         "アプリ全体のバックアップが正常に作成されました！";
                       AdminBackupRestore.success := true |};
     downloads := (downloads a
                   ++ [(fileName, JSON_stringify_indented backupData)])%list |}.

End Handler.
End FullBackup.

(** ** [initializeUser] of the [useAutoSync] hook *)

Module HookInit.
Import JS Remote Supabase AutoSync.

Section Hook.
Context `{Runtime} {R : Type} `{Backend R} (e : Env).

(** [const user = getCurrentUser(); if (user) setCurrentUser({ id:
    'local-user-id', line_username: user.lineUsername })] *)
Definition useLocalUser : M R unit :=
  let* user := getCurrentUser in
  match user with
  | Some u =>
    setCurrentUser (Some {| id := local_user_id;
                            line_username := lineUsername u;
                            created_at := None |})
  | None => ret tt
  end.

(** [initializeUser], the same in both revisions.  [createOrGetUser] raises
    nothing, so the [catch] of the source is never entered. *)
Definition initializeUser : M R unit :=
  fun w =>
  match supabase e with
  | None => useLocalUser w
  | Some _ =>
    if isLocalMode e then useLocalUser w
    else
      (let* user := getCurrentUser in
       match user with
       | None => ret tt
       | Some u =>
         let* supabaseUser := createOrGetUser e (lineUsername u) in
         match supabaseUser with
         | Some row => setCurrentUser (Some row)
         | None => ret tt
         end
       end) w
  end.

End Hook.
End HookInit.

(** ** Further notions used to state the properties *)

Module Frames.
Import JS Remote Supabase.

(** A request that writes diaries. *)
Definition diary_request (q : Request) : Prop :=
  match q with
  | DiaryEntriesUpsert _ => True
  | _ => False
  end.

Section Frames.
Context {R : Type}.

(** Nothing but the clock was touched (it may have been read). *)
Definition clock_only (w w' : World R) : Prop :=
  localStorage w' = localStorage w
  ∧ hook w' = hook w
  ∧ calls w' = calls w
  ∧ remote w' = remote w
  ∧ clock w' = clock w
  ∧ auth w' = auth w.

(** At most one query, and the local storage as it was. *)
Definition quiet (s s' : Gateway.Site R) : Prop :=
  Gateway.site_storage s' = Gateway.site_storage s
  ∧ ∃ qs, Gateway.site_queries s' = (Gateway.site_queries s ++ qs)%list
          ∧ (length qs ≤ 1)%nat.

End Frames.
End Frames.

(** ** Further fixtures *)

Module Fixture2.
Import JS Remote Gateway.

(** A service that accepts every write and finds no row. *)
#[export] Instance accepting : Backend unit := {|
  users_select_single _ b := (Resolved None None, b);
  users_insert_select_single _ b := (Resolved None None, b);
  users_select_id_single _ b := (Resolved None None, b);
  diary_entries_upsert _ b := (Resolved None None, b)
|}.

Definition accepting_world (ls : gmap string string) (h : HookState)
  (a : option DeviceUser) : World unit :=
  {| localStorage := ls; hook := h; auth := a; remote := tt;
     calls := []; Remote.clock := fun k => 1000 + k; Remote.reads := 0 |}.

(** A service for the other relations whose state is the rows of
    [consent_histories]; the other relations are empty. *)
#[export] Instance consents : Tables (list value) := {|
  diaries_of_user _ b := (Resolved (Some []) None, b);
  messages_of_room _ b := (Resolved (Some []) None, b);
  message_insert_single m b := (Resolved (Some (VObj m)) None, b);
  consent_insert_single r b := (Resolved (Some r) None, (b ++ [r])%list);
  consent_select_ordered b := (Resolved (Some b) None, b);
  consent_upsert_ignore hs b := (Resolved None None, (b ++ hs)%list);
  test_diaries_delete b := (Resolved (Some []) None, b);
  select_all rel b :=
    (Resolved (Some (if String.eqb rel "consent_histories" then b else [])) None, b)
|}.

Definition site_of (ls : gmap string string) (rows : list value) : Site (list value) :=
  {| site_storage := ls; site_service := rows; site_queries := [] |}.

(** The record of [Fixture.good_entry], and a record of test data. *)
Definition good_record : gmap string value :=
  match Fixture.good_entry with
  | VObj m => m
  | _ => ∅
  end.

Definition test_entry : value :=
  VObj (<["id" := VStr "d3"]> (<["event" := VStr "test run"]> ∅)).

(** The JSON text of the collection that holds [Fixture.good_entry] and
    [test_entry]. *)
Definition two_diaries : string :=
  "[{" ++ Fixture.lit "id" ++ ":" ++ Fixture.lit "d1" ++ ","
       ++ Fixture.lit "date" ++ ":" ++ Fixture.lit "2025-06-29" ++ ","
       ++ Fixture.lit "emotion" ++ ":" ++ Fixture.lit "joy" ++ ","
       ++ Fixture.lit "event" ++ ":" ++ Fixture.lit "a walk" ++ ","
       ++ Fixture.lit "realization" ++ ":" ++ Fixture.lit "calm" ++ "},{"
       ++ Fixture.lit "id" ++ ":" ++ Fixture.lit "d3" ++ ","
       ++ Fixture.lit "event" ++ ":" ++ Fixture.lit "test run" ++ "}]".

Definition documents : list (string * value) :=
  (two_diaries, VArr [Fixture.good_entry; test_entry]) :: Fixture.documents.

(** A runtime that also parses [two_diaries], and writes every one-record
    array as the text of the diary collection of [Fixture]. *)
#[export] Instance one_record : Runtime := {|
  StringToNumber _ := PrimFloat.nan;
  ObjectToNumber _ := PrimFloat.nan;
  JSON_parse s := Fixture.lookup_document s documents;
  JSON_stringify v :=
    match v with
    | VArr [_] => Fixture.one_diary
    | _ => Fixture.stringify v
    end;
  toISOString ms := "T" ++ nat_toString ms
|}.

(** The batch that holds [Fixture.good_entry] only, as [syncDiaries] formats
    it for the user [uuid-0] on the accepting service. *)
Definition sent : Completion (list (gmap string value)) * World unit :=
  Supabase.mapM (Supabase.formatDiary "uuid-0") [Fixture.good_entry]
    (accepting_world ∅ Fixture.signed_in (Some Fixture.alice)).

Definition sent_rows : list (gmap string value) :=
  match sent.1 with
  | Normal rows => rows
  | Throw _ => []
  end.

(** [Fixture.good_entry] as the callback of [entries.map] leaves it. *)
Definition normalized : gmap string value :=
  match (Part000.normalizeEntry Fixture.good_entry
           (accepting_world ∅ Fixture.idle None)).1 with
  | Normal r => r
  | Throw _ => ∅
  end.

End Fixture2.

(** * Properties *)

Import JS Remote Supabase AutoSync Spec.

Local Open Scope list_scope.
#[local] Existing Instance Postgres.backend.

(** ** The single-flight guard *)

Section SingleFlight.
Context `{Runtime} {R : Type} `{Backend R} (e : Env).

Lemma guarded_refused (seen : Closure) (body : M R (Completion bool)) (w : World R) :
  seen_isSyncing seen = true → guarded e seen body w = (false, w).
Proof.
  intros Hseen. unfold guarded.
  destruct (supabase e); [|done].
  destruct (isLocalMode e); [done|].
  by rewrite Hseen.
Qed.

Lemma guarded_passes (seen : Closure) (body : M R (Completion bool)) (w : World R) :
  passes_guards seen e = true →
  guarded e seen body w
  = leave (body (enter w).2).1 (body (enter w).2).2.
Proof.
  unfold passes_guards, guarded.
  destruct (supabase e); [|done].
  destruct (isLocalMode e); [done|].
  destruct (seen_isSyncing seen); [done|]. intros _.
  unfold bind. destruct (enter w) as [[] w1]. simpl.
  by destruct (body w1).
Qed.

Lemma leave_resets (outcome : Completion bool) (w : World R) :
  isSyncing (hook (leave outcome w).2) = false.
Proof. by destruct outcome. Qed.

Lemma passes_guards_flag (seen : Closure) :
  passes_guards seen e = true → seen_isSyncing seen = false.
Proof.
  unfold passes_guards. destruct (supabase e); [|done].
  destruct (isLocalMode e), (seen_isSyncing seen); done.
Qed.

Lemma step_consistent (s s' : Sched R) :
  consistent s → step e UseAutoSync.delayedSyncs s s' → consistent s'.
Proof.
  intros [Hnone Hs] Hstep.
  destruct Hstep as [s | s | s c before after Htimers | s w' Hflag | s o Hpos].
  - split; [|done]. simpl. by rewrite Hnone.
  - unfold invoke.
    destruct (passes_guards (render (hook (world s))) e) eqn:Hg; [|done].
    apply passes_guards_flag in Hg. simpl in Hg.
    destruct Hs as [[_ Hn] | [Hf _]]; [|congruence].
    split; [done|]. right. simpl. by rewrite Hn.
  - rewrite Hnone in Htimers. by destruct before.
  - split; [done|]. simpl. by rewrite Hflag.
  - destruct Hs as [[_ Hn] | [_ Hn]]; [lia|].
    split; [done|]. left. simpl. rewrite leave_resets, Hn. done.
Qed.

(** When every invocation runs the callback of the current render, as in the
    revision of [hooks/useAutoSync.ts], at most one pass is in flight. *)
Lemma current_callbacks_single_flight (s0 s : Sched R) :
  isSyncing (hook (world s0)) = false → in_flight s0 = 0 → timers s0 = [] →
  rtc (step e UseAutoSync.delayedSyncs) s0 s → (in_flight s ≤ 1)%nat.
Proof.
  intros Hflag Hn Hnone Hrun.
  assert (consistent s) as [_ [[_ ->] | [_ ->]]]; [|lia..].
  assert (consistent s0) as Hs0 by (split; [done | by left]).
  clear Hflag Hn Hnone.
  induction Hrun as [|x y z Hxy _ IH]; [done|].
  apply IH. by eapply step_consistent.
Qed.

(** A callback that saw the flag up returns [false] and changes nothing, in
    both revisions. *)
Lemma seen_flag_refuses (seen : Closure) (w : World R) :
  seen_isSyncing seen = true →
  Part000.syncData e seen w = (false, w)
  ∧ Part000.triggerManualSync e seen w = (false, w)
  ∧ UseAutoSync.syncData e seen w = (false, w)
  ∧ UseAutoSync.triggerManualSync e seen w = (false, w).
Proof.
  intros Hseen.
  unfold Part000.triggerManualSync, UseAutoSync.triggerManualSync,
    Part000.syncData, UseAutoSync.syncData.
  by rewrite !guarded_refused.
Qed.

(** C9: a pass that got through the guards ends with [isSyncing = false],
    whatever its [try] block did (early [return false], success or
    exception); the callback of the next render then sees the flag down and
    is let through the guards again. *)
Theorem syncData_releases_guard (seen : Closure) (w : World R) :
  passes_guards seen e = true →
  let after1 := (Part000.syncData e seen w).2 in
  let after2 := (UseAutoSync.syncData e seen w).2 in
  isSyncing (hook after1) = false
  ∧ isSyncing (hook after2) = false
  ∧ passes_guards (render (hook after1)) e = true
  ∧ passes_guards (render (hook after2)) e = true.
Proof.
  intros Hg. simpl.
  unfold Part000.syncData, UseAutoSync.syncData.
  rewrite !guarded_passes by done.
  rewrite !leave_resets.
  assert (∀ h, isSyncing h = false → passes_guards (render h) e = true) as Hnext.
  { intros h Hh. unfold passes_guards in *. simpl. rewrite Hh.
    destruct (supabase e); [|done]. by destruct (isLocalMode e). }
  repeat split; try apply Hnext; apply leave_resets.
Qed.

End SingleFlight.

(** ** The services of [lib/supabase.ts] *)

Section Services.
Context `{Runtime} {R : Type} `{Backend R} (e : Env).

Lemma supabase_not_local (c : Client) : supabase e = Some c → isLocalMode e = false.
Proof.
  unfold supabase.
  destruct (VITE_SUPABASE_URL e), (VITE_SUPABASE_ANON_KEY e); try done.
  by destruct (isLocalMode e).
Qed.

Lemma local_mode_no_client : isLocalMode e = true → supabase e = None.
Proof.
  intros Hl. destruct (supabase e) as [c|] eqn:Hc; [|done].
  apply supabase_not_local in Hc. congruence.
Qed.

(** C10: with an empty user identifier, the sentinel identifier or local-only
    mode, [syncDiaries] answers [success = false] with an error message and
    leaves the world untouched; in particular no upsert is logged. *)
Theorem syncDiaries_rejects_sentinel (userId : string) (diaries : list value)
    (w : World R) :
  userId = EmptyString ∨ userId = local_user_id ∨ isLocalMode e = true →
  let '(result, w') := syncDiaries e userId diaries w in
  success result = false
  ∧ is_Some (sync_error result)
  ∧ w' = w
  ∧ calls w' = calls w.
Proof.
  intros Hcase. unfold syncDiaries.
  destruct (supabase e) as [c|] eqn:Hc; [|by eauto].
  assert (isLocalMode e || negb (nonempty userId)
          || String.eqb userId local_user_id = true) as ->; [|by eauto].
  destruct Hcase as [-> | [-> | ->]]; [| |done].
  - by destruct (isLocalMode e).
  - by rewrite String.eqb_refl, orb_true_r.
Qed.

(** C5, as the code has it: without a client (the endpoint or the credential
    is missing), both operations of the identity resolver return absence and
    leave the world untouched, so no request is issued and nothing is
    raised. *)
Theorem identity_without_client (lineUsername : string) (w : World R) :
  isLocalMode e = false →
  supabase e = None →
  createOrGetUser e lineUsername w = (None, w)
  ∧ getUserId e lineUsername w = (None, w).
Proof.
  intros _ Hc. unfold createOrGetUser, getUserId. by rewrite Hc.
Qed.

Lemma upsertEach_spec (rows : list (gmap string value)) (k : nat) (w : World R) :
  let '(n, w') := upsertEach rows k w in
  n = k + length (List.filter accepted (singleReplies rows (remote w)))
  ∧ calls w' = calls w ++ ((λ row, DiaryEntriesUpsert [row]) <$> rows)
  ∧ remote w' = afterSingles rows (remote w)
  ∧ localStorage w' = localStorage w
  ∧ hook w' = hook w
  ∧ reads w' = reads w.
Proof.
  revert k w. induction rows as [|row rest IH]; intros k w; simpl.
  - rewrite app_nil_r. repeat split; lia.
  - unfold bind, upsertOne, bind, await.
    destruct (diary_entries_upsert [row] (remote w)) as [r b] eqn:Hr. simpl.
    set (w1 := with_remote b (DiaryEntriesUpsert [row]) w).
    assert (∀ k', (let '(n, w') := upsertEach rest k' w1 in
       n = k' + length (List.filter accepted (singleReplies rest b))
       ∧ calls w' = calls w ++ DiaryEntriesUpsert [row]
                      :: ((λ row, DiaryEntriesUpsert [row]) <$> rest)
       ∧ remote w' = afterSingles rest b
       ∧ localStorage w' = localStorage w
       ∧ hook w' = hook w
       ∧ reads w' = reads w)) as Hrest.
    { intros k'. specialize (IH k' w1).
      destruct (upsertEach rest k' w1) as [n w']. simpl in IH.
      destruct IH as (-> & -> & -> & -> & -> & ->).
      rewrite <- app_assoc. done. }
    destruct r as [d [err|] | reason]; simpl.
    + apply Hrest.
    + specialize (Hrest (S k)).
      destruct (upsertEach rest (S k) w1) as [n w'].
      destruct Hrest as (-> & ? & ? & ? & ? & ?). repeat split; try done. lia.
    + apply Hrest.
Qed.

Lemma mapM_length {A B} (f : A → M R (Completion B)) (l : list A) (w w1 : World R)
    (bs : list B) :
  mapM f l w = (Normal bs, w1) → length bs = length l.
Proof.
  revert w w1 bs. induction l as [|x rest IH]; intros w w1 bs; simpl.
  - unfold ret. by intros [= <- _].
  - unfold bind. destruct (f x w) as [[b|err] w'].
    + destruct (mapM f rest w') as [[bs'|err] w''] eqn:Hrest.
      * unfold ret. intros [= <- _]. simpl. f_equal. eauto.
      * by unfold ret.
    + by unfold ret.
Qed.


End Services.

(** ** Normalization of the scores *)

Section Normalization.
Context `{Runtime} {R : Type} `{Backend R}.

Lemma lookup_set_prop_ne (k k' : string) (x : any) (o : gmap string value) :
  k ≠ k' → set_prop k x o !! k' = o !! k'.
Proof.
  intros Hne. destruct x; simpl.
  - by rewrite lookup_insert_ne.
  - by rewrite lookup_delete_ne.
Qed.

Lemma reconcile_score_from (snake camel : any) :
  score_from snake camel (Number (Some (reconcile_score snake camel))).
Proof.
  unfold score_from, reconcile_score.
  repeat split.
  - intros v -> Hv. simpl. by destruct v.
  - intros v -> -> Hv. simpl. by destruct v.
  - intros -> Hc. by destruct camel as [[]|].
  - by intros ->.
Qed.

Lemma reconcile_score_number (x : float) (camel : any) :
  reconcile_score (Some (VNum x)) camel = VNum x.
Proof. done. Qed.

Ltac lookup_field :=
  repeat first
    [ rewrite lookup_insert_eq
    | rewrite lookup_insert_ne by done
    | rewrite lookup_set_prop_ne by done
    | rewrite lookup_empty ].

Lemma formatDiary_scores (userId : string) (r : gmap string value)
    (w0 : World R) (se wl : float) :
  r !! "self_esteem_score" = Some (VNum se) →
  r !! "worthlessness_score" = Some (VNum wl) →
  ∃ (row : gmap string value) (w1 : World R),
    formatDiary userId (VObj r) w0 = (Normal row, w1)
    ∧ row !! "self_esteem_score" = Some (VNum se)
    ∧ row !! "worthlessness_score" = Some (VNum wl)
    ∧ row !! "selfEsteemScore" = None
    ∧ row !! "worthlessnessScore" = None.
Proof.
  intros Hse Hwl. unfold formatDiary. cbn [get_prop default].
  rewrite Hse, Hwl, !reconcile_score_number.
  unfold bind.
  match goal with
  | |- context [ (if ?c then ?a else ?b) w0 ] =>
      destruct ((if c then a else b) w0) as [id_ w0a]
  end.
  match goal with
  | |- context [ (if ?c then ?a else ?b) w0a ] =>
      destruct ((if c then a else b) w0a) as [created' w1]
  end.
  eexists _, w1. split; [reflexivity|].
  repeat split; lookup_field; done.
Qed.

(** C3, as the code has it: for every stored record (an object), the callback
    of [entries.map] in [syncData] returns a record in which each score is a
    number, the same under the snake_case and the camelCase spelling.  That
    number is [Number] of the snake_case value when this is neither
    [undefined] nor [null], of the camelCase value when the snake_case one is
    [undefined] and the camelCase one neither [undefined] nor [null], and 50
    otherwise (a snake_case [null] gives 50 whatever the camelCase property
    holds).  The formatting in [syncDiaries] then sends these numbers under
    the snake_case names only. *)
Theorem normalizeEntry_scores (m : gmap string value) (w : World R) :
  ∃ (r : gmap string value) (w' : World R) (se wl : float),
    Part000.normalizeEntry (VObj m) w = (Normal r, w')
    ∧ r !! "self_esteem_score" = Some (VNum se)
    ∧ r !! "selfEsteemScore" = Some (VNum se)
    ∧ r !! "worthlessness_score" = Some (VNum wl)
    ∧ r !! "worthlessnessScore" = Some (VNum wl)
    ∧ score_from (m !! "self_esteem_score") (m !! "selfEsteemScore") se
    ∧ score_from (m !! "worthlessness_score") (m !! "worthlessnessScore") wl
    ∧ ∀ (userId : string) (w0 : World R),
        ∃ (row : gmap string value) (w1 : World R),
          formatDiary userId (VObj r) w0 = (Normal row, w1)
          ∧ row !! "self_esteem_score" = Some (VNum se)
          ∧ row !! "worthlessness_score" = Some (VNum wl)
          ∧ row !! "selfEsteemScore" = None
          ∧ row !! "worthlessnessScore" = None.
Proof.
  unfold Part000.normalizeEntry. cbn [get_prop default].
  unfold bind.
  match goal with
  | |- context [ (if ?c then ?a else ?b) w ] =>
      destruct ((if c then a else b) w) as [created w'] eqn:Hcreated
  end.
  eexists _, w', _, _. split; [reflexivity|].
  split; [by lookup_field|].
  split; [by lookup_field|].
  split; [by lookup_field|].
  split; [by lookup_field|].
  split; [apply reconcile_score_from|].
  split; [apply reconcile_score_from|].
  intros userId w0. apply formatDiary_scores; by lookup_field.
Qed.

End Normalization.

(** ** A pass with nothing to synchronise *)

Section NothingToSync.
Context `{Runtime} {R : Type} `{Backend R} (e : Env).

Lemma identity_step_refl (w : World R) : identity_step w w.
Proof.
  unfold identity_step. repeat (split; [done|]).
  exists []. by rewrite app_nil_r.
Qed.

Lemma identity_step_trans (w1 w2 w3 : World R) :
  identity_step w1 w2 → identity_step w2 w3 → identity_step w1 w3.
Proof.
  intros (Hs & Hc & Hr & Hi & Hl & x & Hx & Hfx) (Hs' & Hc' & Hr' & Hi' & Hl' & y & Hy & Hfy).
  unfold identity_step. repeat split; try congruence.
  exists (x ++ y). split.
  - by rewrite Hy, Hx, <- app_assoc.
  - by apply Forall_app.
Qed.

Ltac solve_frame :=
  unfold identity_step; simpl; repeat (split; [done|]);
  first
    [ by (exists []; rewrite app_nil_r)
    | eexists [_]; split; [done | by repeat constructor]
    | eexists [_; _]; split; [by rewrite <- app_assoc | by repeat constructor] ].

Lemma createOrGetUser_frame (lineUsername : string) (w : World R) :
  identity_step w (createOrGetUser e lineUsername w).2.
Proof.
  unfold createOrGetUser.
  destruct (supabase e); [|solve_frame].
  destruct (isLocalMode e); [solve_frame|].
  unfold await.
  destruct (users_select_single lineUsername (remote w)) as [[d err|reason] b];
    [|solve_frame].
  destruct (match err with
            | Some e0 => negb (String.eqb (code e0) "PGRST116")
            | None => false
            end); [solve_frame|].
  destruct d as [u|]; [solve_frame|]. simpl.
  destruct (users_insert_select_single lineUsername b) as [[d2 [err2|]|reason] b2];
    solve_frame.
Qed.

Lemma ensureUserId_frame (seen : Closure) (lineUsername : string) (w : World R) :
  identity_step w (ensureUserId e seen lineUsername w).2.
Proof.
  unfold ensureUserId.
  destruct (negb (nonempty (currentUserId seen))
            || String.eqb (currentUserId seen) local_user_id); [|solve_frame].
  destruct (isLocalMode e); [solve_frame|].
  unfold bind.
  pose proof (createOrGetUser_frame lineUsername w) as Hframe.
  destruct (createOrGetUser e lineUsername w) as [[u|] w1]; [|done].
  destruct (negb (nonempty (id u))); [done|].
  eapply identity_step_trans; [exact Hframe|]. solve_frame.
Qed.

Lemma currentUserId_nonempty (seen : Closure) : nonempty (currentUserId seen) = true.
Proof.
  unfold currentUserId. destruct (seen_currentUser seen) as [u|]; [|done].
  by destruct (nonempty (id u)) eqn:Hu.
Qed.

Lemma ensureUserId_known (seen : Closure) (lineUsername : string) (w : World R) :
  currentUserId seen ≠ local_user_id →
  ensureUserId e seen lineUsername w = (Some (currentUserId seen), w).
Proof.
  intros Hne. unfold ensureUserId.
  rewrite currentUserId_nonempty. simpl.
  by apply String.eqb_neq in Hne as ->.
Qed.

Lemma resolveUserId_frame (rev : Revision) (seen : Closure) (w : World R) :
  identity_step w (resolveUserId_of e rev seen w).2.
Proof.
  destruct rev; simpl.
  - unfold Part000.resolveUserId, bind, getCurrentUser, Part000.lineUsernameOf.
    destruct (auth w) as [u|].
    + destruct (nonempty (lineUsername u)) eqn:Hu; simpl.
      * rewrite Hu. simpl. apply ensureUserId_frame.
      * unfold getItem.
        destruct (negb (truthy_str (localStorage w !! "line-username"))).
        -- destruct (isLocalMode e); apply identity_step_refl.
        -- apply ensureUserId_frame.
    + unfold getItem.
      destruct (negb (truthy_str (localStorage w !! "line-username"))).
      * destruct (isLocalMode e); apply identity_step_refl.
      * apply ensureUserId_frame.
  - unfold UseAutoSync.resolveUserId, bind, getCurrentUser.
    destruct (auth w) as [u|].
    + destruct (nonempty (lineUsername u)).
      * apply ensureUserId_frame.
      * destruct (isLocalMode e); apply identity_step_refl.
    + destruct (isLocalMode e); apply identity_step_refl.
Qed.

Lemma resolveUserId_known (rev : Revision) (seen : Closure) (w : World R) :
  currentUserId seen ≠ local_user_id →
  (resolveUserId_of e rev seen w).2 = w.
Proof.
  intros Hne. destruct rev; simpl.
  - unfold Part000.resolveUserId, bind, getCurrentUser, Part000.lineUsernameOf.
    destruct (auth w) as [u|].
    + destruct (nonempty (lineUsername u)) eqn:Hu; simpl.
      * rewrite Hu. simpl. by rewrite ensureUserId_known.
      * unfold getItem.
        destruct (negb (truthy_str (localStorage w !! "line-username"))).
        -- by destruct (isLocalMode e).
        -- by rewrite ensureUserId_known.
    + unfold getItem.
      destruct (negb (truthy_str (localStorage w !! "line-username"))).
      * by destruct (isLocalMode e).
      * by rewrite ensureUserId_known.
  - unfold UseAutoSync.resolveUserId, bind, getCurrentUser.
    destruct (auth w) as [u|].
    + destruct (nonempty (lineUsername u)).
      * by rewrite ensureUserId_known.
      * by destruct (isLocalMode e).
    + by destruct (isLocalMode e).
Qed.

Lemma syncEntries_nothing
    (normalize : value → M R (Completion (gmap string value)))
    (uid : string) (w : World R) :
  truthy_str (localStorage w !! "journalEntries") = false →
  let '(r, w') := syncEntries e normalize uid w in
  r = Normal true
  ∧ localStorage w'
    = <["last_sync_time" := toISOString (clock w (S (reads w)))]> (localStorage w)
  ∧ lastSyncTime (hook w') = Some (toISOString (clock w (reads w)))
  ∧ calls w' = calls w.
Proof.
  intros Hnone. unfold syncEntries, bind, getItem. by rewrite Hnone.
Qed.

Lemma enter_frame (w : World R) :
  localStorage (enter w).2 = localStorage w
  ∧ clock (enter w).2 = clock w
  ∧ reads (enter w).2 = reads w
  ∧ calls (enter w).2 = calls w.
Proof. done. Qed.

Lemma leave_frame (outcome : Completion bool) (w : World R) :
  localStorage (leave outcome w).2 = localStorage w
  ∧ lastSyncTime (hook (leave outcome w).2) = lastSyncTime (hook w)
  ∧ calls (leave outcome w).2 = calls w.
Proof. by destruct outcome. Qed.

Lemma syncData_of_unfold (rev : Revision) (seen : Closure) :
  ∃ normalize,
    syncData_of e rev seen
    = guarded e seen
        (let* userId := resolveUserId_of e rev seen in
         match userId with
         | None => ret (Normal false)
         | Some uid => syncEntries e normalize uid
         end).
Proof. destruct rev; eexists; reflexivity. Qed.

(** C4, as the code has it: a pass that got through the guards and the
    identity step and finds the key [journalEntries] absent or holding the
    empty string returns [true] and stores a fresh timestamp under
    [last_sync_time]; it issues no request on the diary relation: the
    requests of the pass are those of the identity step, all on [users], and
    there is none when the callback already holds a remote identifier. *)
Theorem syncData_nothing_to_sync (rev : Revision) (seen : Closure)
    (w w1 : World R) (uid : string) :
  passes_guards seen e = true →
  truthy_str (localStorage w !! "journalEntries") = false →
  resolveUserId_of e rev seen (enter w).2 = (Some uid, w1) →
  let '(result, w') := syncData_of e rev seen w in
  result = true
  ∧ localStorage w'
    = <["last_sync_time" := toISOString (clock w (S (reads w)))]> (localStorage w)
  ∧ lastSyncTime (hook w') = Some (toISOString (clock w (reads w)))
  ∧ calls w' = calls w1
  ∧ (∃ extra, calls w' = calls w ++ extra ∧ Forall users_request extra)
  ∧ (currentUserId seen ≠ local_user_id → calls w' = calls w).
Proof.
  intros Hg Hnone Hres.
  destruct (syncData_of_unfold rev seen) as [normalize ->].
  rewrite guarded_passes by done.
  pose proof (resolveUserId_frame rev seen (enter w).2) as Hframe.
  pose proof (resolveUserId_known rev seen (enter w).2) as Hknown.
  match goal with
  | |- context [ leave (?body ?w0).1 _ ] =>
      assert (body w0 = syncEntries e normalize uid w1) as ->
        by (unfold bind; by rewrite Hres)
  end.
  rewrite Hres in *. cbn [snd] in Hframe, Hknown.
  destruct (enter_frame w) as (Els & Eclock & Ereads & Ecalls).
  destruct Hframe as (Hls & Hclock & Hreads & _ & _ & extra & Hextra & Hforall).
  rewrite Els in Hls. rewrite Eclock in Hclock. rewrite Ereads in Hreads.
  rewrite Ecalls in Hextra.
  pose proof (syncEntries_nothing normalize uid w1) as Hsync.
  rewrite Hls in Hsync. specialize (Hsync Hnone).
  destruct (syncEntries e normalize uid w1) as [r w2].
  destruct Hsync as (-> & Hls2 & Hlast & Hcalls).
  cbn [fst snd].
  destruct (leave_frame (Normal true) w2) as (Lls & Llast & Lcalls).
  destruct (leave (Normal true) w2) as [result w'] eqn:Hleave.
  assert (result = true) as -> by (by injection Hleave as <- _).
  simpl in Lls, Llast, Lcalls.
  rewrite Lls, Llast, Lcalls, Hls2, Hlast, Hcalls, ?Hls, Hclock, Hreads.
  repeat split; try done.
  - by exists extra.
  - intros Hne. by rewrite (Hknown Hne).
Qed.

End NothingToSync.

(** ** The identity resolver *)

Section Identity.
Context `{Runtime} (e : Env).

Lemma createOrGetUser_found {R : Type} `{Backend R} (lineUsername : string)
    (w : World R) (u : User) (err : option PostgrestError) (b : R) :
  is_Some (supabase e) →
  users_select_single lineUsername (remote w) = (Resolved (Some u) err, b) →
  (∀ pe, err = Some pe → code pe = "PGRST116") →
  createOrGetUser e lineUsername w
  = (Some u, with_remote b (UsersSelectSingle lineUsername) w).
Proof.
  intros [c Hc] Hsel Hcode. unfold createOrGetUser.
  rewrite Hc, (supabase_not_local e c Hc). unfold await. rewrite Hsel.
  destruct err as [pe|]; [|done].
  by rewrite (Hcode pe eq_refl).
Qed.

Lemma createOrGetUser_lookup_error {R : Type} `{Backend R} (lineUsername : string)
    (w : World R) (d : option User) (pe : PostgrestError) (b : R) :
  is_Some (supabase e) →
  users_select_single lineUsername (remote w) = (Resolved d (Some pe), b) →
  code pe ≠ "PGRST116" →
  createOrGetUser e lineUsername w
  = (None, with_remote b (UsersSelectSingle lineUsername) w).
Proof.
  intros [c Hc] Hsel Hcode. unfold createOrGetUser.
  rewrite Hc, (supabase_not_local e c Hc). unfold await. rewrite Hsel.
  apply String.eqb_neq in Hcode. by rewrite Hcode.
Qed.

Lemma serve_inv {A} (run : Postgres.DB → Reply A * Postgres.DB) (db : Postgres.DB) :
  let db' := Postgres.with_faults (tail (Postgres.faults db)) db in
  Postgres.serve run db = run db'
  ∨ (∃ pe, Postgres.serve run db = (Resolved None (Some pe), db'))
  ∨ (∃ r, Postgres.serve run db = (Rejected r, db')).
Proof.
  destruct db as [us ds g n fs]. unfold Postgres.serve. simpl.
  destruct fs as [|[[pe|r]|] rest]; simpl; eauto.
Qed.

Lemma serve_served {A} (run : Postgres.DB → Reply A * Postgres.DB) (db : Postgres.DB) :
  served_next db = true →
  Postgres.serve run db = run (Postgres.with_faults (tail (Postgres.faults db)) db).
Proof.
  destruct db as [us ds g n fs]. unfold served_next, Postgres.serve. simpl.
  by destruct fs as [|[f|] rest].
Qed.

Lemma rows_named_inserted (n : string) (db : Postgres.DB) (u : User) (db' : Postgres.DB) :
  Postgres.insert_user n db = (Resolved (Some u) None, db') →
  Postgres.rows_named n db' = [u].
Proof.
  unfold Postgres.insert_user.
  destruct (Postgres.rows_named n db) as [|u0 l] eqn:Hrows; [|done].
  intros [= <- <-]. unfold Postgres.rows_named in *. simpl.
  rewrite filter_app, Hrows. simpl.
  rewrite filter_cons_True by done. done.
Qed.

Lemma select_single_found (n : string) (db : Postgres.DB) (u : User)
    (err : option PostgrestError) (db' : Postgres.DB) :
  Postgres.select_single n db = (Resolved (Some u) err, db') →
  Postgres.rows_named n db' = [u].
Proof.
  unfold Postgres.select_single.
  destruct (Postgres.rows_named n db) as [|u0 [|u1 l]] eqn:Hrows;
    intros [= <- <- <-]; done.
Qed.

(** After a call that returned a user, the relation holds exactly that row
    for the username. *)
Lemma createOrGetUser_stored (lineUsername : string)
    (w w1 : World Postgres.DB) (u : User) :
  createOrGetUser e lineUsername w = (Some u, w1) →
  is_Some (supabase e) ∧ Postgres.rows_named lineUsername (remote w1) = [u].
Proof.
  unfold createOrGetUser.
  destruct (supabase e) as [c|] eqn:Hc; [|done].
  rewrite (supabase_not_local e c Hc). unfold await. simpl.
  destruct (serve_inv (Postgres.select_single lineUsername) (remote w))
    as [Hs | [[pe Hs] | [r Hs]]]; rewrite Hs; clear Hs; [| |done].
  - destruct (Postgres.select_single lineUsername _) as [[d err|r] db1] eqn:Hsel;
      [|done].
    destruct (match err with
              | Some e0 => negb (String.eqb (code e0) "PGRST116")
              | None => false
              end); [done|].
    destruct d as [u0|].
    + intros [= <- <-]. split; [done|]. simpl.
      by eapply select_single_found.
    + simpl.
      destruct (serve_inv (Postgres.insert_user lineUsername) db1)
        as [Hi | [[pe Hi] | [r Hi]]]; rewrite Hi; clear Hi; [|done..].
      destruct (Postgres.insert_user lineUsername _) as [[d2 [err2|]|r2] db2] eqn:Hins;
        [done| |done].
      intros [= -> <-]. split; [done|]. simpl.
      by eapply rows_named_inserted.
  - destruct (negb (String.eqb (code pe) "PGRST116")); [done|]. simpl.
    match goal with
    | |- context [ Postgres.serve _ ?db ] =>
        destruct (serve_inv (Postgres.insert_user lineUsername) db)
          as [Hi | [[pe' Hi] | [r Hi]]]; rewrite Hi; clear Hi; [|done..]
    end.
    destruct (Postgres.insert_user lineUsername _) as [[d2 [err2|]|r2] db2] eqn:Hins;
      [done| |done].
    intros [= -> <-]. split; [done|]. simpl.
    by eapply rows_named_inserted.
Qed.

(** C6: a lookup that returns a row ends the call with that row, after the
    single request of the lookup; a lookup error whose code is not PGRST116
    ends it with absence, again after that single request.  On the relation
    of the migration, once a call has returned a user for a username, the
    next call for it (when the service answers) returns the same row, issues
    the lookup only and leaves the relation as it is. *)
Theorem createOrGetUser_idempotent :
  (∀ (R : Type) (B : Backend R) (lineUsername : string) (w : World R)
     (u : User) (err : option PostgrestError) (b : R),
     is_Some (supabase e) →
     users_select_single lineUsername (remote w) = (Resolved (Some u) err, b) →
     (∀ pe, err = Some pe → code pe = "PGRST116") →
     createOrGetUser e lineUsername w
     = (Some u, with_remote b (UsersSelectSingle lineUsername) w))
  ∧ (∀ (R : Type) (B : Backend R) (lineUsername : string) (w : World R)
       (d : option User) (pe : PostgrestError) (b : R),
       is_Some (supabase e) →
       users_select_single lineUsername (remote w) = (Resolved d (Some pe), b) →
       code pe ≠ "PGRST116" →
       createOrGetUser e lineUsername w
       = (None, with_remote b (UsersSelectSingle lineUsername) w))
  ∧ (∀ (lineUsername : string) (w w1 : World Postgres.DB) (u : User),
       createOrGetUser e lineUsername w = (Some u, w1) →
       served_next (remote w1) = true →
       ∃ w2 : World Postgres.DB,
         createOrGetUser e lineUsername w1 = (Some u, w2)
         ∧ calls w2 = calls w1 ++ [UsersSelectSingle lineUsername]
         ∧ Postgres.users (remote w2) = Postgres.users (remote w1)).
Proof.
  split; [|split].
  - intros R B. apply createOrGetUser_found.
  - intros R B. apply createOrGetUser_lookup_error.
  - intros lineUsername w w1 u Hfirst Hserved.
    apply createOrGetUser_stored in Hfirst as [Hon Hrows].
    assert (users_select_single lineUsername (remote w1)
            = (Resolved (Some u) None,
               Postgres.with_faults (tail (Postgres.faults (remote w1))) (remote w1)))
      as Hsel.
    { simpl. rewrite serve_served by done.
      unfold Postgres.select_single.
      change (Postgres.rows_named lineUsername (Postgres.with_faults _ (remote w1)))
        with (Postgres.rows_named lineUsername (remote w1)).
      by rewrite Hrows. }
    eexists. split; [|split].
    + eapply createOrGetUser_found; [done|exact Hsel|done].
    + done.
    + done.
Qed.

End Identity.

(** ** Restore from a backup *)

Section Restore.
Context `{Runtime}.

Lemma restoreDocument_rejects (doc : value) (p : AdminBackupRestore.Page) :
  lacks_version doc →
  ∃ msg, AdminBackupRestore.restoreDocument doc p = (Throw msg, p).
Proof.
  intros Hlacks. unfold AdminBackupRestore.restoreDocument.
  unfold lacks_version, field in Hlacks.
  destruct (get_prop doc "metadata") as [[meta|]|]; simpl in *; eauto.
  destruct Hlacks as [Hfalsy | (m & [= <-] & Hversion)].
  - rewrite Hfalsy. simpl. eauto.
  - rewrite Hversion, orb_true_r. eauto.
Qed.

(** C7: restoring from a file whose parsed document has no usable
    [metadata.version] reports a failure and leaves the local storage exactly
    as it was; no reload is scheduled. *)
Theorem restore_without_version_changes_nothing (text : string) (doc : value)
    (p : AdminBackupRestore.Page) :
  JSON_parse text = Some doc →
  lacks_version doc →
  let p' := AdminBackupRestore.handleRestoreFromBackup
              (Some (AdminBackupRestore.OnLoad (Some text))) true p in
  AdminBackupRestore.localStorage p' = AdminBackupRestore.localStorage p
  ∧ (∀ k : string, AdminBackupRestore.localStorage p' !! k
                   = AdminBackupRestore.localStorage p !! k)
  ∧ AdminBackupRestore.status p'
    = Some {| AdminBackupRestore.message :=
                "データの復元に失敗しました。有効なバックアップファイルか確認してください。";
              AdminBackupRestore.success := false |}
  ∧ AdminBackupRestore.reloadScheduled p' = AdminBackupRestore.reloadScheduled p
  ∧ AdminBackupRestore.restoreInProgress p' = false.
Proof.
  intros Hparse Hlacks. simpl.
  unfold AdminBackupRestore.onload. rewrite Hparse.
  destruct (restoreDocument_rejects doc
              (AdminBackupRestore.setStatus None
                 (AdminBackupRestore.setRestoreInProgress true p)) Hlacks)
    as [msg ->].
  done.
Qed.

Lemma foldl_insert_absent {V} (f : V → string) (l : list (string * V))
    (st : gmap string string) (k : string) :
  k ∉ l.*1 →
  foldl (λ st kv, <[kv.1 := f kv.2]> st) st l !! k = st !! k.
Proof.
  revert st. induction l as [|[k' x] l IH]; intros st Hk; simpl; [done|].
  rewrite fmap_cons, not_elem_of_cons in Hk. destruct Hk as [Hne Hk].
  rewrite IH by done. by rewrite lookup_insert_ne.
Qed.

Lemma foldl_insert_present {V} (f : V → string) (l : list (string * V))
    (st : gmap string string) (k : string) (x : V) :
  NoDup l.*1 → (k, x) ∈ l →
  foldl (λ st kv, <[kv.1 := f kv.2]> st) st l !! k = Some (f x).
Proof.
  revert st. induction l as [|[k' x'] l IH]; intros st Hnd Hin; simpl.
  - by apply elem_of_nil in Hin.
  - rewrite fmap_cons in Hnd. apply NoDup_cons in Hnd as [Hfresh Hnd].
    apply elem_of_cons in Hin as [[= -> ->] | Hin].
    + rewrite foldl_insert_absent by done. by rewrite lookup_insert_eq.
    + by apply IH.
Qed.

Lemma foldl_map_to_list {V} (f : V → string) (m : gmap string V)
    (st : gmap string string) (k : string) :
  foldl (λ st kv, <[kv.1 := f kv.2]> st) st (map_to_list m) !! k
  = match m !! k with
    | Some x => Some (f x)
    | None => st !! k
    end.
Proof.
  destruct (m !! k) as [x|] eqn:Hk.
  - apply foldl_insert_present.
    + apply NoDup_fst_map_to_list.
    + by apply elem_of_map_to_list.
  - apply foldl_insert_absent.
    intros Hin. apply list_elem_of_fmap in Hin as [[k' x] [-> Hin]].
    apply elem_of_map_to_list in Hin. simpl in Hk. congruence.
Qed.

Lemma preserve_lookup (ls : gmap string string) (k : string) :
  AdminBackupRestore.preserve ls !! k
  = if decide (k = "current_counselor")
    then match ls !! "current_counselor" with
         | Some v => if nonempty v then Some v else None
         | None => None
         end
    else None.
Proof.
  unfold AdminBackupRestore.preserve, AdminBackupRestore.keysToPreserve. simpl.
  destruct (ls !! "current_counselor") as [v|] eqn:Hv.
  - destruct (nonempty v).
    + case_decide as Hk.
      * subst. by rewrite lookup_insert_eq.
      * by rewrite lookup_insert_ne.
    + by case_decide.
  - by case_decide.
Qed.

Lemma restoreLocalStorage_lookup (m : gmap string value)
    (ls : gmap string string) (k : string) :
  AdminBackupRestore.restoreLocalStorage (VObj m) ls !! k
  = match m !! k with
    | Some x => Some (AdminBackupRestore.restoredValue x)
    | None => AdminBackupRestore.preserve ls !! k
    end.
Proof.
  unfold AdminBackupRestore.restoreLocalStorage. simpl.
  rewrite (foldl_map_to_list AdminBackupRestore.restoredValue).
  destruct (m !! k); [done|].
  rewrite (foldl_map_to_list (λ v : string, v)).
  by destruct (AdminBackupRestore.preserve ls !! k).
Qed.

(** C8, as the code has it: a restore from a document with a version and an
    object as [localStorage] section succeeds; afterwards every key of the
    section holds the value of the backup (a string as it is, any other value
    through [JSON.stringify]), every other key but [current_counselor] is
    gone, and [current_counselor], when the section lacks it, holds its former
    value provided that value was a non-empty string. *)
Theorem restore_keeps_counselor (doc meta : value) (m : gmap string value)
    (p : AdminBackupRestore.Page) :
  field doc "metadata" = Some meta →
  truthy (Some meta) = true →
  truthy (field meta "version") = true →
  field doc "localStorage" = Some (VObj m) →
  let '(outcome, p') := AdminBackupRestore.restoreDocument doc p in
  let before := AdminBackupRestore.localStorage p in
  let after := AdminBackupRestore.localStorage p' in
  outcome = Normal tt
  ∧ AdminBackupRestore.status p'
    = Some {| AdminBackupRestore.message :=
                "バックアップからの復元が完了しました！ページを再読み込みしてください。";
              AdminBackupRestore.success := true |}
  ∧ (∀ k x, m !! k = Some x →
       after !! k = Some (AdminBackupRestore.restoredValue x))
  ∧ (∀ k, m !! k = None → k ≠ "current_counselor" → after !! k = None)
  ∧ (∀ v, m !! "current_counselor" = None →
       before !! "current_counselor" = Some v → v ≠ EmptyString →
       after !! "current_counselor" = Some v).
Proof.
  intros Hmeta Hmt Hversion Hsection.
  unfold AdminBackupRestore.restoreDocument.
  unfold field in Hmeta, Hsection.
  destruct (get_prop doc "metadata") as [[meta'|]|] eqn:Hget; simpl in Hmeta;
    try done.
  injection Hmeta as ->.
  unfold field in Hversion. rewrite Hmt, Hversion. simpl.
  destruct (get_prop doc "localStorage") as [[section|]|]; simpl in Hsection;
    try done.
  injection Hsection as ->. simpl.
  repeat split.
  - intros k x Hk. by rewrite restoreLocalStorage_lookup, Hk.
  - intros k Hk Hne. rewrite restoreLocalStorage_lookup, Hk, preserve_lookup.
    by case_decide.
  - intros v Hk Hv Hnonempty.
    rewrite restoreLocalStorage_lookup, Hk, preserve_lookup, Hv.
    case_decide; [|done].
    unfold nonempty. by apply String.eqb_neq in Hnonempty as ->.
Qed.

End Restore.

(** ** The properties at concrete inputs *)

Section Examples.
Import Fixture.
#[local] Existing Instance Fixture.runtime.

(** C1: the guard tests the [isSyncing] of the render that created the
    callback.  In the revision that arms the two delayed syncs, the timers keep
    the callbacks of earlier renders: after the mount and the render that
    follows [setCurrentUser], two 3 s timers hold callbacks that saw the flag
    down; the first to fire starts a pass and the second, fired while that
    pass is in flight, starts another one.  On the world of a pass in flight
    such a callback runs a whole pass: it returns [true], sends the batch and
    lowers the flag. *)
Theorem stale_timer_second_pass :
  let ls : gmap string string := {[ "journalEntries" := one_diary ]} in
  let c0 := render idle in
  let c1 := render signed_in in
  let mounted := world ls idle (Some alice) db_alice in
  let s0 := {| AutoSync.world := mounted; in_flight := 0; timers := [] |} in
  (∃ s : Sched Postgres.DB,
     rtc (step online (Part000.delayedSyncs online)) s0 s
     ∧ in_flight s = 2)
  ∧ (let busy := world ls syncing (Some alice) db_alice in
     let after := Part000.triggerManualSync online c1 busy in
     isSyncing (hook busy) = true
     ∧ seen_isSyncing c1 = false
     ∧ after.1 = true
     ∧ match calls after.2 with
       | [DiaryEntriesUpsert rows] => length rows = 1
       | _ => False
       end
     ∧ isSyncing (hook after.2) = false).
Proof.
  intros ls c0 c1 mounted s0. split.
  - eexists. split.
    + eapply rtc_l; [apply step_effect|].
      eapply rtc_l;
        [apply (step_other _ _ _ (world ls signed_in (Some alice) db_alice));
         reflexivity|].
      eapply rtc_l; [apply step_effect|].
      eapply rtc_l;
        [apply (step_timer _ _ _ c0 [] [c0; c1; c1]); reflexivity|].
      eapply rtc_l;
        [apply (step_timer _ _ _ c1 [c0] [c1]); reflexivity|].
      apply rtc_refl.
    + reflexivity.
  - intros busy after.
    split; [reflexivity|]. split; [reflexivity|].
    split; [vm_compute; reflexivity|].
    split; [vm_compute; reflexivity|].
    vm_compute; reflexivity.
Qed.

Lemma syncData_releases_guard_witness :
  let w := world {[ "journalEntries" := "[]" ]} idle None empty_db in
  passes_guards (render (hook w)) online = true
  ∧ isSyncing (hook (Part000.syncData online (render (hook w)) w).2) = false
  ∧ isSyncing (hook (UseAutoSync.syncData online (render (hook w)) w).2) = false.
Proof.
  intros w.
  destruct (syncData_releases_guard online (render (hook w)) w eq_refl)
    as (H1 & H2 & _).
  split; [reflexivity|]. split; [exact H1 | exact H2].
Defined.

Lemma syncDiaries_rejects_sentinel_witness :
  let w := world ∅ idle (Some alice) db_alice in
  let '(result, w') := syncDiaries online local_user_id [good_entry] w in
  success result = false ∧ is_Some (sync_error result) ∧ w' = w
  ∧ calls w' = calls w.
Proof.
  intros w.
  apply (syncDiaries_rejects_sentinel online local_user_id [good_entry] w).
  right. left. reflexivity.
Defined.

(** Without endpoint and credential the resolver answers [null], not the
    sentinel; in local-only mode as well, since the client is [null] there
    too and the guard on it comes first. *)
Lemma identity_offline_counterexample :
  let w := world ∅ idle (Some alice) empty_db in
  supabase unconfigured = None
  ∧ (createOrGetUser unconfigured "alice" w).1 = None
  ∧ (getUserId unconfigured "alice" w).1 = None
  ∧ (getUserId unconfigured "alice" w).1 ≠ Some local_user_id
  ∧ isLocalMode local_mode = true
  ∧ (createOrGetUser local_mode "alice" w).1 = None
  ∧ (getUserId local_mode "alice" w).1 = None.
Proof. repeat split; done. Qed.

Lemma identity_without_client_witness :
  let w := world ∅ idle (Some alice) empty_db in
  isLocalMode unconfigured = false
  ∧ supabase unconfigured = None
  ∧ createOrGetUser unconfigured "alice" w = (None, w)
  ∧ getUserId unconfigured "alice" w = (None, w).
Proof.
  intros w. split; [reflexivity|]. split; [reflexivity|].
  exact (identity_without_client unconfigured "alice" w eq_refl eq_refl).
Defined.


(** The snake_case score is [null] and the camelCase one is 70: the record
    comes out with 50 under both spellings, which is neither the snake_case
    value coerced to a number nor the camelCase value, although the two
    spellings are not both [undefined] or [null]. *)
Lemma normalizeEntry_null_score_counterexample :
  let m := null_score_entry in
  let w := world ∅ idle (Some alice) empty_db in
  let r := match (Part000.normalizeEntry (VObj m) w).1 with
           | Normal r => r
           | Throw _ => ∅
           end in
  (nullish (m !! "self_esteem_score") && nullish (m !! "selfEsteemScore") = false)
  ∧ is_undefined (m !! "self_esteem_score") = false
  ∧ m !! "selfEsteemScore" = Some (VNum 70)
  ∧ score_as_claimed (m !! "self_esteem_score") (m !! "selfEsteemScore") = 0%float
  ∧ r !! "self_esteem_score" = Some (VNum 50)
  ∧ r !! "selfEsteemScore" = Some (VNum 50)
  ∧ r !! "self_esteem_score"
    ≠ Some (VNum (score_as_claimed (m !! "self_esteem_score")
                                    (m !! "selfEsteemScore")))
  ∧ r !! "self_esteem_score" ≠ m !! "selfEsteemScore".
Proof.
  intros m w r.
  assert (r !! "self_esteem_score" = Some (VNum 50)) as Hsnake
    by (vm_compute; reflexivity).
  assert (r !! "selfEsteemScore" = Some (VNum 50)) as Hcamel
    by (vm_compute; reflexivity).
  assert (m !! "selfEsteemScore" = Some (VNum 70)) as H70
    by (vm_compute; reflexivity).
  assert (score_as_claimed (m !! "self_esteem_score") (m !! "selfEsteemScore")
          = 0%float) as Hclaimed by (vm_compute; reflexivity).
  rewrite Hclaimed, Hsnake, H70.
  repeat split; try (vm_compute; reflexivity); try done.
Qed.

(** A stored empty array is parsed and sent: an upsert of zero rows is issued.
    And with the key absent but a user unknown to the service, the pass
    inserts the user row before it finds that there is nothing to send. *)
Lemma syncData_no_records_counterexample :
  (let w := world {[ "journalEntries" := "[]" ]} signed_in (Some alice) db_alice in
   JSON_parse "[]" = Some (VArr [])
   ∧ calls (Part000.syncData online (render (hook w)) w).2 = [DiaryEntriesUpsert []]
   ∧ calls (UseAutoSync.syncData online (render (hook w)) w).2
     = [DiaryEntriesUpsert []])
  ∧ (let w := world ∅ idle (Some alice) empty_db in
     let after := Part000.syncData online (render (hook w)) w in
     after.1 = true
     ∧ calls after.2 = [UsersSelectSingle "alice"; UsersInsertSelectSingle "alice"]
     ∧ Postgres.users (remote w) = []
     ∧ Postgres.users (remote after.2) = [alice_row]).
Proof. repeat split; vm_compute; reflexivity. Qed.

Lemma syncData_nothing_to_sync_witness :
  let w := world ∅ signed_in (Some alice) db_alice in
  let seen := render (hook w) in
  let '(result, w') := syncData_of online Reconciling seen w in
  result = true
  ∧ localStorage w' = {[ "last_sync_time" := "T1001" ]}
  ∧ calls w' = [].
Proof.
  intros w seen.
  pose proof (syncData_nothing_to_sync online Reconciling seen w (enter w).2
                "uuid-0" eq_refl eq_refl eq_refl) as Hthm.
  destruct (syncData_of online Reconciling seen w) as [result w'].
  destruct Hthm as (Hr & Hls & _ & _ & _ & Hcalls).
  split; [exact Hr|]. split.
  - rewrite Hls. vm_compute. reflexivity.
  - rewrite Hcalls; [reflexivity|]. vm_compute. discriminate.
Defined.

(** The first call inserts the row, the second finds it. *)
Lemma createOrGetUser_idempotent_witness :
  let w := world ∅ idle (Some alice) empty_db in
  let first := createOrGetUser online "alice" w in
  first = (Some alice_row, first.2)
  ∧ served_next (remote first.2) = true
  ∧ ∃ w2 : World Postgres.DB,
      createOrGetUser online "alice" first.2 = (Some alice_row, w2)
      ∧ calls w2 = calls first.2 ++ [UsersSelectSingle "alice"]
      ∧ Postgres.users (remote w2) = Postgres.users (remote first.2).
Proof.
  intros w first.
  assert (first = (Some alice_row, first.2)) as Hfirst by (vm_compute; reflexivity).
  assert (served_next (remote first.2) = true) as Hserved by (vm_compute; reflexivity).
  split; [exact Hfirst|]. split; [exact Hserved|].
  destruct (createOrGetUser_idempotent online) as (_ & _ & Hagain).
  exact (Hagain "alice" w first.2 alice_row Hfirst Hserved).
Defined.

Lemma restore_without_version_witness :
  let p := page {[ "current_counselor" := "X"; "journalEntries" := "[]" ]} in
  let p' := AdminBackupRestore.handleRestoreFromBackup
              (Some (AdminBackupRestore.OnLoad (Some "{}"))) true p in
  JSON_parse "{}" = Some (VObj ∅)
  ∧ lacks_version (VObj ∅)
  ∧ AdminBackupRestore.localStorage p' = AdminBackupRestore.localStorage p
  ∧ AdminBackupRestore.reloadScheduled p' = false.
Proof.
  intros p p'.
  assert (lacks_version (VObj ∅)) as Hlacks by (left; reflexivity).
  assert (JSON_parse "{}" = Some (VObj ∅)) as Hparse by (vm_compute; reflexivity).
  destruct (restore_without_version_changes_nothing "{}" (VObj ∅) p Hparse Hlacks)
    as (Hls & _ & _ & Hreload & _).
  split; [exact Hparse|]. split; [exact Hlacks|].
  split; [exact Hls | exact Hreload].
Defined.

(** A marker set to the empty string is not carried over the clear. *)
Lemma restore_empty_marker_counterexample :
  let p := page {[ "current_counselor" := EmptyString ]} in
  let after := AdminBackupRestore.restoreDocument backup p in
  AdminBackupRestore.localStorage p !! "current_counselor" = Some EmptyString
  ∧ field backup "localStorage" = Some (VObj {[ "journalEntries" := VArr [] ]})
  ∧ after.1 = Normal tt
  ∧ AdminBackupRestore.localStorage after.2 !! "current_counselor" = None
  ∧ AdminBackupRestore.localStorage after.2 !! "journalEntries" = Some "[]".
Proof. repeat split; vm_compute; reflexivity. Qed.

Lemma restore_keeps_counselor_witness :
  let p := page {[ "current_counselor" := "X"; "line-username" := "alice" ]} in
  let after := AdminBackupRestore.restoreDocument backup p in
  after.1 = Normal tt
  ∧ AdminBackupRestore.localStorage after.2 !! "current_counselor" = Some "X"
  ∧ AdminBackupRestore.localStorage after.2 !! "line-username" = None
  ∧ AdminBackupRestore.localStorage after.2 !! "journalEntries" = Some "[]".
Proof.
  intros p after.
  pose proof (restore_keeps_counselor backup (VObj {[ "version" := VStr "1.0" ]})
                {[ "journalEntries" := VArr [] ]} p) as Hthm.
  assert (field backup "metadata" = Some (VObj {[ "version" := VStr "1.0" ]}))
    as H1 by (vm_compute; reflexivity).
  assert (truthy (field (VObj {[ "version" := VStr "1.0" ]}) "version") = true)
    as H3 by (vm_compute; reflexivity).
  assert (field backup "localStorage" = Some (VObj {[ "journalEntries" := VArr [] ]}))
    as H4 by (vm_compute; reflexivity).
  specialize (Hthm H1 eq_refl H3 H4).
  subst after.
  destruct (AdminBackupRestore.restoreDocument backup p) as [outcome p'].
  destruct Hthm as (Ho & _ & Hin & Hout & Hkeep).
  split; [exact Ho|]. split; [|split].
  - apply Hkeep; [vm_compute; reflexivity | vm_compute; reflexivity | done].
  - apply Hout; [vm_compute; reflexivity | done].
  - apply (Hin "journalEntries" (VArr [])). vm_compute. reflexivity.
Defined.

End Examples.

(** * Further properties *)

Import Frames.

(** ** [diaryService.syncDiaries]: the paths without fallback *)

Section SyncDiariesPaths.
Context `{Runtime} {R : Type} `{Backend R} (e : Env).

Lemma clock_only_refl (w : World R) : clock_only w w.
Proof. by repeat split. Qed.

Lemma clock_only_trans (w1 w2 w3 : World R) :
  clock_only w1 w2 → clock_only w2 w3 → clock_only w1 w3.
Proof.
  intros (? & ? & ? & ? & ? & ?) (? & ? & ? & ? & ? & ?).
  repeat split; congruence.
Qed.

Lemma formatDiary_clock_only (userId : string) (diary : value) (w : World R) :
  clock_only w (formatDiary userId diary w).2.
Proof.
  unfold formatDiary.
  destruct (get_prop diary "self_esteem_score"); [|apply clock_only_refl].
  unfold bind.
  destruct (truthy (default undefined (get_prop diary "id")));
    destruct (truthy (default undefined (get_prop diary "created_at")));
    by repeat split.
Qed.

Lemma mapM_clock_only {A B} (f : A → M R (Completion B)) (l : list A) (w : World R) :
  (∀ x w0, clock_only w0 (f x w0).2) → clock_only w (mapM f l w).2.
Proof.
  intros Hf. revert w. induction l as [|x rest IH]; intros w; simpl.
  - apply clock_only_refl.
  - unfold bind. specialize (Hf x w).
    destruct (f x w) as [[b|err] w1]; simpl in *; [|done].
    specialize (IH w1).
    destruct (mapM f rest w1) as [[bs|err] w2]; simpl in *;
      by eapply clock_only_trans.
Qed.

Lemma mapM_formatDiary_null (userId : string) (diaries : list value) (w : World R) :
  VNull ∈ diaries →
  (mapM (formatDiary userId) diaries w).1 = Throw null_read.
Proof.
  revert w. induction diaries as [|d rest IH]; intros w Hin; simpl.
  - by apply elem_of_nil in Hin.
  - unfold bind.
    destruct (formatDiary userId d w) as [[row|err] w1] eqn:Hd.
    + apply elem_of_cons in Hin as [<- | Hin]; [done|].
      specialize (IH w1 Hin).
      destruct (mapM (formatDiary userId) rest w1) as [[rows|err] w2];
        simpl in *; congruence.
    + simpl. unfold formatDiary in Hd.
      destruct (get_prop d "self_esteem_score"); [|by injection Hd as <- _].
      unfold bind in Hd.
      destruct (truthy (default undefined (get_prop d "id")));
        destruct (truthy (default undefined (get_prop d "created_at")));
        done.
Qed.

Lemma online_guard (userId : string) :
  is_Some (supabase e) → userId ≠ EmptyString → userId ≠ local_user_id →
  ∃ c, supabase e = Some c
       ∧ (isLocalMode e || negb (nonempty userId)
          || String.eqb userId local_user_id) = false.
Proof.
  intros [c Hc] Hne Hns. exists c. split; [done|].
  rewrite (supabase_not_local e c Hc).
  apply String.eqb_neq in Hne, Hns. unfold nonempty. by rewrite Hne, Hns.
Qed.

(** Without an error in the response of the bulk upsert there is no
    per-record retry: an accepted bulk upsert gives a success carrying its
    data, a rejected promise a failure carrying the reason, and in both cases
    the bulk upsert is the only request. *)
Theorem syncDiaries_without_fallback (userId : string) (diaries : list value)
    (w w1 : World R) (rows : list (gmap string value)) (reply : Reply value) (b : R) :
  is_Some (supabase e) →
  userId ≠ EmptyString →
  userId ≠ local_user_id →
  mapM (formatDiary userId) diaries w = (Normal rows, w1) →
  diary_entries_upsert rows (remote w1) = (reply, b) →
  (∀ data err, reply ≠ Resolved data (Some err)) →
  let '(result, w2) := syncDiaries e userId diaries w in
  w2 = with_remote b (DiaryEntriesUpsert rows) w1
  ∧ calls w2 = calls w ++ [DiaryEntriesUpsert rows]
  ∧ length rows = length diaries
  ∧ success result = accepted reply
  ∧ match reply with
    | Resolved data _ => sync_error result = None ∧ sync_data result = data
    | Rejected reason =>
      sync_error result = Some ("同期中にエラーが発生: " +:+ reason)
    end.
Proof.
  intros Hon Hne Hns Hfmt Hbulk Hnoerr.
  destruct (online_guard userId Hon Hne Hns) as (c & Hc & Hguard).
  pose proof (mapM_length _ _ _ _ _ Hfmt) as Hlen.
  pose proof (mapM_clock_only (formatDiary userId) diaries w
                (formatDiary_clock_only userId)) as Hquiet.
  rewrite Hfmt in Hquiet. destruct Hquiet as (_ & _ & Hcalls & _).
  unfold syncDiaries. rewrite Hc, Hguard, Hfmt. unfold await. rewrite Hbulk.
  destruct reply as [data [err|] | reason].
  - by destruct (Hnoerr data err).
  - simpl in *. by rewrite Hcalls.
  - simpl in *. by rewrite Hcalls.
Qed.

(** A [null] among the records makes [syncDiaries] fail while it formats the
    batch, with the [TypeError] of the property read in its message: no
    request is issued at all. *)
Theorem syncDiaries_null_record (userId : string) (diaries : list value)
    (w : World R) :
  is_Some (supabase e) →
  userId ≠ EmptyString →
  userId ≠ local_user_id →
  VNull ∈ diaries →
  let '(result, w') := syncDiaries e userId diaries w in
  success result = false
  ∧ (∃ err, error_name err = "TypeError"
            ∧ sync_error result
              = Some ("同期サービスエラー: " +:+ String_of_error err))
  ∧ calls w' = calls w
  ∧ remote w' = remote w
  ∧ localStorage w' = localStorage w.
Proof.
  intros Hon Hne Hns Hnull.
  destruct (online_guard userId Hon Hne Hns) as (c & Hc & Hguard).
  pose proof (mapM_formatDiary_null userId diaries w Hnull) as Hthrow.
  pose proof (mapM_clock_only (formatDiary userId) diaries w
                (formatDiary_clock_only userId)) as Hquiet.
  unfold syncDiaries. rewrite Hc, Hguard.
  destruct (mapM (formatDiary userId) diaries w) as [o w1].
  simpl in Hthrow. subst o.
  destruct Hquiet as (Hls & _ & Hcalls & Hremote & _). simpl in *.
  split; [done|]. split; [by exists null_read|]. done.
Qed.

Lemma syncDiaries_frame (userId : string) (diaries : list value) (w : World R) :
  let w' := (syncDiaries e userId diaries w).2 in
  localStorage w' = localStorage w
  ∧ hook w' = hook w
  ∧ ∃ extra, calls w' = calls w ++ extra
             ∧ Forall diary_request extra
             ∧ (length extra ≤ S (length diaries))%nat.
Proof.
  simpl. unfold syncDiaries.
  assert (∃ extra : list Request, calls w = calls w ++ extra
            ∧ Forall diary_request extra
            ∧ (length extra ≤ S (length diaries))%nat) as Hnone.
  { exists []. rewrite app_nil_r. repeat split; [constructor | simpl; lia]. }
  destruct (supabase e); [|done].
  destruct (isLocalMode e || negb (nonempty userId)
            || String.eqb userId local_user_id); [done|].
  pose proof (mapM_clock_only (formatDiary userId) diaries w
                (formatDiary_clock_only userId)) as Hquiet.
  destruct (mapM (formatDiary userId) diaries w) as [[rows|err] w1] eqn:Hfmt.
  2: { destruct Hquiet as (Hls & Hh & Hcalls & _). simpl in *.
       rewrite Hls, Hh, Hcalls. done. }
  pose proof (mapM_length _ _ _ _ _ Hfmt) as Hlen.
  destruct Hquiet as (Hls & Hh & Hcalls & _). simpl in Hls, Hh, Hcalls.
  unfold await.
  destruct (diary_entries_upsert rows (remote w1)) as [[data [err|]|reason] b].
  - pose proof (upsertEach_spec rows 0 (with_remote b (DiaryEntriesUpsert rows) w1))
      as Heach.
    destruct (upsertEach rows 0 _) as [n w3].
    destruct Heach as (_ & Hc3 & _ & Hls3 & Hh3 & _). simpl in Hc3, Hls3, Hh3.
    assert (localStorage w3 = localStorage w ∧ hook w3 = hook w
            ∧ ∃ extra, calls w3 = calls w ++ extra
                       ∧ Forall diary_request extra
                       ∧ (length extra ≤ S (length diaries))%nat) as Hgoal.
    { repeat split; try congruence.
      exists (DiaryEntriesUpsert rows :: ((λ row, DiaryEntriesUpsert [row]) <$> rows)).
      split; [by rewrite Hc3, Hcalls, <- app_assoc|]. split.
      - constructor; [done|]. apply Forall_fmap. by apply Forall_true.
      - simpl. rewrite length_fmap. lia. }
    by destruct (Nat.ltb 0 n).
  - simpl. rewrite Hls, Hh, Hcalls. repeat split.
    exists [DiaryEntriesUpsert rows]. repeat split; [by repeat constructor|].
    simpl. lia.
  - simpl. rewrite Hls, Hh, Hcalls. repeat split.
    exists [DiaryEntriesUpsert rows]. repeat split; [by repeat constructor|].
    simpl. lia.
Qed.

(** Whatever happens, [syncDiaries] leaves the local storage and the state of
    the hook alone, and its requests are upserts of diaries, at most one more
    than there are records. *)
Theorem syncDiaries_traffic (userId : string) (diaries : list value) (w : World R) :
  let w' := (syncDiaries e userId diaries w).2 in
  localStorage w' = localStorage w
  ∧ hook w' = hook w
  ∧ ∃ extra, calls w' = calls w ++ extra
             ∧ Forall diary_request extra
             ∧ (length extra ≤ S (length diaries))%nat.
Proof. apply syncDiaries_frame. Qed.

End SyncDiariesPaths.

(** ** The rows sent and the normalization of the hook *)

Section Rows.
Context `{Runtime} {R : Type} `{Backend R}.

Lemma lookup_set_prop_eq (k : string) (x : any) (o : gmap string value) :
  set_prop k x o !! k = x.
Proof.
  destruct x; simpl.
  - by rewrite lookup_insert_eq.
  - by rewrite lookup_delete_eq.
Qed.

Ltac lookup_row :=
  repeat first
    [ rewrite lookup_insert_eq
    | rewrite lookup_set_prop_eq
    | rewrite lookup_insert_ne by done
    | rewrite lookup_set_prop_ne by done
    | rewrite lookup_empty ].

(** The row [syncDiaries] builds from a record (an object) carries the user
    identifier it was called with, an identifier (the record's own when it is
    truthy, the reading of the clock otherwise) and a creation time, passes
    the four text columns through, and has no property outside the columns of
    [diary_entries]. *)
Theorem formatDiary_row (userId : string) (m : gmap string value) (w : World R) :
  ∃ (row : gmap string value) (w' : World R),
    formatDiary userId (VObj m) w = (Normal row, w')
    ∧ row !! "user_id" = Some (VStr userId)
    ∧ row !! "id"
      = (if truthy (m !! "id") then m !! "id"
         else Some (VStr (nat_toString (clock w (reads w)))))
    ∧ is_Some (row !! "id")
    ∧ is_Some (row !! "created_at")
    ∧ row !! "date" = m !! "date"
    ∧ row !! "emotion" = m !! "emotion"
    ∧ row !! "event" = m !! "event"
    ∧ row !! "realization" = m !! "realization"
    ∧ (∀ k, k ∉ Schema.diary_columns → row !! k = None).
Proof.
  unfold formatDiary. cbn [get_prop default from_option Datatypes.id].
  assert (is_Some (if truthy (m !! "id") then m !! "id"
                   else Some (VStr (nat_toString (clock w (reads w)))))) as Hsome.
  { destruct (truthy (m !! "id")) eqn:Hm; [|eauto].
    destruct (m !! "id"); [eauto|done]. }
  destruct (truthy (m !! "id")) eqn:Hid;
    destruct (truthy (m !! "created_at")) eqn:Hcreated;
    unfold bind, new_Date_toISOString, bind, Date_now, ret; cbv beta iota.
  all: eexists _, _; (split; [reflexivity|]).
  all: assert (is_Some (m !! "created_at") ∨ truthy (m !! "created_at") = false)
         as Hc by (destruct (m !! "created_at"); eauto).
  all: split; [by lookup_row|].
  all: split; [by lookup_row|].
  all: split; [by lookup_row|].
  all: split; [lookup_row; destruct Hc; [done | congruence || eauto]|].
  all: split; [by lookup_row|].
  all: split; [by lookup_row|].
  all: split; [by lookup_row|].
  all: split; [by lookup_row|].
  all: intros k Hk; unfold Schema.diary_columns in Hk.
  all: repeat (apply not_elem_of_cons in Hk as [? Hk]).
  all: by lookup_row.
Qed.

Lemma or_null_idem (x : any) : or_null (Some (or_null x)) = or_null x.
Proof.
  unfold or_null, or_else.
  destruct (truthy x) eqn:Hx; [|done].
  destruct x as [v|]; [|done]. by rewrite Hx.
Qed.

Lemma or_false_idem (x : any) : or_false (Some (or_false x)) = or_false x.
Proof.
  unfold or_false, or_else.
  destruct (truthy x) eqn:Hx; [|done].
  destruct x as [v|]; [|done]. by rewrite Hx.
Qed.

(** Normalizing twice changes nothing: applied to a record it has produced
    (whose creation time is truthy), the callback of [entries.map] returns
    that record and does not read the clock. *)
Theorem normalizeEntry_idempotent (m r : gmap string value) (w w1 w2 : World R) :
  Part000.normalizeEntry (VObj m) w = (Normal r, w1) →
  truthy (r !! "created_at") = true →
  Part000.normalizeEntry (VObj r) w2 = (Normal r, w2).
Proof.
  unfold Part000.normalizeEntry at 1. cbn [get_prop default from_option Datatypes.id]. unfold bind.
  match goal with
  | |- context [ (if ?c then ?a else ?b) w ] =>
      destruct ((if c then a else b) w) as [created w']
  end.
  intros [= <- <-] Htruthy.
  rewrite lookup_set_prop_ne, lookup_set_prop_ne, lookup_set_prop_ne,
    lookup_set_prop_ne, lookup_set_prop_ne in Htruthy by done.
  rewrite lookup_insert_ne, lookup_insert_ne, lookup_insert_ne,
    lookup_insert_ne in Htruthy by done.
  rewrite lookup_set_prop_eq in Htruthy.
  unfold Part000.normalizeEntry. cbn [get_prop default from_option Datatypes.id].
  lookup_row.
  rewrite !reconcile_score_number. cbn [Number].
  rewrite !or_null_idem, or_false_idem, Htruthy.
  reflexivity.
Qed.

Lemma formatDiary_passes_snake (userId : string) (r : gmap string value)
    (w0 : World R) (a b : value) :
  r !! "self_esteem_score" = Some a → a ≠ VNull →
  r !! "worthlessness_score" = Some b → b ≠ VNull →
  ∃ (row : gmap string value) (w1 : World R),
    formatDiary userId (VObj r) w0 = (Normal row, w1)
    ∧ row !! "self_esteem_score" = Some a
    ∧ row !! "worthlessness_score" = Some b.
Proof.
  intros Ha Hna Hb Hnb. unfold formatDiary.
  cbn [get_prop default from_option Datatypes.id].
  rewrite Ha, Hb.
  assert (∀ (v : value) (c : any), v ≠ VNull → reconcile_score (Some v) c = v)
    as Hkeep by (intros [] c Hv; done).
  rewrite !Hkeep by done.
  unfold bind.
  match goal with
  | |- context [ (if ?c then ?x else ?y) w0 ] =>
      destruct ((if c then x else y) w0) as [id_ w0a]
  end.
  match goal with
  | |- context [ (if ?c then ?x else ?y) w0a ] =>
      destruct ((if c then x else y) w0a) as [created' w1]
  end.
  eexists _, w1. split; [reflexivity|]. split; by lookup_row.
Qed.

Lemma or_50_value (x : any) :
  UseAutoSync.or_50 x = (if truthy x then default (VNum 50) x else VNum 50)
  ∧ UseAutoSync.or_50 x ≠ VNull.
Proof.
  unfold UseAutoSync.or_50, or_else.
  destruct (truthy x) eqn:Hx; [|done].
  destruct x as [[]|]; done.
Qed.

(** In the revision of [hooks/useAutoSync.ts], the score that reaches the
    remote relation is the camelCase value when that is truthy and 50
    otherwise (so a stored 0 becomes 50), whatever the snake_case property of
    the record holds; the record is sent without camelCase properties. *)
Theorem earlier_revision_scores (userId : string) (m : gmap string value)
    (w w0 : World R) :
  ∃ (r : gmap string value) (w' : World R) (row : gmap string value) (w1 : World R),
    UseAutoSync.normalizeEntry (VObj m) w = (Normal r, w')
    ∧ formatDiary userId (VObj r) w0 = (Normal row, w1)
    ∧ row !! "self_esteem_score"
      = Some (if truthy (m !! "selfEsteemScore")
              then default (VNum 50) (m !! "selfEsteemScore")
              else VNum 50)
    ∧ row !! "worthlessness_score"
      = Some (if truthy (m !! "worthlessnessScore")
              then default (VNum 50) (m !! "worthlessnessScore")
              else VNum 50)
    ∧ r !! "selfEsteemScore" = None
    ∧ r !! "worthlessnessScore" = None.
Proof.
  unfold UseAutoSync.normalizeEntry.
  cbn [get_prop default from_option Datatypes.id]. unfold bind.
  match goal with
  | |- context [ (if ?c then ?a else ?b) w ] =>
      destruct ((if c then a else b) w) as [created w']
  end.
  cbv beta iota. unfold ret at 1.
  match goal with
  | |- ∃ r0 w'0 row w1, (Normal ?r, w') = _ ∧ _ =>
      destruct (formatDiary_passes_snake userId r w0
                  (UseAutoSync.or_50 (m !! "selfEsteemScore"))
                  (UseAutoSync.or_50 (m !! "worthlessnessScore")))
        as (row & w1 & Hrow & Hself & Hworth);
        [by lookup_row | apply or_50_value | by lookup_row | apply or_50_value |];
      exists r, w', row, w1
  end.
  split; [reflexivity|]. split; [exact Hrow|].
  rewrite Hself, Hworth.
  rewrite (proj1 (or_50_value (m !! "selfEsteemScore"))).
  rewrite (proj1 (or_50_value (m !! "worthlessnessScore"))).
  repeat split; by lookup_row.
Qed.

End Rows.

(** ** [syncData]: what a pass leaves behind *)

Section Passes.
Context `{Runtime} {R : Type} `{Backend R} (e : Env).

Lemma normalizeEntry_clock_only (rev : Revision) (entry : value) (w : World R) :
  clock_only w
    (match rev with
     | Reconciling => Part000.normalizeEntry entry w
     | Earlier => UseAutoSync.normalizeEntry entry w
     end).2.
Proof.
  destruct rev.
  - unfold Part000.normalizeEntry.
    destruct (get_prop entry "self_esteem_score"); [|apply clock_only_refl].
    unfold bind.
    destruct (truthy (default undefined (get_prop entry "created_at")));
      by repeat split.
  - unfold UseAutoSync.normalizeEntry.
    destruct (get_prop entry "id"); [|apply clock_only_refl].
    unfold bind.
    destruct (truthy (default undefined (get_prop entry "created_at")));
      by repeat split.
Qed.

Lemma entries_map_clock_only
    (normalize : value → M R (Completion (gmap string value)))
    (entries : value) (w : World R) :
  (∀ x w0, clock_only w0 (normalize x w0).2) →
  clock_only w (entries_map normalize entries w).2.
Proof.
  intros Hn. destruct entries; try apply clock_only_refl.
  by apply mapM_clock_only.
Qed.

Lemma entries_map_not_array
    (normalize : value → M R (Completion (gmap string value)))
    (entries : value) (w : World R) :
  (∀ l, entries ≠ VArr l) →
  ∃ err, entries_map normalize entries w = (Throw err, w).
Proof.
  intros Hl. destruct entries; simpl; eauto. by destruct (Hl l).
Qed.

Lemma syncData_of_shape (rev : Revision) (seen : Closure) :
  ∃ normalize,
    (∀ x (w0 : World R), clock_only w0 (normalize x w0).2)
    ∧ syncData_of e rev seen
      = guarded e seen
          (let* userId := resolveUserId_of e rev seen in
           match userId with
           | None => ret (Normal false)
           | Some uid => syncEntries e normalize uid
           end).
Proof.
  destruct rev.
  - exists Part000.normalizeEntry. split; [|reflexivity].
    intros x w0. apply (normalizeEntry_clock_only Reconciling).
  - exists UseAutoSync.normalizeEntry. split; [|reflexivity].
    intros x w0. apply (normalizeEntry_clock_only Earlier).
Qed.

Lemma guarded_blocked (seen : Closure) (body : M R (Completion bool)) (w : World R) :
  passes_guards seen e = false → guarded e seen body w = (false, w).
Proof.
  unfold passes_guards, guarded.
  destruct (supabase e); [|done].
  by destruct (isLocalMode e), (seen_isSyncing seen).
Qed.

Lemma syncEntries_outcome
    (normalize : value → M R (Completion (gmap string value)))
    (uid : string) (w : World R) :
  (∀ x w0, clock_only w0 (normalize x w0).2) →
  let '(o, w') := syncEntries e normalize uid w in
  match o with
  | Normal b =>
    b = true
    ∧ (∃ t, localStorage w' = <["last_sync_time" := t]> (localStorage w))
    ∧ is_Some (lastSyncTime (hook w'))
  | Throw _ => localStorage w' = localStorage w ∧ hook w' = hook w
  end.
Proof.
  intros Hn. unfold syncEntries, bind, getItem.
  destruct (negb (truthy_str (localStorage w !! "journalEntries"))).
  { simpl. eauto. }
  destruct (JSON_parse _) as [parsed|]; [|done].
  pose proof (entries_map_clock_only normalize parsed w Hn) as Hquiet.
  destruct (entries_map normalize parsed w) as [[entries|err] w1].
  2: { destruct Hquiet as (? & ? & _). done. }
  destruct Hquiet as (Hls & Hh & _). simpl in Hls, Hh.
  pose proof (syncDiaries_frame e uid (VObj <$> entries) w1) as Htraffic.
  destruct (syncDiaries e uid (VObj <$> entries) w1) as [result w2].
  destruct Htraffic as (Hls2 & Hh2 & _). simpl in Hls2, Hh2.
  destruct (success result); simpl.
  - rewrite Hls2, Hls. eauto.
  - split; congruence.
Qed.

(** The last-sync time moves only with success: when [syncData] returns
    [false], the local storage and the [lastSyncTime] of the hook are as
    before; when it returns [true], the only change to the local storage is
    the key [last_sync_time], and a [lastSyncTime] is set. *)
Theorem syncData_timestamp (rev : Revision) (seen : Closure) (w : World R) :
  let '(result, w') := syncData_of e rev seen w in
  if result
  then (∃ t, localStorage w' = <["last_sync_time" := t]> (localStorage w))
       ∧ is_Some (lastSyncTime (hook w'))
  else localStorage w' = localStorage w
       ∧ lastSyncTime (hook w') = lastSyncTime (hook w).
Proof.
  destruct (syncData_of_shape rev seen) as (normalize & Hn & ->).
  destruct (passes_guards seen e) eqn:Hg.
  2: { by rewrite guarded_blocked. }
  rewrite guarded_passes by done.
  destruct (enter_frame w) as (Els & _).
  assert (lastSyncTime (hook (enter w).2) = lastSyncTime (hook w)) as Elast by done.
  pose proof (resolveUserId_frame e rev seen (enter w).2) as Hframe.
  unfold bind at 1 2.
  destruct (resolveUserId_of e rev seen (enter w).2) as [[uid|] w1].
  - destruct Hframe as (Hls & _ & _ & _ & Hlast & _). simpl in Hls, Hlast.
    pose proof (syncEntries_outcome normalize uid w1 Hn) as Hout.
    destruct (syncEntries e normalize uid w1) as [[b|err] w2]; cbn [fst snd].
    + destruct Hout as (-> & [t Ht] & Hsome).
      destruct (leave_frame (Normal true) w2) as (Lls & Llast & _).
      destruct (leave (Normal true) w2) as [result w'] eqn:Hleave.
      assert (result = true) as -> by (by injection Hleave as <- _).
      simpl in Lls, Llast. rewrite Lls, Llast, Ht, Hls, ?Els. eauto.
    + destruct Hout as (Hls2 & Hh2).
      destruct (leave_frame (Throw err) w2) as (Lls & Llast & _).
      destruct (leave (Throw err) w2) as [result w'] eqn:Hleave.
      assert (result = false) as -> by (by injection Hleave as <- _).
      simpl in Lls, Llast. rewrite Lls, Llast, Hls2, Hh2, Hls, Hlast, ?Els, ?Elast.
      done.
  - destruct Hframe as (Hls & _ & _ & _ & Hlast & _). simpl in Hls, Hlast.
    cbn [fst snd]. unfold ret. cbn [fst snd].
    destruct (leave_frame (Normal false) w1) as (Lls & Llast & _).
    destruct (leave (Normal false) w1) as [result w'] eqn:Hleave.
    assert (result = false) as -> by (by injection Hleave as <- _).
    simpl in Lls, Llast. rewrite Lls, Llast, Hls, Hlast, ?Els, ?Elast. done.
Qed.

(** A stored collection that is not JSON, or is JSON but not an array, makes
    the pass fail after the identity step and before any request on the diary
    relation: [syncData] returns [false], records an error message, and the
    requests of the pass are those of the identity step. *)
Theorem syncData_malformed_collection (rev : Revision) (seen : Closure)
    (w w1 : World R) (uid text : string) :
  passes_guards seen e = true →
  localStorage w !! "journalEntries" = Some text →
  text ≠ EmptyString →
  JSON_parse text = None
  ∨ (∃ v, JSON_parse text = Some v ∧ ∀ l, v ≠ VArr l) →
  resolveUserId_of e rev seen (enter w).2 = (Some uid, w1) →
  let '(result, w') := syncData_of e rev seen w in
  result = false
  ∧ is_Some (error (hook w'))
  ∧ isSyncing (hook w') = false
  ∧ localStorage w' = localStorage w
  ∧ calls w' = calls w1
  ∧ remote w' = remote w1.
Proof.
  intros Hg Htext Hne Hbad Hres.
  destruct (syncData_of_shape rev seen) as (normalize & Hn & ->).
  rewrite guarded_passes by done.
  pose proof (resolveUserId_frame e rev seen (enter w).2) as Hframe.
  rewrite Hres in Hframe. destruct Hframe as (Hls & _). simpl in Hls.
  assert (∃ err, syncEntries e normalize uid w1 = (Throw err, w1)) as [err Hsync].
  { unfold syncEntries, bind, getItem.
    rewrite Hls, Htext. simpl.
    apply String.eqb_neq in Hne. unfold nonempty. rewrite Hne. simpl.
    destruct Hbad as [-> | (v & -> & Hv)]; [eauto|].
    destruct (entries_map_not_array normalize v w1 Hv) as [err ->]. eauto. }
  match goal with
  | |- context [ leave (?body ?w0).1 _ ] =>
      assert (body w0 = (Throw err, w1)) as ->
        by (unfold bind; by rewrite Hres)
  end.
  cbn [fst snd]. simpl. rewrite Hls. done.
Qed.

End Passes.

(** ** [syncData]: a pass that sends the collection *)

Section HappyPath.
Context `{Runtime} {R : Type} `{Backend R} (e : Env).

Lemma mapM_objects
    (f : value → M R (Completion (gmap string value)))
    (P : gmap string value → Prop) (ms : list (gmap string value)) (w : World R) :
  (∀ m w0, ∃ r w1, f (VObj m) w0 = (Normal r, w1) ∧ P r) →
  ∃ rs w', mapM f (VObj <$> ms) w = (Normal rs, w')
           ∧ length rs = length ms ∧ Forall P rs.
Proof.
  intros Hf. revert w. induction ms as [|m rest IH]; intros w.
  - eexists [], w. by repeat split.
  - change (VObj <$> m :: rest) with (VObj m :: (VObj <$> rest)).
    cbn [mapM]. unfold bind.
    destruct (Hf m w) as (r & w1 & -> & Hr).
    destruct (IH w1) as (rs & w2 & -> & Hlen & Hall).
    eexists (r :: rs), w2. repeat split; [simpl; by rewrite Hlen|].
    by constructor.
Qed.

Lemma normalize_object (rev : Revision) (m : gmap string value) (w0 : World R) :
  ∃ r w1,
    (match rev with
     | Reconciling => Part000.normalizeEntry
     | Earlier => UseAutoSync.normalizeEntry
     end) (VObj m) w0 = (Normal r, w1) ∧ True.
Proof.
  destruct rev.
  - unfold Part000.normalizeEntry.
    cbn [get_prop default from_option Datatypes.id]. unfold bind.
    match goal with
    | |- context [ (if ?c then ?a else ?b) w0 ] =>
        destruct ((if c then a else b) w0) as [created w1]
    end.
    eexists _, w1. done.
  - unfold UseAutoSync.normalizeEntry.
    cbn [get_prop default from_option Datatypes.id]. unfold bind.
    match goal with
    | |- context [ (if ?c then ?a else ?b) w0 ] =>
        destruct ((if c then a else b) w0) as [created w1]
    end.
    eexists _, w1. done.
Qed.

Lemma formatDiary_object (userId : string) (m : gmap string value) (w0 : World R) :
  ∃ row w1, formatDiary userId (VObj m) w0 = (Normal row, w1)
            ∧ row !! "user_id" = Some (VStr userId).
Proof.
  unfold formatDiary. cbn [get_prop default from_option Datatypes.id].
  unfold bind.
  match goal with
  | |- context [ (if ?c then ?x else ?y) w0 ] =>
      destruct ((if c then x else y) w0) as [id_ w0a]
  end.
  match goal with
  | |- context [ (if ?c then ?x else ?y) w0a ] =>
      destruct ((if c then x else y) w0a) as [created' w1]
  end.
  eexists _, w1. split; [reflexivity|].
  rewrite lookup_set_prop_ne by done. by rewrite lookup_insert_eq.
Qed.

(** When the service accepts the writes, a pass over a stored array of
    records returns [true] after a single request beyond the identity step:
    one upsert with a row per record, each under the resolved user
    identifier; it then writes the last-sync time and leaves no error. *)
Theorem syncData_sends_collection (rev : Revision) (seen : Closure)
    (w w1 : World R) (uid text : string) (ms : list (gmap string value)) :
  passes_guards seen e = true →
  localStorage w !! "journalEntries" = Some text →
  text ≠ EmptyString →
  JSON_parse text = Some (VArr (VObj <$> ms)) →
  resolveUserId_of e rev seen (enter w).2 = (Some uid, w1) →
  uid ≠ EmptyString →
  uid ≠ local_user_id →
  (∀ rows b, accepted (diary_entries_upsert rows b).1 = true) →
  let '(result, w') := syncData_of e rev seen w in
  result = true
  ∧ (∃ rows, calls w' = calls w1 ++ [DiaryEntriesUpsert rows]
             ∧ length rows = length ms
             ∧ Forall (λ row, row !! "user_id" = Some (VStr uid)) rows)
  ∧ is_Some (localStorage w' !! "last_sync_time")
  ∧ is_Some (lastSyncTime (hook w'))
  ∧ isSyncing (hook w') = false.
Proof.
  intros Hg Htext Hne Hparse Hres Huid Hsentinel Haccept.
  assert (is_Some (supabase e)) as Hon.
  { unfold passes_guards in Hg. destruct (supabase e); [eauto|done]. }
  destruct (online_guard e uid Hon Huid Hsentinel) as (c & Hc & Hguard).
  assert (∃ normalize,
            (∀ m w0, ∃ r w2, normalize (VObj m) w0 = (Normal r, w2) ∧ True)
            ∧ (∀ x (w0 : World R), clock_only w0 (normalize x w0).2)
            ∧ syncData_of e rev seen
              = guarded e seen
                  (let* userId := resolveUserId_of e rev seen in
                   match userId with
                   | None => ret (Normal false)
                   | Some uid => syncEntries e normalize uid
                   end)) as (normalize & Hobj & Hquiet & ->).
  { destruct rev.
    - exists Part000.normalizeEntry. split; [|split; [|reflexivity]].
      + apply (normalize_object Reconciling).
      + intros x w0. apply (normalizeEntry_clock_only Reconciling).
    - exists UseAutoSync.normalizeEntry. split; [|split; [|reflexivity]].
      + apply (normalize_object Earlier).
      + intros x w0. apply (normalizeEntry_clock_only Earlier). }
  rewrite guarded_passes by done.
  pose proof (resolveUserId_frame e rev seen (enter w).2) as Hframe.
  rewrite Hres in Hframe. destruct Hframe as (Hls & _). cbn [snd] in Hls.
  destruct (enter_frame w) as (Els & _). rewrite Els in Hls.
  (* the normalization *)
  destruct (mapM_objects normalize (λ _, True) ms w1 Hobj)
    as (rs & w2 & Hnorm & Hlen_rs & _).
  pose proof (mapM_clock_only normalize (VObj <$> ms) w1 Hquiet) as Hq2.
  rewrite Hnorm in Hq2. destruct Hq2 as (Hls2 & Hh2 & Hcalls2 & Hremote2 & _).
  cbn [snd] in Hls2, Hh2, Hcalls2, Hremote2.
  (* the formatting *)
  destruct (mapM_objects (formatDiary uid)
              (λ row, row !! "user_id" = Some (VStr uid)) rs w2
              (formatDiary_object uid))
    as (rows & w3 & Hfmt & Hlen_rows & Hrows).
  pose proof (mapM_clock_only (formatDiary uid) (VObj <$> rs) w2
                (formatDiary_clock_only uid)) as Hq3.
  rewrite Hfmt in Hq3. destruct Hq3 as (Hls3 & Hh3 & Hcalls3 & _).
  cbn [snd] in Hls3, Hh3, Hcalls3.
  (* the bulk upsert *)
  destruct (diary_entries_upsert rows (remote w3)) as [reply b] eqn:Hbulk.
  pose proof (Haccept rows (remote w3)) as Hok. rewrite Hbulk in Hok.
  destruct reply as [data [err|]|reason]; try done.
  assert (syncEntries e normalize uid w1
          = (let w4 := with_remote b (DiaryEntriesUpsert rows) w3 in
             (do setLastSyncTime (Some (toISOString (clock w4 (reads w4)))) then
              do setItem "last_sync_time" (toISOString (clock w4 (reads w4))) then
              ret (Normal true)) (Date_now w4).2)) as Hsync.
  { unfold syncEntries, bind at 1, getItem.
    rewrite Hls, Htext.
    assert (truthy_str (Some text) = true) as ->.
    { unfold truthy_str, nonempty. apply String.eqb_neq in Hne. by rewrite Hne. }
    cbn [negb default from_option Datatypes.id]. rewrite Hparse.
    unfold entries_map, bind at 1. rewrite Hnorm.
    unfold bind at 1, syncDiaries. rewrite Hc, Hguard, Hfmt.
    unfold await. rewrite Hbulk. reflexivity. }
  match goal with
  | |- context [ leave (?body ?w0).1 _ ] =>
      assert (body w0 = syncEntries e normalize uid w1) as ->
        by (unfold bind; by rewrite Hres)
  end.
  rewrite Hsync. simpl.
  split; [done|]. split.
  - exists rows. split; [by rewrite Hcalls3, Hcalls2|].
    split; [congruence | exact Hrows].
  - rewrite lookup_insert_eq. eauto.
Qed.

End HappyPath.

(** ** The other services of [lib/supabase.ts] *)

Section GatewayProps.
Import Gateway.
Context `{Runtime} {R : Type} `{Tables R} (e : Env).

Lemma ask_frame {A} (q : Query) (run : R → Reply A * R) (s : Site R) :
  site_storage (ask q run s).2 = site_storage s
  ∧ site_queries (ask q run s).2 = site_queries s ++ [q].
Proof. unfold ask. by destruct (run (site_service s)). Qed.

Lemma quiet_refl (s : Site R) : quiet s s.
Proof. split; [done|]. exists []. split; [by rewrite app_nil_r | simpl; lia]. Qed.

Lemma quiet_ask {A} (q : Query) (run : R → Reply A * R) (s : Site R) :
  quiet s (ask q run s).2.
Proof.
  destruct (ask_frame q run s) as [Hs Hq]. split; [done|].
  exists [q]. split; [done|]. simpl. lia.
Qed.

Lemma readRows_quiet (q : Query) (run : R → Reply (list value) * R) (s : Site R) :
  quiet s (readRows e q run s).2.
Proof.
  unfold readRows. destruct (supabase e); [|apply quiet_refl].
  destruct (isLocalMode e); [apply quiet_refl|].
  pose proof (quiet_ask q run s) as Hq.
  destruct (ask q run s) as [[[rows|] [err|]|reason] s1]; exact Hq.
Qed.

(** In local-only mode there is no client, so every service returns at its
    first guard: the reads give the empty list, [sendMessage] gives [null],
    [saveConsentHistory] fails with "Supabase接続なし" and both consent
    synchronisations return [false]; nothing is stored locally and no query is
    issued.  The branches under [if (isLocalMode)] are never reached. *)
Theorem local_mode_services (record : value) (userId room content : string)
    (sender counselor : option string) (s : Site R) :
  isLocalMode e = true →
  getUserDiaries e userId s = ([], s)
  ∧ getChatMessages e room s = ([], s)
  ∧ getAllConsentHistories e s = ([], s)
  ∧ sendMessage e room content sender counselor s = (None, s)
  ∧ saveConsentHistory e record s
    = ({| success := false; sync_error := Some "Supabase接続なし";
          sync_data := undefined |}, s)
  ∧ syncConsentHistories e s = (false, s)
  ∧ syncConsentHistoriesToLocal e s = (false, s).
Proof.
  intros Hlocal. pose proof (local_mode_no_client e Hlocal) as Hnone.
  unfold getUserDiaries, getChatMessages, getAllConsentHistories, readRows,
    sendMessage, saveConsentHistory, syncConsentHistories,
    syncConsentHistoriesToLocal.
  rewrite Hnone. done.
Qed.

(** Of the services, only [syncConsentHistoriesToLocal] ever writes to the
    local storage, and only the key [consent_histories], exactly when it
    returns [true]; [saveConsentHistory] never stores the record locally.
    Each service issues at most one query. *)
Theorem services_storage_frame (record : value) (userId room content : string)
    (sender counselor : option string) (s : Site R) :
  quiet s (getUserDiaries e userId s).2
  ∧ quiet s (getChatMessages e room s).2
  ∧ quiet s (getAllConsentHistories e s).2
  ∧ quiet s (sendMessage e room content sender counselor s).2
  ∧ quiet s (saveConsentHistory e record s).2
  ∧ quiet s (syncConsentHistories e s).2
  ∧ (let '(ok, s') := syncConsentHistoriesToLocal e s in
     (if ok
      then ∃ rows, site_storage s'
                   = <["consent_histories" := JSON_stringify (VArr rows)]>
                       (site_storage s)
      else site_storage s' = site_storage s)
     ∧ ∃ qs, site_queries s' = site_queries s ++ qs ∧ (length qs ≤ 1)%nat).
Proof.
  repeat split_and; try apply readRows_quiet.
  - unfold sendMessage. destruct (supabase e); [|apply quiet_refl].
    destruct (isLocalMode e); [apply quiet_refl|].
    match goal with
    | |- context [ ask ?q ?run s ] =>
        pose proof (quiet_ask q run s) as Hq;
        destruct (ask q run s) as [[d [err|]|reason] s1]; exact Hq
    end.
  - unfold saveConsentHistory.
    destruct (supabase e) as [c|] eqn:Hc; [|apply quiet_refl].
    rewrite (supabase_not_local e c Hc).
    match goal with
    | |- context [ ask ?q ?run s ] =>
        pose proof (quiet_ask q run s) as Hq;
        destruct (ask q run s) as [[d [err|]|reason] s1]; exact Hq
    end.
  - unfold syncConsentHistories. destruct (supabase e); [|apply quiet_refl].
    destruct (isLocalMode e); [apply quiet_refl|].
    destruct (negb _); [apply quiet_refl|].
    destruct (JSON_parse _) as [[| | | |[|h hs]|]|]; try apply quiet_refl.
    match goal with
    | |- context [ ask ?q ?run s ] =>
        pose proof (quiet_ask q run s) as Hq;
        destruct (ask q run s) as [[d [err|]|reason] s1]; exact Hq
    end.
  - unfold syncConsentHistoriesToLocal.
    destruct (supabase e) as [c|] eqn:Hc.
    2: { split; [done|]. exists []. split; [by rewrite app_nil_r | simpl; lia]. }
    rewrite (supabase_not_local e c Hc).
    destruct (ask_frame ConsentSelectOrdered consent_select_ordered s) as [Hs Hq].
    destruct (ask ConsentSelectOrdered consent_select_ordered s)
      as [[[rows|] [err|]|reason] s1]; simpl in *;
      (split; [try done | exists [ConsentSelectOrdered]; split; [done | simpl; lia]]).
    exists rows. by rewrite Hs.
Qed.

End GatewayProps.

Section Messages.
Import Gateway Schema.
Context `{Runtime} {R : Type} `{Tables R} (e : Env).


End Messages.

Section Consent.
Import Gateway.
Context `{Runtime} {R : Type} `{Tables R} (e : Env).

(** [syncConsentHistories] reaches the service only for a stored text that
    parses as a non-empty array, and then with one upsert of exactly that
    array; it returns [false] only when the text does not parse, when the
    upsert fails, or when there is no client. *)
Theorem syncConsentHistories_request (s : Site R) :
  let '(ok, s') := syncConsentHistories e s in
  (site_queries s' = site_queries s
   ∨ ∃ text h hs,
       site_storage s !! "consent_histories" = Some text
       ∧ JSON_parse text = Some (VArr (h :: hs))
       ∧ site_queries s' = site_queries s ++ [ConsentUpsertIgnore (h :: hs)])
  ∧ (if ok then True
     else supabase e = None
          ∨ (∃ text, site_storage s !! "consent_histories" = Some text
                     ∧ JSON_parse text = None)
          ∨ ∃ hs, site_queries s' = site_queries s ++ [ConsentUpsertIgnore hs]
                  ∧ ∀ d, (consent_upsert_ignore hs (site_service s)).1
                         ≠ Resolved d None).
Proof.
  unfold syncConsentHistories.
  destruct (supabase e) as [c|] eqn:Hc; [|by eauto].
  rewrite (supabase_not_local e c Hc).
  destruct (site_storage s !! "consent_histories") as [text|] eqn:Htext;
    [|by split; [left|]].
  cbn [truthy_str default from_option Datatypes.id].
  destruct (nonempty text); cbn [negb]; [|by split; [left|]].
  destruct (JSON_parse text) as [parsed|] eqn:Hparse.
  2: { split; [by left|]. right. left. eauto. }
  destruct parsed as [| | | |[|h hs]|]; try by (split; [left|]).
  unfold ask.
  destruct (consent_upsert_ignore (h :: hs) (site_service s)) as [[d [err|]|reason] b]
    eqn:Hup; simpl.
  - split; [right; by eauto 10|]. right. right.
    exists (h :: hs). by rewrite Hup.
  - split; [right; by eauto 10|]. done.
  - split; [right; by eauto 10|]. right. right.
    exists (h :: hs). by rewrite Hup.
Qed.

(** What [syncConsentHistoriesToLocal] stored is what [syncConsentHistories]
    sends back: after a successful download of [rows], the upload issues one
    upsert of exactly [rows] when there are any and no query when there are
    none, provided [JSON.parse] reads back what [JSON.stringify] wrote. *)
Theorem consent_round_trip (s : Site R) (rows : list value) (b : R) :
  is_Some (supabase e) →
  consent_select_ordered (site_service s) = (Resolved (Some rows) None, b) →
  JSON_stringify (VArr rows) ≠ EmptyString →
  JSON_parse (JSON_stringify (VArr rows)) = Some (VArr rows) →
  let '(down, s1) := syncConsentHistoriesToLocal e s in
  let '(up, s2) := syncConsentHistories e s1 in
  down = true
  ∧ site_storage s2 = <["consent_histories" := JSON_stringify (VArr rows)]> (site_storage s)
  ∧ site_queries s2
    = site_queries s ++ ConsentSelectOrdered
        :: match rows with
           | [] => []
           | _ => [ConsentUpsertIgnore rows]
           end
  ∧ (rows = [] → up = true ∧ site_service s2 = b).
Proof.
  intros [c Hc] Hsel Hne Hparse.
  unfold syncConsentHistoriesToLocal, syncConsentHistories.
  rewrite Hc, (supabase_not_local e c Hc).
  unfold ask at 1. rewrite Hsel. cbn [store site_storage].
  rewrite lookup_insert_eq. cbn [truthy_str default from_option Datatypes.id].
  apply String.eqb_neq in Hne. unfold nonempty. rewrite Hne. cbn [negb].
  rewrite Hparse.
  destruct rows as [|h hs].
  - done.
  - unfold ask. simpl.
    destruct (consent_upsert_ignore (h :: hs) b) as [[d [err|]|reason] b2];
      simpl; rewrite <- ?app_assoc; done.
Qed.

End Consent.

(** ** [cleanupTestData] *)

Section CleanupProps.
Import Gateway Cleanup.
Context `{Runtime} {R : Type} `{Tables R} (e : Env).

Lemma filterReal_spec (l : list value) :
  (∀ x, x ∈ l → ∃ b, isTestData x = Normal b) →
  filterReal l
  = Normal (List.filter (λ x, match isTestData x with
                              | Normal false => true
                              | _ => false
                              end) l).
Proof.
  induction l as [|x rest IH]; intros Hall; [done|].
  cbn [filterReal List.filter].
  destruct (Hall x) as [b Hb]; [by left|]. rewrite Hb.
  rewrite IH by (intros y Hy; apply Hall; by right).
  by destruct b.
Qed.

Lemma filterReal_length (l kept : list value) :
  filterReal l = Normal kept → (length kept ≤ length l)%nat.
Proof.
  revert kept. induction l as [|x rest IH]; intros kept; simpl.
  - by intros [= <-].
  - destruct (isTestData x) as [b|err]; [|done].
    destruct (filterReal rest) as [kept'|err]; [|done].
    specialize (IH kept' eq_refl).
    intros [= <-]. destruct b; simpl; lia.
Qed.

Lemma filterReal_kept (l kept : list value) :
  filterReal l = Normal kept →
  Forall (λ x, isTestData x = Normal false) kept.
Proof.
  revert kept. induction l as [|x rest IH]; intros kept; simpl.
  - intros [= <-]. constructor.
  - destruct (isTestData x) as [b|err] eqn:Hx; [|done].
    destruct (filterReal rest) as [kept'|err]; [|done].
    specialize (IH kept' eq_refl).
    intros [= <-]. destruct b; [done|]. by constructor.
Qed.

Lemma filterReal_fixed (kept : list value) :
  Forall (λ x, isTestData x = Normal false) kept →
  filterReal kept = Normal kept.
Proof.
  induction 1 as [|x rest Hx _ IH]; simpl; [done|].
  by rewrite Hx, IH.
Qed.

Lemma cleanupRemote_frame (s : Site R) :
  site_storage (cleanupRemote e s).2 = site_storage s
  ∧ site_queries (cleanupRemote e s).2
    = site_queries s ++ match supabase e with
                        | Some _ => [TestDiariesDelete]
                        | None => []
                        end.
Proof.
  unfold cleanupRemote. destruct (supabase e).
  - destruct (ask_frame TestDiariesDelete test_diaries_delete s) as [Hs Hq].
    destruct (ask TestDiariesDelete test_diaries_delete s)
      as [[[data|] [err|]|reason] s1]; done.
  - by rewrite app_nil_r.
Qed.

(** On a stored array whose records can all be classified, the cleanup keeps
    exactly the records that are not test data, in their order, writes them
    back under [journalEntries] and leaves every other key alone; the count it
    reports and the number of records kept add up to the number of records
    there were. *)
Theorem cleanupTestData_keeps_real (s : Site R) (text : string) (l : list value) :
  site_storage s !! "journalEntries" = Some text →
  text ≠ EmptyString →
  JSON_parse text = Some (VArr l) →
  (∀ x, x ∈ l → ∃ b, isTestData x = Normal b) →
  let '(r, s') := cleanupTestData e s in
  let kept := List.filter (λ x, match isTestData x with
                                | Normal false => true
                                | _ => false
                                end) l in
  Cleanup.success r = true
  ∧ (localRemoved r + length kept)%nat = length l
  ∧ site_storage s'
    = <["journalEntries" := JSON_stringify (VArr kept)]> (site_storage s)
  ∧ Forall (λ x, isTestData x = Normal false) kept.
Proof.
  intros Htext Hne Hparse Hall.
  pose proof (filterReal_spec l Hall) as Hfilter.
  pose proof (filterReal_length l _ Hfilter) as Hlen.
  pose proof (filterReal_kept l _ Hfilter) as Hkept.
  unfold cleanupTestData, cleanupLocal.
  rewrite Htext. cbn [truthy_str default from_option Datatypes.id].
  apply String.eqb_neq in Hne. unfold nonempty. rewrite Hne. cbn [negb].
  rewrite Hparse. cbn [entries_filter]. rewrite Hfilter.
  match goal with
  | |- context [ cleanupRemote e ?s1 ] =>
      destruct (cleanupRemote_frame s1) as [Hs _];
      destruct (cleanupRemote e s1) as [deleted s2]
  end.
  simpl in *. repeat split; [lia | done | done].
Qed.

(** A cleanup that fails changes nothing at all: [success] is [false] only
    when reading the local collection raised, and then nothing was written,
    the remote deletion was not attempted and both counts are 0.  A cleanup
    that succeeds has issued the remote deletion exactly when there is a
    client. *)
Theorem cleanupTestData_failure (s : Site R) :
  let '(r, s') := cleanupTestData e s in
  if Cleanup.success r
  then site_queries s'
       = site_queries s ++ match supabase e with
                           | Some _ => [TestDiariesDelete]
                           | None => []
                           end
  else s' = s ∧ localRemoved r = 0 ∧ supabaseRemoved r = 0.
Proof.
  unfold cleanupTestData.
  assert (site_queries (cleanupLocal s).2 = site_queries s) as Hq.
  { unfold cleanupLocal. destruct (truthy_str _); [|done].
    destruct (JSON_parse _) as [entries|]; [|done].
    by destruct (entries_filter entries) as [[kept total]|err]. }
  assert (∀ err, (cleanupLocal s).1 = Throw err → (cleanupLocal s).2 = s) as Hs.
  { intros err. unfold cleanupLocal. destruct (truthy_str _); [|done].
    destruct (JSON_parse _) as [entries|]; [|done].
    by destruct (entries_filter entries) as [[kept total]|err']. }
  destruct (cleanupLocal s) as [[removed|err] s1]; simpl in *.
  - destruct (cleanupRemote_frame s1) as [_ Hq2].
    destruct (cleanupRemote e s1) as [deleted s2]. simpl in *.
    by rewrite Hq2, Hq.
  - by rewrite (Hs err eq_refl).
Qed.

(** Cleaning up twice removes nothing the second time: after a cleanup that
    kept [kept], a second one finds no test data, reports 0 and writes the
    same text again, provided [JSON.parse] reads back what [JSON.stringify]
    wrote. *)
Theorem cleanupTestData_twice (s : Site R) (text : string) (l kept : list value) :
  site_storage s !! "journalEntries" = Some text →
  text ≠ EmptyString →
  JSON_parse text = Some (VArr l) →
  filterReal l = Normal kept →
  JSON_stringify (VArr kept) ≠ EmptyString →
  JSON_parse (JSON_stringify (VArr kept)) = Some (VArr kept) →
  let s1 := (cleanupTestData e s).2 in
  let '(r2, s2) := cleanupTestData e s1 in
  Cleanup.success r2 = true
  ∧ localRemoved r2 = 0
  ∧ site_storage s2 = site_storage s1.
Proof.
  intros Htext Hne Hparse Hfilter Hne2 Hparse2.
  pose proof (filterReal_fixed kept (filterReal_kept l kept Hfilter)) as Hfixed.
  assert (site_storage (cleanupTestData e s).2
          = <["journalEntries" := JSON_stringify (VArr kept)]> (site_storage s))
    as Hfirst.
  { unfold cleanupTestData, cleanupLocal.
    rewrite Htext. cbn [truthy_str default from_option Datatypes.id].
    apply String.eqb_neq in Hne. unfold nonempty. rewrite Hne. cbn [negb].
    rewrite Hparse. cbn [entries_filter]. rewrite Hfilter.
    match goal with
    | |- context [ cleanupRemote e ?s1 ] =>
        destruct (cleanupRemote_frame s1) as [Hs _];
        destruct (cleanupRemote e s1) as [deleted s2]
    end.
    done. }
  cbv zeta.
  generalize dependent (cleanupTestData e s).2. intros s1 Hfirst.
  unfold cleanupTestData, cleanupLocal.
  rewrite Hfirst, lookup_insert_eq.
  cbn [truthy_str default from_option Datatypes.id].
  apply String.eqb_neq in Hne2. unfold nonempty. rewrite Hne2. cbn [negb].
  rewrite Hparse2. cbn [entries_filter]. rewrite Hfixed.
  match goal with
  | |- context [ cleanupRemote e ?s1 ] =>
      destruct (cleanupRemote_frame s1) as [Hs _];
      destruct (cleanupRemote e s1) as [deleted s2]
  end.
  simpl in *. repeat split; [lia|].
  rewrite Hs, Hfirst. by rewrite insert_insert_eq.
Qed.

End CleanupProps.

(** ** Export and restore *)

Section RestoreFlows.
Import AdminBackupRestore.
Context `{Runtime}.

Lemma restoreDocument_outcome (doc : value) (p : Page) :
  let '(outcome, p') := restoreDocument doc p in
  match outcome with
  | Normal _ =>
    status p'
    = Some {| message := "バックアップからの復元が完了しました！ページを再読み込みしてください。";
              success := true |}
    ∧ reloadScheduled p' = true
    ∧ restoreInProgress p' = restoreInProgress p
  | Throw _ => p' = p
  end.
Proof.
  unfold restoreDocument.
  destruct (get_prop doc "metadata") as [[meta|]|]; [|done..].
  destruct (negb (truthy (Some meta)) || _); [done|].
  destruct (default undefined (get_prop doc "localStorage")) as [section|];
    [|done].
  by destruct (truthy (Some section)).
Qed.

(** A confirmed restore always ends with a status.  With a failure status
    the local storage is exactly as before, no reload is armed and the
    in-progress flag is cleared; with the success status the reload is armed
    and the in-progress flag is left set.  A restore that is not confirmed
    changes nothing, and without a chosen file only the status changes. *)
Theorem restore_storage_only_on_success (ev : FileEvent) (p : Page) :
  (let p' := handleRestoreFromBackup (Some ev) true p in
   ∃ st, status p' = Some st
         ∧ if success st
           then reloadScheduled p' = true ∧ restoreInProgress p' = true
           else localStorage p' = localStorage p
                ∧ reloadScheduled p' = reloadScheduled p
                ∧ restoreInProgress p' = false)
  ∧ handleRestoreFromBackup (Some ev) false p = p
  ∧ (let p' := handleRestoreFromBackup None true p in
     localStorage p' = localStorage p
     ∧ restoreInProgress p' = restoreInProgress p
     ∧ reloadScheduled p' = reloadScheduled p
     ∧ ∃ st, status p' = Some st ∧ success st = false).
Proof.
  split; [|split; [done|]].
  2: { simpl. repeat split. eauto. }
  cbv zeta. unfold handleRestoreFromBackup. cbn [negb].
  destruct ev as [result|]; [|by eexists].
  unfold onload.
  destruct result as [text|]; [|by eexists].
  destruct (JSON_parse text) as [doc|]; [|by eexists].
  match goal with
  | |- context [ restoreDocument doc ?p0 ] =>
      pose proof (restoreDocument_outcome doc p0) as Hout;
      destruct (restoreDocument doc p0) as [[[]|err] p1]
  end.
  - destruct Hout as (Hst & Hreload & Hprog). eexists. split; [exact Hst|].
    by simpl.
  - subst p1. by eexists.
Qed.

Lemma foldl_insert_cases {V} (f : V → string) (l : list (string * V)) (k : string) :
  (∀ st : gmap string string,
     foldl (λ st kv, <[kv.1 := f kv.2]> st) st l !! k = st !! k)
  ∨ (∃ v, ∀ st : gmap string string,
       foldl (λ st kv, <[kv.1 := f kv.2]> st) st l !! k = Some v).
Proof.
  induction l as [|[k' x] rest IH]; simpl; [by left|].
  destruct IH as [IH | [v IH]].
  - destruct (decide (k' = k)) as [->|Hne].
    + right. exists (f x). intros st. by rewrite IH, lookup_insert_eq.
    + left. intros st. by rewrite IH, lookup_insert_ne.
  - right. exists v. intros st. apply IH.
Qed.

Lemma kept_preserved (m : gmap string string) :
  foldl (λ st kv, <[kv.1 := kv.2]> st) (∅ : gmap string string) (map_to_list m) = m.
Proof.
  apply map_eq. intros k.
  rewrite (foldl_map_to_list (λ v : string, v)).
  by destruct (m !! k).
Qed.

Lemma restoreLocalStorage_idempotent (section : value) (ls : gmap string string) :
  restoreLocalStorage section (restoreLocalStorage section ls)
  = restoreLocalStorage section ls.
Proof.
  apply map_eq. intros k. unfold restoreLocalStorage at 1 3.
  rewrite !kept_preserved.
  destruct (foldl_insert_cases restoredValue (Object_entries section) k)
    as [Hthrough | [v Hwritten]].
  2: { by rewrite !Hwritten. }
  rewrite !Hthrough, !preserve_lookup.
  case_decide as Hk; [|done]. subst k.
  unfold restoreLocalStorage. rewrite kept_preserved.
  rewrite Hthrough, preserve_lookup.
  rewrite decide_True by done.
  destruct (ls !! "current_counselor") as [v|]; [|done].
  destruct (nonempty v) eqn:Hv; [|done]. by rewrite Hv.
Qed.

(** Restoring the same document again changes nothing: a restore that
    succeeded leaves a page on which a second restore from that document
    succeeds with the very same page, whatever the [localStorage] section of
    the document is. *)
Theorem restoreDocument_idempotent (doc : value) (p p' : Page) :
  restoreDocument doc p = (Normal tt, p') →
  restoreDocument doc p' = (Normal tt, p').
Proof.
  unfold restoreDocument.
  destruct (get_prop doc "metadata") as [[meta|]|]; [|done..].
  destruct (negb (truthy (Some meta)) || _); [done|].
  destruct (default undefined (get_prop doc "localStorage")) as [section|].
  - destruct (truthy (Some section)).
    + intros [= <-]. simpl. by rewrite restoreLocalStorage_idempotent.
    + by intros [= <-].
  - by intros [= <-].
Qed.

End RestoreFlows.

Section ExportFlows.
Import Gateway AdminBackupRestore FullBackup.
Context `{Runtime} `{Pretty} {R : Type} `{Tables R} (e : Env).

Lemma foldl_collect_absent (l : list (string * string)) (acc : gmap string value)
    (k : string) :
  k ∉ l.*1 →
  foldl (fun acc kv =>
           if nonempty kv.1 && nonempty kv.2
           then <[kv.1 := match JSON_parse kv.2 with
                          | Some x => x
                          | None => VStr kv.2
                          end]> acc
           else acc) acc l !! k = acc !! k.
Proof.
  revert acc. induction l as [|[k' v] l IH]; intros acc Hk; simpl; [done|].
  rewrite fmap_cons, not_elem_of_cons in Hk. destruct Hk as [Hne Hk].
  rewrite IH by done.
  destruct (nonempty k' && nonempty v); [|done].
  by rewrite lookup_insert_ne.
Qed.

Lemma foldl_collect_present (l : list (string * string)) (acc : gmap string value)
    (k v : string) :
  NoDup l.*1 → (k, v) ∈ l →
  foldl (fun acc kv =>
           if nonempty kv.1 && nonempty kv.2
           then <[kv.1 := match JSON_parse kv.2 with
                          | Some x => x
                          | None => VStr kv.2
                          end]> acc
           else acc) acc l !! k
  = if nonempty k && nonempty v
    then Some (match JSON_parse v with
               | Some x => x
               | None => VStr v
               end)
    else acc !! k.
Proof.
  revert acc. induction l as [|[k' v'] l IH]; intros acc Hnd Hin.
  - by apply elem_of_nil in Hin.
  - rewrite fmap_cons in Hnd. apply NoDup_cons in Hnd as [Hfresh Hnd].
    apply elem_of_cons in Hin as [[= -> ->] | Hin].
    + cbn [foldl]. rewrite foldl_collect_absent by done. cbn [fst snd].
      destruct (nonempty k' && nonempty v'); [|done].
      by rewrite lookup_insert_eq.
    + cbn [foldl]. rewrite IH by done. cbn [fst snd].
      destruct (nonempty k && nonempty v); [done|].
      destruct (nonempty k' && nonempty v'); [|done].
      rewrite lookup_insert_ne; [done|].
      intros ->. apply Hfresh. apply list_elem_of_fmap. by exists (k, v).
Qed.

Lemma collectLocalStorage_lookup (ls : gmap string string) (k : string) :
  collectLocalStorage ls !! k
  = match ls !! k with
    | Some v =>
      if nonempty k && nonempty v
      then Some (match JSON_parse v with
                 | Some x => x
                 | None => VStr v
                 end)
      else None
    | None => None
    end.
Proof.
  unfold collectLocalStorage.
  destruct (ls !! k) as [v|] eqn:Hk.
  - rewrite (foldl_collect_present _ _ k v).
    + by destruct (nonempty k && nonempty v).
    + apply NoDup_fst_map_to_list.
    + by apply elem_of_map_to_list.
  - rewrite foldl_collect_absent; [done|].
    intros Hin. apply list_elem_of_fmap in Hin as [[k' x] [-> Hin]].
    apply elem_of_map_to_list in Hin. simpl in Hk. congruence.
Qed.

(** Restoring the document of an export on the storage it was taken from
    always passes the version check and succeeds.  Afterwards a key holds a
    value exactly when it held a non-empty one under a non-empty name before;
    a value that is not JSON comes back as it was, a value that is JSON comes
    back as [JSON.stringify] writes it, except that a JSON string literal
    comes back as the string it denotes, without its quotes. *)
Theorem export_then_restore (timestamp : string) (supabaseData : value) (p : Page) :
  let doc := backupDocument timestamp (localStorage p) supabaseData in
  let '(outcome, p') := restoreDocument doc p in
  outcome = Normal tt
  ∧ ∀ k, localStorage p' !! k
         = match localStorage p !! k with
           | Some v =>
             if nonempty k && nonempty v
             then Some (match JSON_parse v with
                        | Some (VStr s) => s
                        | Some x => JSON_stringify x
                        | None => v
                        end)
             else None
           | None => None
           end.
Proof.
  cbv zeta. unfold restoreDocument, backupDocument.
  cbn [get_prop]. rewrite lookup_insert_eq.
  cbn [get_prop truthy negb orb default from_option Datatypes.id].
  rewrite lookup_insert_eq. cbn [truthy negb orb].
  assert (negb ("1.0" =? "")%string = true) as -> by done. cbn [negb].
  rewrite lookup_insert_ne by done. rewrite lookup_insert_eq.
  cbn [truthy default from_option Datatypes.id].
  split; [done|]. intros k. cbn [localStorage scheduleReload setStatus with_storage].
  rewrite restoreLocalStorage_lookup, collectLocalStorage_lookup, preserve_lookup.
  destruct (localStorage p !! k) as [v|] eqn:Hk.
  - destruct (nonempty k && nonempty v) eqn:Hkv.
    + by destruct (JSON_parse v) as [[]|].
    + case_decide as Hcc; [|done]. subst k. rewrite Hk.
      simpl in Hkv. by rewrite Hkv.
  - case_decide as Hcc; [|done]. subst k. by rewrite Hk.
Qed.

Lemma collectRelations_frame (rels : list string) (acc : gmap string value)
    (s : Site R) :
  let s' := (collectRelations rels acc s).2 in
  site_storage s' = site_storage s
  ∧ ∃ n : nat, (n ≤ length rels)%nat
         ∧ site_queries s' = site_queries s ++ (SelectAll <$> take n rels)
         ∧ (is_Some (collectRelations rels acc s).1 → n = length rels).
Proof.
  revert acc s. induction rels as [|rel rest IH]; intros acc s.
  - simpl. split; [done|]. exists 0. split; [lia|]. by rewrite app_nil_r.
  - cbn [collectRelations].
    destruct (ask_frame (SelectAll rel) (select_all rel) s) as [Hs Hq].
    destruct (ask (SelectAll rel) (select_all rel) s) as [[d [err|]|reason] s1];
      simpl in Hs, Hq.
    + destruct (IH acc s1) as (Hs' & n & Hn & Hq' & Hall).
      split; [congruence|]. exists (S n). split; [simpl; lia|].
      split; [|intros Hsome; simpl; f_equal; by apply Hall].
      rewrite Hq', Hq, <- app_assoc. done.
    + match goal with
      | |- context [ collectRelations rest ?a s1 ] =>
          destruct (IH a s1) as (Hs' & n & Hn & Hq' & Hall)
      end.
      split; [congruence|]. exists (S n). split; [simpl; lia|].
      split; [|intros Hsome; simpl; f_equal; by apply Hall].
      rewrite Hq', Hq, <- app_assoc. done.
    + simpl. split; [done|]. exists 1. split; [simpl; lia|].
      split; [by rewrite Hq|]. by intros [? [=]].
Qed.

(** The export never writes to the local storage.  It reads the six
    relations in the order users, diary_entries, consent_histories,
    counselors, chat_rooms, messages and stops at the first read that is
    rejected; without a client it reads none.  It always hands out exactly
    one file, reports success and clears the in-progress flag. *)
Theorem handleCreateFullBackup_frame (a : Admin R) :
  let a' := handleCreateFullBackup e a in
  site_storage (site a') = site_storage (site a)
  ∧ (∃ n : nat, (n ≤ 6)%nat
          ∧ site_queries (site a')
            = site_queries (site a) ++ (SelectAll <$> take n relations)
          ∧ match supabase e with
            | None => n = 0
            | Some _ => True
            end)
  ∧ (∃ file, downloads a' = downloads a ++ [file])
  ∧ backupInProgress a' = false
  ∧ (∃ st, FullBackup.status a' = Some st ∧ success st = true).
Proof.
  cbv zeta. unfold handleCreateFullBackup.
  assert (site_storage (collectSupabaseData e (site a)).2 = site_storage (site a)
          ∧ ∃ n : nat, (n ≤ 6)%nat
                 ∧ site_queries (collectSupabaseData e (site a)).2
                   = site_queries (site a) ++ (SelectAll <$> take n relations)
                 ∧ match supabase e with
                   | None => n = 0
                   | Some _ => True
                   end) as Hcollect.
  { unfold collectSupabaseData.
    destruct (supabase e) as [c|] eqn:Hc.
    2: { split; [done|]. exists 0. split; [lia|]. by rewrite app_nil_r. }
    rewrite (supabase_not_local e c Hc).
    destruct (collectRelations_frame relations ∅ (site a)) as (Hs & n & Hn & Hq & _).
    destruct (collectRelations relations ∅ (site a)) as [[collected|] s1];
      simpl in *; (split; [done|]); exists n; done. }
  destruct (collectSupabaseData e (site a)) as [supabaseData s1].
  destruct Hcollect as (Hs & Hq). simpl in *.
  split; [done|]. split; [done|]. split; [by eexists|]. split; [done|].
  by eexists.
Qed.

End ExportFlows.

(** ** The identity, once learned *)

Section IdentityFlows.
Context `{Runtime} (e : Env).

(** On the relation of the migration, once [createOrGetUser] has returned a
    row for a username, [getUserId] for that username (when the service
    answers) issues one lookup and returns the identifier of that row, or
    [null] when that identifier is the empty string. *)
Theorem getUserId_after_createOrGetUser (lineUsername : string)
    (w w1 : World Postgres.DB) (u : User) :
  createOrGetUser e lineUsername w = (Some u, w1) →
  served_next (remote w1) = true →
  let '(found, w2) := getUserId e lineUsername w1 in
  found = (if nonempty (id u) then Some (id u) else None)
  ∧ calls w2 = calls w1 ++ [UsersSelectIdSingle lineUsername]
  ∧ Postgres.users (remote w2) = Postgres.users (remote w1).
Proof.
  intros Hfirst Hserved.
  apply createOrGetUser_stored in Hfirst as [[c Hc] Hrows].
  unfold getUserId. rewrite Hc, (supabase_not_local e c Hc).
  unfold await. simpl. rewrite serve_served by done.
  unfold Postgres.select_id_single.
  change (Postgres.rows_named lineUsername (Postgres.with_faults _ (remote w1)))
    with (Postgres.rows_named lineUsername (remote w1)).
  by rewrite Hrows.
Qed.

(** The identity [initializeUser] stores is the one later passes use: when
    the device user is known and [createOrGetUser] answers with a row whose
    identifier is neither empty nor the sentinel, [initializeUser] stores
    that row at the cost of the requests of that one call, and a pass created
    by a render after it resolves the identity without any request, to the
    identifier of the row whenever the device user has a name. *)
Theorem initializeUser_identity_reused {R : Type} `{Backend R} (rev : Revision)
    (w w1 : World R) (u : DeviceUser) (row : User) :
  is_Some (supabase e) →
  auth w = Some u →
  createOrGetUser e (lineUsername u) w = (Some row, w1) →
  id row ≠ EmptyString →
  id row ≠ local_user_id →
  let w' := (HookInit.initializeUser e w).2 in
  currentUser (hook w') = Some row
  ∧ calls w' = calls w1
  ∧ localStorage w' = localStorage w
  ∧ ∀ w2 : World R,
      (resolveUserId_of e rev (render (hook w')) w2).2 = w2
      ∧ (auth w2 = Some u → lineUsername u ≠ EmptyString →
         (resolveUserId_of e rev (render (hook w')) w2).1 = Some (id row)).
Proof.
  intros [c Hc] Hauth Hcreate Hid Hsentinel.
  pose proof (createOrGetUser_frame e (lineUsername u) w) as Hframe.
  rewrite Hcreate in Hframe. destruct Hframe as (Hls & _). cbn [snd] in Hls.
  assert ((HookInit.initializeUser e w).2
          = (setCurrentUser (Some row) w1).2) as ->.
  { unfold HookInit.initializeUser. rewrite Hc, (supabase_not_local e c Hc).
    unfold bind, getCurrentUser. rewrite Hauth. by rewrite Hcreate. }
  cbv zeta. split; [done|]. split; [done|]. split; [done|].
  assert (currentUserId (render (hook (setCurrentUser (Some row) w1).2)) = id row)
    as Hknown.
  { unfold currentUserId, render. simpl.
    apply String.eqb_neq in Hid. unfold nonempty. by rewrite Hid. }
  generalize dependent (render (hook (setCurrentUser (Some row) w1).2)).
  intros seen Hknown.
  assert (currentUserId seen ≠ local_user_id) as Hfresh by congruence.
  assert (nonempty (lineUsername u) = true ↔ lineUsername u ≠ EmptyString) as Hname.
  { unfold nonempty. rewrite negb_true_iff. apply String.eqb_neq. }
  intros w2. split.
  - by apply resolveUserId_known.
  - intros Hauth2 Hne. apply Hname in Hne.
    destruct rev; simpl.
    + unfold Part000.resolveUserId, bind, getCurrentUser, Part000.lineUsernameOf.
      rewrite Hauth2, Hne. unfold ret. cbn [fst snd truthy_str]. rewrite Hne.
      cbn [negb default from_option Datatypes.id].
      rewrite ensureUserId_known by done. by rewrite Hknown.
    + unfold UseAutoSync.resolveUserId, bind, getCurrentUser.
      rewrite Hauth2. cbn [fst snd]. rewrite Hne.
      rewrite ensureUserId_known by done. by rewrite Hknown.
Qed.

End IdentityFlows.

(** ** The fallback on the relation of the migration *)

Section FallbackRows.
Context `{Runtime} (e : Env).





End FallbackRows.

(** ** [syncData]: a pass that cannot resolve the identity *)

Section SilentFailure.
Context `{Runtime} {R : Type} `{Backend R} (e : Env).

Lemma createOrGetUser_hook (lineUsername : string) (w : World R) :
  hook (createOrGetUser e lineUsername w).2 = hook w.
Proof.
  unfold createOrGetUser.
  destruct (supabase e); [|done].
  destruct (isLocalMode e); [done|].
  unfold await.
  destruct (users_select_single lineUsername (remote w)) as [[d err|reason] b];
    [|done].
  destruct (match err with
            | Some e0 => negb (String.eqb (code e0) "PGRST116")
            | None => false
            end); [done|].
  destruct d as [u|]; [done|]. simpl.
  by destruct (users_insert_select_single lineUsername b) as [[d2 [err2|]|reason] b2].
Qed.

Lemma ensureUserId_error (seen : Closure) (lineUsername : string) (w : World R) :
  error (hook (ensureUserId e seen lineUsername w).2) = error (hook w).
Proof.
  unfold ensureUserId.
  destruct (negb (nonempty (currentUserId seen))
            || String.eqb (currentUserId seen) local_user_id); [|done].
  destruct (isLocalMode e); [done|].
  unfold bind.
  pose proof (createOrGetUser_hook lineUsername w) as Hhook.
  destruct (createOrGetUser e lineUsername w) as [[u|] w1]; simpl in Hhook;
    [|simpl; congruence].
  destruct (negb (nonempty (id u))); simpl; congruence.
Qed.

Lemma resolveUserId_error (rev : Revision) (seen : Closure) (w : World R) :
  error (hook (resolveUserId_of e rev seen w).2) = error (hook w).
Proof.
  destruct rev; simpl.
  - unfold Part000.resolveUserId, bind, getCurrentUser, Part000.lineUsernameOf.
    destruct (auth w) as [u|].
    + destruct (nonempty (lineUsername u)) eqn:Hu; simpl.
      * rewrite Hu. simpl. apply ensureUserId_error.
      * unfold getItem.
        destruct (negb (truthy_str (localStorage w !! "line-username"))).
        -- by destruct (isLocalMode e).
        -- apply ensureUserId_error.
    + unfold getItem.
      destruct (negb (truthy_str (localStorage w !! "line-username"))).
      * by destruct (isLocalMode e).
      * apply ensureUserId_error.
  - unfold UseAutoSync.resolveUserId, bind, getCurrentUser.
    destruct (auth w) as [u|]; simpl.
    + destruct (nonempty (lineUsername u)).
      * apply ensureUserId_error.
      * by destruct (isLocalMode e).
    + by destruct (isLocalMode e).
Qed.

(** A pass that cannot resolve the identity (no username, or
    [createOrGetUser] gave no usable row) fails silently: it returns [false]
    with [error] left at [null], lowers the flag, leaves the local storage and
    the last-sync time alone and has issued requests on [users] only. *)
Theorem syncData_identity_failure (rev : Revision) (seen : Closure) (w : World R) :
  passes_guards seen e = true →
  (resolveUserId_of e rev seen (enter w).2).1 = None →
  let '(result, w') := syncData_of e rev seen w in
  result = false
  ∧ error (hook w') = None
  ∧ isSyncing (hook w') = false
  ∧ localStorage w' = localStorage w
  ∧ lastSyncTime (hook w') = lastSyncTime (hook w)
  ∧ ∃ extra, calls w' = calls w ++ extra ∧ Forall users_request extra.
Proof.
  intros Hg Hnone.
  destruct (syncData_of_unfold e rev seen) as (normalize & ->).
  rewrite guarded_passes by done.
  pose proof (resolveUserId_frame e rev seen (enter w).2) as Hframe.
  pose proof (resolveUserId_error rev seen (enter w).2) as Herr.
  unfold bind at 1 2.
  destruct (resolveUserId_of e rev seen (enter w).2) as [uid w1].
  simpl in Hnone. subst uid.
  destruct Hframe as (Hls & _ & _ & _ & Hlast & extra & Hcalls & Hextra).
  simpl in *. repeat split; try done.
  exists extra. by split.
Qed.

End SilentFailure.

(** ** The further properties at concrete inputs *)

Section FurtherExamples.
Import Fixture Fixture2 Gateway.
#[local] Existing Instance Fixture2.one_record.
#[local] Existing Instance Fixture2.accepting.
#[local] Existing Instance Fixture2.consents.

(** An accepted bulk upsert of one record: one request, no retry. *)
Lemma syncDiaries_without_fallback_witness :
  let w := accepting_world ∅ signed_in (Some alice) in
  let '(result, w2) := syncDiaries online "uuid-0" [good_entry] w in
  calls w2 = [DiaryEntriesUpsert sent_rows]
  ∧ Supabase.success result = true
  ∧ length sent_rows = 1.
Proof.
  intros w.
  pose proof (syncDiaries_without_fallback online "uuid-0" [good_entry] w sent.2
                sent_rows (Resolved None None) tt) as Hthm.
  assert (is_Some (supabase online)) as H1 by (vm_compute; eauto).
  assert ("uuid-0" ≠ EmptyString) as H2 by done.
  assert ("uuid-0" ≠ local_user_id) as H3 by done.
  assert (mapM (formatDiary "uuid-0") [good_entry] w = (Normal sent_rows, sent.2))
    as H4 by reflexivity.
  assert (diary_entries_upsert sent_rows (remote sent.2) = (Resolved None None, tt))
    as H5 by reflexivity.
  assert (∀ (data : any) (err : PostgrestError),
            Resolved None None ≠ Resolved data (Some err)) as H6 by done.
  specialize (Hthm H1 H2 H3 H4 H5 H6). cbv zeta in Hthm.
  destruct (syncDiaries online "uuid-0" [good_entry] w) as [result w2].
  destruct Hthm as (_ & Hcalls & Hlen & Hsuccess & _).
  split; [exact Hcalls|]. split; [exact Hsuccess | exact Hlen].
Defined.

(** A [null] after a complete record: nothing is sent. *)
Lemma syncDiaries_null_record_witness :
  let w := accepting_world ∅ signed_in (Some alice) in
  let '(result, w') := syncDiaries online "uuid-0" [good_entry; VNull] w in
  Supabase.success result = false ∧ calls w' = [].
Proof.
  intros w.
  pose proof (syncDiaries_null_record online "uuid-0" [good_entry; VNull] w) as Hthm.
  assert (is_Some (supabase online)) as H1 by (vm_compute; eauto).
  assert ("uuid-0" ≠ EmptyString) as H2 by done.
  assert ("uuid-0" ≠ local_user_id) as H3 by done.
  assert (VNull ∈ [good_entry; VNull]) as H4
    by (apply elem_of_cons; right; apply elem_of_cons; left; reflexivity).
  specialize (Hthm H1 H2 H3 H4).
  destruct (syncDiaries online "uuid-0" [good_entry; VNull] w) as [result w'].
  destruct Hthm as (Hs & _ & Hcalls & _).
  split; [exact Hs | exact Hcalls].
Defined.

Lemma normalizeEntry_idempotent_witness :
  let w := accepting_world ∅ idle None in
  (Part000.normalizeEntry good_entry w).1 = Normal normalized
  ∧ truthy (normalized !! "created_at") = true
  ∧ Part000.normalizeEntry (VObj normalized) w = (Normal normalized, w).
Proof.
  intros w.
  assert (Part000.normalizeEntry (VObj good_record) w
          = (Normal normalized, (Part000.normalizeEntry good_entry w).2)) as H1
    by reflexivity.
  assert (truthy (normalized !! "created_at") = true) as H2
    by (vm_compute; reflexivity).
  split; [reflexivity|]. split; [exact H2|].
  exact (normalizeEntry_idempotent good_record normalized w _ w H1 H2).
Defined.

(** A stored object in place of the array. *)
Lemma syncData_malformed_collection_witness :
  let w := accepting_world {[ "journalEntries" := "{}" ]} signed_in (Some alice) in
  let '(result, w') := syncData_of online Reconciling (render (hook w)) w in
  result = false
  ∧ is_Some (error (hook w'))
  ∧ isSyncing (hook w') = false
  ∧ calls w' = [].
Proof.
  intros w.
  pose proof (syncData_malformed_collection online Reconciling (render (hook w)) w
                (enter w).2 "uuid-0" "{}") as Hthm.
  assert (JSON_parse "{}" = None
          ∨ ∃ v, JSON_parse "{}" = Some v ∧ ∀ l, v ≠ VArr l) as H4.
  { right. exists (VObj ∅). split; [vm_compute; reflexivity | done]. }
  assert (localStorage w !! "journalEntries" = Some "{}") as H2
    by (vm_compute; reflexivity).
  assert ("{}" ≠ EmptyString) as H3 by done.
  assert (resolveUserId_of online Reconciling (render (hook w)) (enter w).2
          = (Some "uuid-0", (enter w).2)) as H5 by reflexivity.
  specialize (Hthm eq_refl H2 H3 H4 H5).
  destruct (syncData_of online Reconciling (render (hook w)) w) as [result w'].
  destruct Hthm as (Hr & Herr & Hflag & _ & Hcalls & _).
  split; [exact Hr|]. split; [exact Herr|]. split; [exact Hflag | exact Hcalls].
Defined.

(** A stored collection of one record, sent in one request. *)
Lemma syncData_sends_collection_witness :
  let w := accepting_world {[ "journalEntries" := one_diary ]} signed_in (Some alice) in
  let '(result, w') := syncData_of online Reconciling (render (hook w)) w in
  result = true
  ∧ (∃ rows, calls w' = [DiaryEntriesUpsert rows] ∧ length rows = 1)
  ∧ isSyncing (hook w') = false.
Proof.
  intros w.
  pose proof (syncData_sends_collection online Reconciling (render (hook w)) w
                (enter w).2 "uuid-0" one_diary [good_record]) as Hthm.
  assert (localStorage w !! "journalEntries" = Some one_diary) as H2
    by (vm_compute; reflexivity).
  assert (one_diary ≠ EmptyString) as H3 by done.
  assert (JSON_parse one_diary = Some (VArr (VObj <$> [good_record]))) as H4
    by (vm_compute; reflexivity).
  assert (resolveUserId_of online Reconciling (render (hook w)) (enter w).2
          = (Some "uuid-0", (enter w).2)) as H5 by reflexivity.
  assert ("uuid-0" ≠ EmptyString) as H6 by done.
  assert ("uuid-0" ≠ local_user_id) as H7 by done.
  assert (∀ (rows : list (gmap string value)) (b : unit),
            accepted (diary_entries_upsert rows b).1 = true) as H8 by done.
  specialize (Hthm eq_refl H2 H3 H4 H5 H6 H7 H8).
  destruct (syncData_of online Reconciling (render (hook w)) w) as [result w'].
  destruct Hthm as (Hr & (rows & Hcalls & Hlen & _) & _ & _ & Hflag).
  split; [exact Hr|]. split; [|exact Hflag].
  exists rows. split; [exact Hcalls | exact Hlen].
Defined.

(** Local-only mode: the record is not stored, locally or remotely. *)
Lemma local_mode_services_witness :
  let s := site_of {[ "consent_histories" := "[]" ]} [] in
  isLocalMode local_mode = true
  ∧ saveConsentHistory local_mode good_entry s
    = ({| Supabase.success := false; sync_error := Some "Supabase接続なし";
          sync_data := undefined |}, s)
  ∧ syncConsentHistories local_mode s = (false, s).
Proof.
  intros s.
  destruct (local_mode_services local_mode good_entry "uuid-0" "room" "hello"
              None None s eq_refl) as (_ & _ & _ & _ & Hsave & Hup & _).
  split; [reflexivity|]. split; [exact Hsave | exact Hup].
Defined.


(** One stored consent record, downloaded and uploaded again. *)
Lemma consent_round_trip_witness :
  let s := site_of ∅ [good_entry] in
  let '(down, s1) := syncConsentHistoriesToLocal online s in
  let '(up, s2) := syncConsentHistories online s1 in
  down = true
  ∧ site_storage s2 !! "consent_histories" = Some one_diary
  ∧ site_queries s2 = [ConsentSelectOrdered; ConsentUpsertIgnore [good_entry]].
Proof.
  intros s.
  pose proof (consent_round_trip online s [good_entry] [good_entry]) as Hthm.
  assert (is_Some (supabase online)) as H1 by (vm_compute; eauto).
  assert (JSON_stringify (VArr [good_entry]) ≠ EmptyString) as H3 by done.
  assert (JSON_parse (JSON_stringify (VArr [good_entry])) = Some (VArr [good_entry]))
    as H4 by (vm_compute; reflexivity).
  specialize (Hthm H1 eq_refl H3 H4).
  destruct (syncConsentHistoriesToLocal online s) as [down s1].
  destruct (syncConsentHistories online s1) as [up s2].
  destruct Hthm as (Hdown & Hls & Hq & _).
  split; [exact Hdown|]. split; [|exact Hq].
  rewrite Hls. apply lookup_insert_eq.
Defined.

(** A collection of a real record and a test record: the test record goes. *)
Lemma cleanupTestData_keeps_real_witness :
  let s := site_of {[ "journalEntries" := two_diaries ]} [] in
  let '(r, s') := Cleanup.cleanupTestData online s in
  Cleanup.success r = true
  ∧ Cleanup.localRemoved r = 1
  ∧ site_storage s' !! "journalEntries" = Some one_diary.
Proof.
  intros s.
  pose proof (cleanupTestData_keeps_real online s two_diaries
                [good_entry; test_entry]) as Hthm.
  assert (site_storage s !! "journalEntries" = Some two_diaries) as H1
    by (vm_compute; reflexivity).
  assert (two_diaries ≠ EmptyString) as H2 by done.
  assert (JSON_parse two_diaries = Some (VArr [good_entry; test_entry])) as H3
    by (vm_compute; reflexivity).
  assert (∀ x, x ∈ [good_entry; test_entry] → ∃ b, Cleanup.isTestData x = Normal b)
    as H4.
  { intros x Hx. apply elem_of_cons in Hx as [-> | Hx].
    - exists false. vm_compute. reflexivity.
    - apply elem_of_cons in Hx as [-> | Hx].
      + exists true. vm_compute. reflexivity.
      + by apply elem_of_nil in Hx. }
  specialize (Hthm H1 H2 H3 H4).
  destruct (Cleanup.cleanupTestData online s) as [r s'].
  destruct Hthm as (Hs & Hcount & Hls & _).
  assert (List.filter (λ x, match Cleanup.isTestData x with
                            | Normal false => true
                            | _ => false
                            end) [good_entry; test_entry] = [good_entry]) as Hkept
    by (vm_compute; reflexivity).
  rewrite Hkept in Hcount, Hls.
  split; [exact Hs|]. split.
  - simpl in Hcount. lia.
  - rewrite Hls. apply lookup_insert_eq.
Defined.

Lemma cleanupTestData_twice_witness :
  let s := site_of {[ "journalEntries" := two_diaries ]} [] in
  let s1 := (Cleanup.cleanupTestData online s).2 in
  let '(r2, s2) := Cleanup.cleanupTestData online s1 in
  Cleanup.filterReal [good_entry; test_entry] = Normal [good_entry]
  ∧ Cleanup.success r2 = true
  ∧ Cleanup.localRemoved r2 = 0
  ∧ site_storage s2 = site_storage s1.
Proof.
  intros s s1.
  pose proof (cleanupTestData_twice online s two_diaries
                [good_entry; test_entry] [good_entry]) as Hthm.
  assert (site_storage s !! "journalEntries" = Some two_diaries) as H1
    by (vm_compute; reflexivity).
  assert (two_diaries ≠ EmptyString) as H2 by done.
  assert (JSON_parse two_diaries = Some (VArr [good_entry; test_entry])) as H3
    by (vm_compute; reflexivity).
  assert (Cleanup.filterReal [good_entry; test_entry] = Normal [good_entry]) as H4
    by (vm_compute; reflexivity).
  assert (JSON_stringify (VArr [good_entry]) ≠ EmptyString) as H5 by done.
  assert (JSON_parse (JSON_stringify (VArr [good_entry])) = Some (VArr [good_entry]))
    as H6 by (vm_compute; reflexivity).
  specialize (Hthm H1 H2 H3 H4 H5 H6). cbv zeta in Hthm. fold s1 in Hthm.
  destruct (Cleanup.cleanupTestData online s1) as [r2 s2].
  split; [exact H4 | exact Hthm].
Defined.

Lemma restoreDocument_idempotent_witness :
  let p := page {[ "current_counselor" := "X"; "line-username" := "alice" ]} in
  let once := AdminBackupRestore.restoreDocument backup p in
  once.1 = Normal tt
  ∧ AdminBackupRestore.restoreDocument backup once.2 = (Normal tt, once.2).
Proof.
  intros p once.
  assert (once.1 = Normal tt) as H1 by reflexivity.
  split; [exact H1|].
  apply (restoreDocument_idempotent backup p once.2).
  rewrite (surjective_pairing (AdminBackupRestore.restoreDocument backup p)).
  by f_equal.
Defined.

(** The row the first call inserted is the one [getUserId] finds. *)
Lemma getUserId_after_createOrGetUser_witness :
  let w := world ∅ idle (Some alice) empty_db in
  let first := createOrGetUser online "alice" w in
  let '(found, w2) := getUserId online "alice" first.2 in
  first = (Some alice_row, first.2)
  ∧ found = Some "uuid-0"
  ∧ calls w2 = calls first.2 ++ [UsersSelectIdSingle "alice"].
Proof.
  intros w first.
  assert (first = (Some alice_row, first.2)) as Hfirst by (vm_compute; reflexivity).
  assert (served_next (remote first.2) = true) as Hserved by (vm_compute; reflexivity).
  pose proof (getUserId_after_createOrGetUser online "alice" w first.2 alice_row
                Hfirst Hserved) as Hthm.
  destruct (getUserId online "alice" first.2) as [found w2].
  destruct Hthm as (Hfound & Hcalls & _).
  split; [exact Hfirst|]. split; [exact Hfound | exact Hcalls].
Defined.

(** After [initializeUser] created the row, a pass asks for no identity. *)
Lemma initializeUser_identity_reused_witness :
  let w := world ∅ idle (Some alice) empty_db in
  let w' := (HookInit.initializeUser online w).2 in
  currentUser (hook w') = Some alice_row
  ∧ resolveUserId_of online Reconciling (render (hook w')) w' = (Some "uuid-0", w').
Proof.
  intros w w'.
  assert (is_Some (supabase online)) as H1 by (vm_compute; eauto).
  assert (createOrGetUser online (lineUsername alice) w
          = (Some alice_row, (createOrGetUser online "alice" w).2)) as H3
    by (vm_compute; reflexivity).
  assert (id alice_row ≠ EmptyString) as H4 by done.
  assert (id alice_row ≠ local_user_id) as H5 by done.
  destruct (initializeUser_identity_reused online Reconciling w _ alice alice_row
              H1 eq_refl H3 H4 H5) as (Huser & _ & _ & Hpass).
  split; [exact Huser|].
  set (res := resolveUserId_of online Reconciling (render (hook w')) w').
  assert (res.2 = w') as Hsame by exact (proj1 (Hpass w')).
  assert (res.1 = Some "uuid-0") as Hid
    by (apply (proj2 (Hpass w')); [reflexivity | done]).
  rewrite (surjective_pairing res), Hsame, Hid. reflexivity.
Defined.

(** No device user and no stored username: the pass ends without a word. *)
Lemma syncData_identity_failure_witness :
  let w := accepting_world ∅ idle None in
  let '(result, w') := syncData_of online Reconciling (render (hook w)) w in
  result = false
  ∧ error (hook w') = None
  ∧ isSyncing (hook w') = false
  ∧ localStorage w' = localStorage w.
Proof.
  intros w.
  pose proof (syncData_identity_failure online Reconciling (render (hook w)) w
                eq_refl eq_refl) as Hthm.
  destruct (syncData_of online Reconciling (render (hook w)) w) as [result w'].
  destruct Hthm as (Hr & Herr & Hflag & Hls & _).
  split; [exact Hr|]. split; [exact Herr|]. split; [exact Hflag | exact Hls].
Defined.

End FurtherExamples.

Section FallbackExample.
Import Fixture.
#[local] Existing Instance Fixture.runtime.


End FallbackExample.
